(** * APPV3: message routing, mode detection and DTC transport

    A shallow embedding of
      - [utils/trade_mode.py]        (mode detection and its debounce queue),
      - [core/message_router.py]     (signal handlers and the [route] entry),
      - [services/dtc_json_client.py] ([_send], [close], [_rx_loop]),
    followed by the properties established about them.

    Conventions of the embedding.
      - A JSON/Python value met in a message is a [pyval]: [None], a number
        or a string.  Numbers are exact rationals, so that Python's [==]
        between an [int] and a [float] is numeric equality.
      - A message ([dict]) is a finite map from field names to values.
      - Strings are sequences of 8-bit character codes; [str.strip] removes
        the code points below 256 for which [str.isspace] holds.
      - The wall clock ([time.time() * 1000]) is an explicit argument, in
        milliseconds.
      - Calls made on panels and collaborators are recorded, in order, as a
        list of [Event]s. *)

From Stdlib Require Import QArith Lqa.
From Stdlib Require Import Strings.Byte.
From stdpp Require Import gmap strings list sorting pretty.

(** ** Python values *)

Inductive pyval :=
  | VNone
  | VNum (q : Q)
  | VStr (s : string).

Abbreviation dict := (gmap string pyval).

(** [bool(v)] *)
Definition truthy (v : pyval) : bool :=
  match v with
  | VNone => false
  | VNum q => negb (Qeq_bool q 0)
  | VStr s => negb (String.eqb s "")
  end.

(** [a == b] *)
Definition py_eq (a b : pyval) : bool :=
  match a, b with
  | VNone, VNone => true
  | VNum x, VNum y => Qeq_bool x y
  | VStr x, VStr y => String.eqb x y
  | _, _ => false
  end.

(** [a or b] *)
Definition py_or (a b : pyval) : pyval := if truthy a then a else b.

(** [v is None] *)
Definition is_none (v : pyval) : bool :=
  match v with VNone => true | _ => false end.

(** [d.get(k)] and [d.get(k, dflt)] *)
Definition get (d : dict) (k : string) : pyval := default VNone (d !! k).
Definition get_or (d : dict) (k : string) (dflt : pyval) : pyval :=
  default dflt (d !! k).

Definition Qltb (a b : Q) : bool := negb (Qle_bool b a).

(** [float(n)] of an [int]: the nearest double, a tie going to the even
    significand; [None] when Python raises [OverflowError], which it does
    when the rounded value reaches 2^1024.  An [int] of at most 53 bits is
    its own double. *)
Definition float_of_int (n : Z) : option Z :=
  let a := Z.abs n in
  let bits := (Z.log2 a + 1)%Z in
  if (bits <=? 53)%Z then Some n
  else
    let k := (bits - 53)%Z in
    let m := Z.shiftr a k in
    let rest := Z.land a (Z.ones k) in
    let half := Z.shiftl 1 (k - 1) in
    let m' := if (half <? rest)%Z || ((rest =? half)%Z && Z.odd m) then (m + 1)%Z else m in
    let r := Z.shiftl m' k in
    if (2 ^ 1024 <=? r)%Z then None else Some (Z.sgn n * r)%Z.

(** [float(v)] of a number.  A number with a fractional part is a [float]
    already; a whole number is an [int], or a [float] that [float_of_int]
    leaves alone. *)
Definition float_of_num (q : Q) : option Q :=
  let r := Qred q in
  if Pos.eqb (Qden r) 1 then
    match float_of_int (Qnum r) with
    | Some z => Some (if Z.eqb z (Qnum r) then q else inject_Z z)
    | None => None
    end
  else Some q.

(** [f"{v:.2f}"] goes through: it raises for [None], for a string, and for
    an [int] that [float] refuses. *)
Definition formats_as_float (v : pyval) : bool :=
  match v with
  | VNum q => match float_of_num q with Some _ => true | None => false end
  | _ => false
  end.

(** [c.lower()] on the code points below 256. *)
Definition lower_char (c : Ascii.ascii) : Ascii.ascii :=
  let n := Ascii.nat_of_ascii c in
  if ((65 <=? n) && (n <=? 90)) || ((192 <=? n) && (n <=? 222) && negb (n =? 215))
  then Ascii.ascii_of_nat (n + 32)
  else c.

(** [s.lower()] *)
Fixpoint lower (s : string) : string :=
  match s with
  | EmptyString => EmptyString
  | String c s' => String (lower_char c) (lower s')
  end.

(** ** [utils/trade_mode.py] *)

Inductive Mode := LIVE | SIM | DEBUG.

Definition mode_eqb (a b : Mode) : bool :=
  match a, b with
  | LIVE, LIVE | SIM, SIM | DEBUG, DEBUG => true
  | _, _ => false
  end.

#[global] Instance Mode_eq_dec : EqDecision Mode.
Proof. solve_decision. Defined.

#[global] Instance Mode_countable : Countable Mode :=
  inj_countable'
    (fun m => match m with LIVE => 0 | SIM => 1 | DEBUG => 2 end)
    (fun n => match n with 0 => LIVE | 1 => SIM | _ => DEBUG end)
    (fun m => match m with LIVE | SIM | DEBUG => eq_refl end).

Module TradeMode.

(** [str.isspace] on the code points below 256. *)
Definition is_space (c : Ascii.ascii) : bool :=
  let n := Ascii.nat_of_ascii c in
  ((9 <=? n) && (n <=? 13)) || ((28 <=? n) && (n <=? 32))
  || (n =? 133) || (n =? 160).

Fixpoint lstrip (s : string) : string :=
  match s with
  | EmptyString => EmptyString
  | String c s' => if is_space c then lstrip s' else s
  end.

Fixpoint rstrip (s : string) : string :=
  match s with
  | EmptyString => EmptyString
  | String c s' =>
      match rstrip s' with
      | EmptyString => if is_space c then EmptyString else String c EmptyString
      | r => String c r
      end
  end.

(** [s.strip()] *)
Definition strip (s : string) : string := rstrip (lstrip s).

Definition DEBOUNCE_WINDOW_MS : Q := 750.
Definition REQUIRED_CONSECUTIVE : nat := 2.
Definition MAXLEN : nat := 10.

(** An entry of [_mode_candidates]: [(timestamp_ms, mode, account)]. *)
Record Candidate := mkCandidate {
  c_ts : Q;
  c_mode : Mode;
  c_account : pyval
}.

(** [live_account] is what [_get_live_account()] returns: the configured
    [LIVE_ACCOUNT], or the empty string when it is unset. *)
Definition detect_mode_from_account (live_account : string) (account : pyval) : Mode :=
  match account with
  | VStr s =>
      if String.eqb s "" then DEBUG
      else
        let a := strip s in
        if String.eqb a "" then DEBUG
        else if negb (String.eqb live_account "") && String.eqb a live_account then LIVE
        else if String.prefix "Sim" a then SIM
        else DEBUG
  | _ => DEBUG
  end.

(** [qty] is [VNone] for the default [qty=None]. *)
Definition should_switch_mode (account qty : pyval) (require_active_position : bool) : bool :=
  match account with
  | VStr s =>
      if String.eqb s "" then false
      else if String.eqb (strip s) "" then false
      else if negb (is_none qty) && require_active_position && py_eq qty (VNum 0)
           then false
      else true
  | _ => false
  end.

(** [deque(maxlen=10).append]: a full deque drops its leftmost entry. *)
Definition deque_append (q : list Candidate) (c : Candidate) : list Candidate :=
  let q' := q ++ [c] in
  if MAXLEN <? length q' then tail q' else q'.

(** [while q and q[0][0] < cutoff_ms: q.popleft()] *)
Fixpoint prune (cutoff_ms : Q) (q : list Candidate) : list Candidate :=
  match q with
  | [] => []
  | c :: q' => if Qltb (c_ts c) cutoff_ms then prune cutoff_ms q' else q
  end.

(** [list(q)[-n:]] for [n > 0] *)
Definition last_n (n : nat) (q : list Candidate) : list Candidate :=
  drop (length q - n) q.

Definition agrees (new_mode : Mode) (account : pyval) (c : Candidate) : bool :=
  mode_eqb (c_mode c) new_mode && py_eq (c_account c) account.

(** The queue after the append and the pruning of one call. *)
Definition pruned_queue (now_ms : Q) (new_mode : Mode) (account : pyval)
    (q : list Candidate) : list Candidate :=
  prune (now_ms - DEBOUNCE_WINDOW_MS) (deque_append q (mkCandidate now_ms new_mode account)).

(** Returns the verdict and the new contents of [_mode_candidates].
    [current_mode = None] stands for a missing or empty [current_mode]. *)
Definition should_switch_mode_debounced (live_account : string) (now_ms : Q)
    (account : pyval) (current_mode : option Mode) (qty : pyval)
    (q : list Candidate) : bool * list Candidate :=
  if negb (should_switch_mode account qty true) then (false, q)
  else
    let new_mode := detect_mode_from_account live_account account in
    if match current_mode with Some m => mode_eqb new_mode m | None => false end
    then (false, q)
    else
      let q2 := pruned_queue now_ms new_mode account q in
      if (REQUIRED_CONSECUTIVE <=? length q2)
         && forallb (agrees new_mode account) (last_n REQUIRED_CONSECUTIVE q2)
      then (true, [])
      else (false, q2).

(** [reset_debounce()] *)
Definition reset_debounce (q : list Candidate) : list Candidate := [].

(** The classification as the specification words it, on the account as
    given: empty, else the LIVE account, else the "Sim" prefix, else DEBUG. *)
Definition detect_as_specified (live_account account : string) : Mode :=
  if String.eqb account "" then DEBUG
  else if String.eqb account live_account then LIVE
  else if String.prefix "Sim" account then SIM
  else DEBUG.

End TradeMode.


(** ** Session State ([core/state_manager.py]) *)

Module StateManager.

(** Precedence of the modes: LIVE > SIM > DEBUG. *)
Definition precedence (m : Mode) : nat :=
  match m with LIVE => 2 | SIM => 1 | DEBUG => 0 end.

(** An open position, with the mode it was recorded under. *)
Record OpenPosition := mkOpenPosition {
  pos_qty : pyval;
  pos_avg : pyval;
  pos_mode : Mode
}.

(** Modelled from the spec: [core/state_manager.py] is not among the sources.
    Session State holds the current mode and account, the per-mode balance
    map and the per-symbol open-position map; [balance] is the slot written
    by [update_balance] and [orders] the log written by [record_order]. *)
Record t := mk {
  current_mode : Mode;
  current_account : pyval;
  is_sim_mode : bool;
  balance : pyval;
  mode_balances : gmap Mode Q;
  positions : gmap string OpenPosition;
  orders : list dict
}.

Definition with_current_mode (m : Mode) (st : t) : t :=
  mk m (current_account st) (is_sim_mode st) (balance st) (mode_balances st)
     (positions st) (orders st).

Definition with_account (a : pyval) (sim : bool) (st : t) : t :=
  mk (current_mode st) a sim (balance st) (mode_balances st)
     (positions st) (orders st).

(** Modelled from the spec: [StateManager.get_balance_for_mode], the stored
    balance of a mode (zero when none was stored). *)
Definition get_balance_for_mode (st : t) (m : Mode) : Q :=
  default 0%Q (mode_balances st !! m).

(** Modelled from the spec: [StateManager.set_balance_for_mode] writes one
    slot of the per-mode balance map. *)
Definition set_balance_for_mode (m : Mode) (v : Q) (st : t) : t :=
  mk (current_mode st) (current_account st) (is_sim_mode st) (balance st)
     (<[m := v]> (mode_balances st))
     (positions st) (orders st).

(** Modelled from the spec: [StateManager.update_balance] keeps the last
    reported balance. *)
Definition update_balance (v : pyval) (st : t) : t :=
  mk (current_mode st) (current_account st) (is_sim_mode st) v
     (mode_balances st) (positions st) (orders st).

(** Modelled from the spec: [StateManager.update_position]; a zero quantity
    is a close and clears the entry of the symbol, any other quantity
    records the position under the current mode.  A symbol that is not a
    string keys no entry. *)
Definition update_position (sym qty avg : pyval) (st : t) : t :=
  match sym with
  | VStr s =>
      mk (current_mode st) (current_account st) (is_sim_mode st) (balance st)
         (mode_balances st)
         (if py_eq qty (VNum 0) then delete s (positions st)
          else <[s := mkOpenPosition qty avg (current_mode st)]> (positions st))
         (orders st)
  | _ => st
  end.

(** Modelled from the spec: [StateManager.record_order]. *)
Definition record_order (payload : dict) (st : t) : t :=
  mk (current_mode st) (current_account st) (is_sim_mode st) (balance st)
     (mode_balances st) (positions st) (orders st ++ [payload]).

(** Modelled from the spec: [StateManager.is_mode_blocked]; a mode is blocked
    while an open position is recorded under a strictly higher-precedence
    mode. *)
Definition is_mode_blocked (st : t) (requested_mode : Mode) : bool :=
  bool_decide (map_Exists
    (fun _ p => precedence requested_mode < precedence (pos_mode p))
    (positions st)).

End StateManager.

(** ** [core/message_router.py] *)

Module Router.
Import TradeMode.

Inductive PanelId := PanelBalance | PanelLive | PanelStats.

(** A registered panel, described by the hooks it has ([hasattr]). *)
Record Panel := mkPanel {
  has_set_trading_mode : bool;
  has_on_order_update : bool;
  has_on_position_update : bool;
  has_set_account_balance : bool;
  has_update_equity_series_from_balance : bool;
  has_register_order_event : bool;
  has_set_account : bool
}.

(** The calls the router makes on its collaborators, and the warnings and
    errors it logs. *)
Inductive Event :=
  | set_trading_mode (p : PanelId) (mode : Mode) (account : pyval)
  | on_order_update (msg : dict)
  | on_position_update (msg : dict)
  | set_account_balance (v : pyval)
  | update_equity_series_from_balance (v : pyval) (mode : option Mode)
  | register_order_event (msg : dict)
  | panel_set_account (acct : pyval)
  | trade_manager_set_account (acct : pyval)
  | trade_manager_on_position_update (msg : dict)
  | modeChanged_emit (mode : Mode)
  | log_warning (event : string)
  | log_error (event : string).

(** What [marshal_to_qt_thread] is asked to run. *)
Inductive MarshalTarget :=
  | MSetTradingMode (p : PanelId)
  | MOnOrderUpdate
  | MOnPositionUpdate
  | MUpdateBalanceUI.

(** What the router takes from its surroundings: the configured LIVE
    account; Python's [float] on a string ([None] when it raises); and
    whether [utils.qt_bridge.marshal_to_qt_thread], which is not among the
    sources, raises for a target.  When it does not raise it runs the
    callable, calls being served in the order they were marshalled. *)
Record Env := mkEnv {
  live_account : string;
  float_of_str : string -> option Q;
  marshal_raises : MarshalTarget -> bool
}.

Record MessageRouter := mkRouter {
  state : option StateManager.t;
  panel_balance : option Panel;
  panel_live : option Panel;
  panel_stats : option Panel;
  _current_mode : Mode;
  _current_account : pyval
}.

(** The router together with the module-level deque [_mode_candidates]. *)
Record Sys := mkSys {
  router : MessageRouter;
  mode_candidates : list Candidate
}.

Definition with_state (st : option StateManager.t) (r : MessageRouter) : MessageRouter :=
  mkRouter st (panel_balance r) (panel_live r) (panel_stats r)
           (_current_mode r) (_current_account r).

Definition with_mode (m : Mode) (a : pyval) (r : MessageRouter) : MessageRouter :=
  mkRouter (state r) (panel_balance r) (panel_live r) (panel_stats r) m a.

(** [self.panel and hasattr(self.panel, hook)] *)
Definition has_hook (p : option Panel) (hook : Panel -> bool) : bool :=
  match p with Some x => hook x | None => false end.

(** [float(v)]; [None] when Python raises: [TypeError] for [None],
    [OverflowError] for an [int] beyond the doubles, [ValueError] for a
    string that is no numeral. *)
Definition to_float (env : Env) (v : pyval) : option Q :=
  match v with
  | VNone => None
  | VNum q => float_of_num q
  | VStr s => float_of_str env s
  end.

Definition _check_mode_drift (env : Env) (msg : dict) (r : MessageRouter) : list Event :=
  let incoming_account := get_or msg "TradeAccount" (VStr "") in
  if negb (truthy incoming_account) then []
  else
    let incoming_mode := detect_mode_from_account (live_account env) incoming_account in
    if mode_eqb incoming_mode (_current_mode r)
       && py_eq incoming_account (_current_account r)
    then []
    else [log_warning "MODE_DRIFT_DETECTED"].

Definition _check_mode_precedence (r : MessageRouter) (requested_mode : Mode) : bool :=
  match state r with
  | None => true
  | Some st =>
      if mode_eqb requested_mode LIVE then true
      else if StateManager.is_mode_blocked st requested_mode then false
      else true
  end.

(** A run of marshalled calls inside one [try]: it stops at the first call
    that raises; the flag tells whether all of them went through. *)
Fixpoint marshal_all (env : Env) (calls : list (MarshalTarget * Event)) : list Event * bool :=
  match calls with
  | [] => ([], true)
  | (t, e) :: rest =>
      if marshal_raises env t then ([], false)
      else let '(es, ok) := marshal_all env rest in (e :: es, ok)
  end.

(** The three [set_trading_mode] broadcasts, balance, live, stats. *)
Definition broadcast_calls (r : MessageRouter) (mode : Mode) (account : pyval)
    : list (MarshalTarget * Event) :=
  (if has_hook (panel_balance r) has_set_trading_mode
   then [(MSetTradingMode PanelBalance, set_trading_mode PanelBalance mode account)] else [])
  ++ (if has_hook (panel_live r) has_set_trading_mode
      then [(MSetTradingMode PanelLive, set_trading_mode PanelLive mode account)] else [])
  ++ (if has_hook (panel_stats r) has_set_trading_mode
      then [(MSetTradingMode PanelStats, set_trading_mode PanelStats mode account)] else []).

Inductive Flow := Proceed | Return.

(** The mode block shared, line for line, by [_on_order_signal] (with
    [qty = None]) and [_on_position_signal] (with the position quantity). *)
Definition detect_and_switch (env : Env) (now_ms : Q) (qty : pyval)
    (blocked_tag failed_tag : string) (msg : dict) (s : Sys)
    : Sys * list Event * Flow :=
  let r := router s in
  let account := get_or msg "TradeAccount" (VStr "") in
  if negb (truthy account) then (s, [], Proceed)
  else
    let '(switch, q') :=
      should_switch_mode_debounced (live_account env) now_ms account
        (Some (_current_mode r)) qty (mode_candidates s) in
    if negb switch then (mkSys r q', [], Proceed)
    else
      let detected_mode := detect_mode_from_account (live_account env) account in
      if bool_decide (is_Some (state r)) && negb (_check_mode_precedence r detected_mode)
      then (mkSys r q', [log_warning blocked_tag], Return)
      else
        let '(evs, ok) := marshal_all env (broadcast_calls r detected_mode account) in
        if ok then (mkSys (with_mode detected_mode account r) q', evs, Proceed)
        else (mkSys r q', evs ++ [log_warning failed_tag], Proceed).

(** [marshal_to_qt_thread(hook, msg)], with the direct call as fallback. *)
Definition deliver (env : Env) (t : MarshalTarget) (failed_tag : string)
    (call : list Event) : list Event :=
  if marshal_raises env t then log_warning failed_tag :: call else call.

(** The closing block of [_on_order_signal]: for a filled order
    ([OrderStatus] 3 or 7) a summary is logged with [log.info], which the
    events do not list; the summary formats the fill price with [:.2f], and
    when that raises the block logs a warning instead. *)
Definition order_fill_summary (msg : dict) : list Event :=
  let status := get msg "OrderStatus" in
  if py_eq status (VNum 3) || py_eq status (VNum 7) then
    let avg_fill := py_or (get msg "AverageFillPrice") (get msg "Price1") in
    if formats_as_float avg_fill then []
    else [log_warning "router.order.processing_failed"]
  else [].

Definition _on_order_signal (env : Env) (now_ms : Q) (msg : dict) (s : Sys)
    : Sys * list Event :=
  let drift := _check_mode_drift env msg (router s) in
  let '(s1, evs, flow) :=
    detect_and_switch env now_ms VNone "router.order.blocked"
      "router.order.mode_detect_failed" msg s in
  match flow with
  | Return => (s1, drift ++ evs)
  | Proceed =>
      (s1, drift ++ evs ++
           (if has_hook (panel_live (router s1)) has_on_order_update
            then deliver env MOnOrderUpdate "router.order.marshal_failed"
                   [on_order_update msg]
            else [])
           ++ order_fill_summary msg)
  end.

Definition _on_position_signal (env : Env) (now_ms : Q) (msg : dict) (s : Sys)
    : Sys * list Event :=
  let drift := _check_mode_drift env msg (router s) in
  let qty := get_or msg "qty" (get_or msg "PositionQuantity" (VNum 0)) in
  let '(s1, evs, flow) :=
    if negb (py_eq qty (VNum 0))
    then detect_and_switch env now_ms qty "router.position.blocked"
           "router.position.mode_detect_failed" msg s
    else (s, [], Proceed) in
  match flow with
  | Return => (s1, drift ++ evs)
  | Proceed =>
      (s1, drift ++ evs ++
           (if has_hook (panel_live (router s1)) has_on_position_update
            then deliver env MOnPositionUpdate "router.position.marshal_failed"
                   [on_position_update msg]
            else []))
  end.


(** [msg.get("account") or msg.get("TradeAccount") or ""] *)
Definition balance_account_of (msg : dict) : pyval :=
  py_or (py_or (get msg "account") (get msg "TradeAccount")) (VStr "").



(** A handler of [route] ends normally or raises into [route]'s [except]. *)
Inductive Ending := Returns | Raises.

Definition _on_trade_account (payload : dict) (r : MessageRouter)
    : MessageRouter * list Event * Ending :=
  let acct := get payload "account" in
  let evs :=
    trade_manager_set_account acct
    :: (if has_hook (panel_balance r) has_set_account then [panel_set_account acct] else []) in
  match state r with
  | None => (r, evs, Returns)
  | Some st =>
      if truthy acct then
        match acct with
        | VStr s =>
            (with_state (Some (StateManager.with_account acct (String.prefix "sim" (lower s)) st)) r,
             evs, Returns)
        | _ =>
            (* acct.lower() raises; current_account is already assigned *)
            (with_state (Some (StateManager.with_account acct (StateManager.is_sim_mode st) st)) r,
             evs, Raises)
        end
      else
        (with_state (Some (StateManager.with_account acct false st)) r, evs, Returns)
  end.

Definition _on_balance_update (env : Env) (payload : dict) (r : MessageRouter)
    : MessageRouter * list Event * Ending :=
  let bal := get payload "balance" in
  let account := balance_account_of payload in
  let mode :=
    if truthy account then Some (detect_mode_from_account (live_account env) account)
    else None in
  let ui (r' : MessageRouter) :=
    match panel_balance r', state r' with
    | Some p, Some st =>
        if match mode with
           | Some m => negb (mode_eqb m (StateManager.current_mode st))
           | None => false
           end
        then []
        else if has_set_account_balance p
        then set_account_balance bal
             :: (if has_update_equity_series_from_balance p
                 then [update_equity_series_from_balance bal mode] else [])
        else []
    | _, _ => []
    end in
  match state r with
  | None => (r, ui r, Returns)
  | Some st =>
      let st1 := StateManager.update_balance bal st in
      match mode with
      | None => let r' := with_state (Some st1) r in (r', ui r', Returns)
      | Some m =>
          match to_float env bal with
          | Some v =>
              let r' := with_state (Some (StateManager.set_balance_for_mode m v st1)) r in
              (r', ui r', Returns)
          | None => (with_state (Some st1) r, [], Raises)
          end
      end
  end.

(** The table local to [_on_position_update]: symbol -> (qty, avg_price). *)
Definition PHANTOM_POSITIONS : gmap string (Q * Q) :=
  {[ "F.US.MESM25" := (1%Q, (11993 # 2)%Q) ]}.

(** [sym in PHANTOM_POSITIONS] and the comparison with the entry. *)
Definition is_phantom (sym qty avg : pyval) : bool :=
  match sym with
  | VStr s =>
      match PHANTOM_POSITIONS !! s with
      | Some (phantom_qty, phantom_avg) =>
          py_eq qty (VNum phantom_qty) && py_eq avg (VNum phantom_avg)
      | None => false
      end
  | _ => false
  end.

Definition update_state (f : StateManager.t -> StateManager.t) (r : MessageRouter)
    : MessageRouter :=
  with_state (f <$> state r) r.

Definition _on_position_update (payload : dict) (r : MessageRouter)
    : MessageRouter * list Event * Ending :=
  let sym := get payload "symbol" in
  let qty := get_or payload "qty" (VNum 0) in
  let avg := get payload "avg_entry" in
  if py_eq qty (VNum 0)
  then (update_state (StateManager.update_position sym (VNum 0) VNone) r, [], Returns)
  else if is_none avg || py_eq avg (VNum 0)
  then (r, [log_warning "router.position.stale"], Returns)
  else if is_phantom sym qty avg
  then (r, [log_warning "router.position.phantom"], Returns)
  else
    (update_state (StateManager.update_position sym qty avg) r,
     (if has_hook (panel_live r) has_on_position_update then [on_position_update payload] else [])
     ++ [trade_manager_on_position_update payload],
     Returns).

Definition _on_order_update (env : Env) (payload : dict) (r : MessageRouter)
    : MessageRouter * list Event * Ending :=
  let account := get_or payload "TradeAccount" (VStr "") in
  let '(r1, evs) :=
    if truthy account then
      let order_mode := detect_mode_from_account (live_account env) account in
      match state r with
      | Some st =>
          if negb (mode_eqb order_mode (StateManager.current_mode st))
          then (with_state (Some (StateManager.with_current_mode order_mode st)) r,
                [modeChanged_emit order_mode])
          else (r, [])
      | None => (r, [])
      end
    else (r, []) in
  (update_state (StateManager.record_order payload) r1,
   evs
   ++ (if has_hook (panel_live r1) has_on_order_update then [on_order_update payload] else [])
   ++ (if has_hook (panel_stats r1) has_register_order_event
       then [register_order_event payload] else []),
   Returns).

(** A normalized AppMessage, [{"type": ..., "payload": {...}}]. *)
Record AppMessage := mkAppMessage {
  mtype : pyval;
  payload : dict
}.

Definition route (env : Env) (msg : AppMessage) (r : MessageRouter)
    : MessageRouter * list Event :=
  let guarded (h : MessageRouter * list Event * Ending) :=
    match h with
    | (r', evs, Returns) => (r', evs)
    | (r', evs, Raises) => (r', evs ++ [log_warning "router.handler.error"])
    end in
  if negb (truthy (mtype msg)) then (r, [])
  else
    match mtype msg with
    | VStr "TRADE_ACCOUNT" => guarded (_on_trade_account (payload msg) r)
    | VStr "BALANCE_UPDATE" => guarded (_on_balance_update env (payload msg) r)
    | VStr "POSITION_UPDATE" => guarded (_on_position_update (payload msg) r)
    | VStr "ORDER_UPDATE" => guarded (_on_order_update env (payload msg) r)
    | VStr "MARKET_TRADE" => (r, [])
    | VStr "MARKET_BIDASK" => (r, [])
    | _ => (r, [])
    end.

End Router.

(** ** [services/dtc_json_client.py] *)

Module DTCClient.

(** [NULL = b"\x00"] *)
Definition NULL : byte := x00.

(** What [json.loads] gives for a frame: a JSON object, or some other JSON
    value (a number, a string, a list, ...). *)
Inductive Decoded :=
  | JObject (msg : dict)
  | JOther.

(** The outcome of [sock.sendall]. *)
Inductive SendOutcome := Sent | SendOSError | SendOtherError.

(** The debug flags of [config.settings] and the behaviour of what the
    client calls: the JSON codec, the socket write, the panel sinks behind
    [_dispatch_for_panels] and the raw [on_msg] hook. *)
Record Env := mkEnv {
  DEBUG_DATA : bool;
  DEBUG_UI : bool;
  DEBUG_CORE : bool;
  DEBUG_NETWORK : bool;
  json_loads : list byte -> option Decoded;
  json_dumps : dict -> option (list byte);
  sendall : list byte -> SendOutcome;
  dispatch_raises : dict -> bool;
  on_msg_raises : Decoded -> bool
}.

Record Client := mkClient {
  sock : bool;
  _rx_buf : list byte;
  _stop : bool;
  diagnostic_logger : bool;
  on_disconnected : bool;
  on_msg : bool
}.

Inductive Event :=
  | sock_shutdown
  | sock_close
  | sock_sendall (data : list byte)
  | diagnostic_logger_close
  | call_on_disconnected
  | call_dispatch_for_panels (msg : Decoded)
  | call_on_msg (msg : Decoded)
  | error (category message : string)
  | debug (category message : string).

(** How a Python call ends. *)
Inductive PyResult :=
  | Ret (v : pyval)
  | Raise (exn : string).

Definition close (c : Client) : Client * list Event :=
  (mkClient false (_rx_buf c) true (diagnostic_logger c) (on_disconnected c) (on_msg c),
   (if sock c then [sock_shutdown; sock_close] else [])
   ++ (if diagnostic_logger c then [diagnostic_logger_close] else [])
   ++ (if on_disconnected c then [call_on_disconnected] else [])).

(** [obj.get("Type") != HEARTBEAT], with [HEARTBEAT = 3] *)
Definition not_heartbeat (obj : dict) : bool :=
  negb (py_eq (get_or obj "Type" (VStr "UNKNOWN")) (VNum 3)).

Definition _send (env : Env) (obj : dict) (c : Client) : PyResult * list Event :=
  if negb (sock c) then
    (Ret VNone,
     if DEBUG_NETWORK env then [error "network" "No socket connection available"] else [])
  else
    match json_dumps env obj with
    | None => (Ret VNone, [error "data" "JSON serialization failed for DTC message"])
    | Some body =>
        let data := body ++ [NULL] in
        let tx := if DEBUG_DATA env && not_heartbeat obj then [debug "data" "TX"] else [] in
        match sendall env data with
        | Sent => (Ret VNone, tx ++ [sock_sendall data])
        | SendOSError =>
            (Ret VNone, tx ++ [error "network" "Socket error sending DTC message"])
        | SendOtherError =>
            (Ret VNone, tx ++ [error "network" "Unexpected error sending DTC message"])
        end
    end.

(** [self._rx_buf.index(0)] *)
Fixpoint index0 (buf : list byte) : option nat :=
  match buf with
  | [] => None
  | b :: rest => if Byte.eqb b NULL then Some 0 else S <$> index0 rest
  end.

(** One decoded or undecodable frame: the body of the inner loop after the
    frame was cut out.  The flag tells whether an exception leaves the
    [try]/[except] blocks of the frame. *)
Definition rx_frame (env : Env) (c : Client) (raw : list byte) : list Event * bool :=
  match json_loads env raw with
  | None =>
      (if DEBUG_DATA env then [error "data" "DTC JSON parse failed"] else [], false)
  | Some msg =>
      let dispatch_fails :=
        match msg with JObject m => dispatch_raises env m | JOther => true end in
      (* the handlers format msg.get("Type"), which raises unless msg is a dict *)
      let report (flag : bool) (category message : string) : list Event * bool :=
        if flag then
          match msg with
          | JObject _ => ([error category message], false)
          | JOther => ([], true)
          end
        else ([], false) in
      let '(ev1, out1) :=
        if dispatch_fails then report (DEBUG_UI env) "ui" "DTC dispatch failed"
        else ([], false) in
      if out1 then (call_dispatch_for_panels msg :: ev1, true)
      else if on_msg c then
        let '(ev2, out2) :=
          if on_msg_raises env msg
          then report (DEBUG_CORE env) "core" "DTC on_msg handler failed"
          else ([], false) in
        (call_dispatch_for_panels msg :: ev1 ++ call_on_msg msg :: ev2, out2)
      else (call_dispatch_for_panels msg :: ev1, false)
  end.

(** The inner [while True] loop.  Every turn that finds a delimiter removes
    at least one byte, so [length buf] turns are enough. *)
Fixpoint drain (fuel : nat) (env : Env) (c : Client) (buf : list byte)
    : list byte * list Event * bool :=
  match fuel with
  | 0 => (buf, [], false)
  | S fuel' =>
      match index0 buf with
      | None => (buf, [], false)
      | Some i =>
          let raw := take i buf in
          let buf' := drop (S i) buf in
          match raw with
          | [] => drain fuel' env c buf'
          | _ =>
              let '(ev, out) := rx_frame env c raw in
              if out then (buf', ev, true)
              else
                let '(b, evs, out') := drain fuel' env c buf' in
                (b, ev ++ evs, out')
          end
      end
  end.

(** What [sock.recv] gives: bytes (none when the peer closed), a timeout, or
    another socket error. *)
Inductive Recv :=
  | Chunk (data : list byte)
  | Timeout
  | SocketError.

(** How [_rx_loop] stands once the reads at hand are used up: still in
    [recv], left through the end of the loop, or left by an exception (a
    socket error, or one raised while a frame was handled).  [close] has
    run in the last three cases. *)
Inductive RxEnd :=
  | Receiving
  | Finished
  | RaisedSocketError
  | RaisedFromFrame.

Definition with_rx_buf (buf : list byte) (c : Client) : Client :=
  mkClient (sock c) buf (_stop c) (diagnostic_logger c) (on_disconnected c) (on_msg c).

Definition finally_close (c : Client) (evs : list Event) (e : RxEnd)
    : Client * list Event * RxEnd :=
  let '(c', ev) := close c in (c', evs ++ ev, e).

Fixpoint _rx_loop (env : Env) (reads : list Recv) (c : Client)
    : Client * list Event * RxEnd :=
  if _stop c || negb (sock c) then finally_close c [] Finished
  else
    match reads with
    | [] => (c, [], Receiving)
    | Timeout :: reads' => _rx_loop env reads' c
    | SocketError :: _ => finally_close c [] RaisedSocketError
    | Chunk [] :: _ => finally_close c [] Finished
    | Chunk chunk :: reads' =>
        let buf := _rx_buf c ++ chunk in
        let '(buf', evs, out) := drain (length buf) env c buf in
        let c1 := with_rx_buf buf' c in
        if out then finally_close c1 evs RaisedFromFrame
        else
          let '(c2, evs', e) := _rx_loop env reads' c1 in
          (c2, evs ++ evs', e)
    end.

(** The messages handed to [_dispatch_for_panels], in order. *)
Definition dispatched (evs : list Event) : list Decoded :=
  omap (fun e => match e with call_dispatch_for_panels m => Some m | _ => None end) evs.

End DTCClient.

(** ** Vocabulary of the statements *)

(** A candidate older than the debounce window at time [now_ms]. *)
Definition expired (now_ms : Q) (c : TradeMode.Candidate) : Prop :=
  (TradeMode.c_ts c < now_ms - TradeMode.DEBOUNCE_WINDOW_MS)%Q.

(** A candidate still inside the debounce window at time [now_ms]. *)
Definition in_window (now_ms : Q) (c : TradeMode.Candidate) : bool :=
  negb (Qltb (TradeMode.c_ts c) (now_ms - TradeMode.DEBOUNCE_WINDOW_MS)).

Definition ts_le (a b : TradeMode.Candidate) : Prop :=
  (TradeMode.c_ts a <= TradeMode.c_ts b)%Q.

(** The queue as a clock that never runs backwards fills it: time stamps in
    append order, none later than [now_ms]. *)
Definition in_time_order (now_ms : Q) (q : list TradeMode.Candidate) : Prop :=
  StronglySorted ts_le q /\ Forall (fun c => (TradeMode.c_ts c <= now_ms)%Q) q.

(** The account a signal message carries, and the mode detected from it. *)
Definition msg_account (msg : dict) : pyval := get_or msg "TradeAccount" (VStr "").

Definition msg_mode (env : Router.Env) (msg : dict) : Mode :=
  TradeMode.detect_mode_from_account (Router.live_account env) (msg_account msg).

(** The debounce commits a switch for this message ([qty] is [VNone] for an
    order and the position quantity for a position). *)
Definition switch_detected (env : Router.Env) (now_ms : Q) (qty : pyval)
    (msg : dict) (s : Router.Sys) : Prop :=
  fst (TradeMode.should_switch_mode_debounced (Router.live_account env) now_ms
         (msg_account msg) (Some (Router._current_mode (Router.router s))) qty
         (Router.mode_candidates s)) = true.

(** [qty] as [_on_position_signal] reads it. *)
Definition position_qty (msg : dict) : pyval :=
  get_or msg "qty" (get_or msg "PositionQuantity" (VNum 0)).

(** Events that are only log records. *)
Definition is_log (e : Router.Event) : bool :=
  match e with
  | Router.log_warning _ | Router.log_error _ => true
  | _ => false
  end.

(** The calls a handler made, its log records left out. *)
Definition panel_calls (evs : list Router.Event) : list Router.Event :=
  List.filter (fun e => negb (is_log e)) evs.

(** The balance-render hooks of the balance panel. *)
Definition is_balance_hook (e : Router.Event) : bool :=
  match e with
  | Router.set_account_balance _ | Router.update_equity_series_from_balance _ _ => true
  | _ => false
  end.

Definition is_set_trading_mode (e : Router.Event) : bool :=
  match e with Router.set_trading_mode _ _ _ => true | _ => false end.

(** The [set_trading_mode] calls of a committed switch: one for each
    registered panel that has the hook, balance, live, stats. *)
Definition set_trading_mode_calls (r : Router.MessageRouter) (m : Mode) (a : pyval)
    : list Router.Event :=
  (if Router.has_hook (Router.panel_balance r) Router.has_set_trading_mode
   then [Router.set_trading_mode Router.PanelBalance m a] else [])
  ++ (if Router.has_hook (Router.panel_live r) Router.has_set_trading_mode
      then [Router.set_trading_mode Router.PanelLive m a] else [])
  ++ (if Router.has_hook (Router.panel_stats r) Router.has_set_trading_mode
      then [Router.set_trading_mode Router.PanelStats m a] else []).



(** A [_send] wrote the message on the socket. *)
Definition delivered (evs : list DTCClient.Event) : bool :=
  existsb (fun e => match e with DTCClient.sock_sendall _ => true | _ => false end) evs.

(** A [_send] reported its failure to the diagnostics log. *)
Definition reported (evs : list DTCClient.Event) : bool :=
  existsb (fun e => match e with DTCClient.error _ _ => true | _ => false end) evs.

(** The caller can tell the call from a successful one: it raised, or it
    returned something other than [None]. *)
Definition fails_loudly (res : DTCClient.PyResult) : bool :=
  match res with
  | DTCClient.Raise _ => true
  | DTCClient.Ret v => negb (is_none v)
  end.

(** How many times the connection was released, and the disconnect
    callback called. *)
Definition releases (evs : list DTCClient.Event) : nat :=
  length (List.filter
            (fun e => match e with DTCClient.sock_close => true | _ => false end) evs).

Definition disconnects (evs : list DTCClient.Event) : nat :=
  length (List.filter
            (fun e => match e with DTCClient.call_on_disconnected => true | _ => false end)
            evs).

(** A frame body: bytes holding no delimiter. *)
Definition no_delimiter (raw : list byte) : Prop := DTCClient.index0 raw = None.

(** The wire image of a run of frames: each followed by one delimiter. *)
Definition wire (frames : list (list byte)) : list byte :=
  concat (map (fun f => f ++ [DTCClient.NULL]) frames).

(** The non-empty frames the codec accepts, decoded, in order. *)
Definition decodable (env : DTCClient.Env) (frames : list (list byte))
    : list DTCClient.Decoded :=
  omap (fun f => match f with [] => None | _ => DTCClient.json_loads env f end) frames.

(** No frame decodes to a JSON value that is not an object. *)
Definition objects_only (env : DTCClient.Env) (frames : list (list byte)) : Prop :=
  Forall (fun f => DTCClient.json_loads env f <> Some DTCClient.JOther) frames.

(** The complete frames of a buffer, and the unterminated rest. *)
Fixpoint split_frames (buf : list byte) : list (list byte) * list byte :=
  match buf with
  | [] => ([], [])
  | b :: rest =>
      let '(fs, t) := split_frames rest in
      if Byte.eqb b DTCClient.NULL then ([] :: fs, t)
      else match fs with
           | [] => ([], b :: t)
           | f :: fs' => ((b :: f) :: fs', t)
           end
  end.

(** The bytes a read brings, and the reads that keep the loop going. *)
Definition data_of (rd : DTCClient.Recv) : list byte :=
  match rd with DTCClient.Chunk d => d | _ => [] end.

Definition keeps_receiving (rd : DTCClient.Recv) : Prop :=
  match rd with
  | DTCClient.Chunk [] | DTCClient.SocketError => False
  | _ => True
  end.

(** ** Sample data for the worked instances *)

Module Sample.
Import Router.

(** LIVE account "120005"; [float] of a string is not needed; marshalling
    never raises. *)
Definition env : Env := mkEnv "120005" (fun _ => None) (fun _ => false).

Definition panel : Panel := mkPanel true true true true true true true.

Definition session (m : Mode) (positions : gmap string StateManager.OpenPosition)
    : StateManager.t :=
  StateManager.mk m (VStr "") false VNone ∅ positions [].

(** A router with the three panels and a Session State. *)
Definition router_with (st : StateManager.t) (m : Mode) (account : pyval) : MessageRouter :=
  mkRouter (Some st) (Some panel) (Some panel) (Some panel) m account.

(** The router as [__init__] leaves it: DEBUG, no account. *)
Definition fresh_router : MessageRouter :=
  router_with (session DEBUG ∅) DEBUG (VStr "").

Definition live_position : gmap string StateManager.OpenPosition :=
  {[ "F.US.MESZ25" := StateManager.mkOpenPosition (VNum 1) (VNum 5000) LIVE ]}.

Definition order_for (account : string) : dict :=
  {[ "TradeAccount" := VStr account; "Symbol" := VStr "F.US.MESZ25" ]}.

Definition position_for (account : string) (qty : Q) : dict :=
  {[ "TradeAccount" := VStr account; "symbol" := VStr "F.US.MESZ25";
     "qty" := VNum qty; "avg_entry" := VNum 5000 ]}.

(** The position the phantom table of [_on_position_update] lists. *)
Definition phantom_position : dict :=
  {[ "symbol" := VStr "F.US.MESM25"; "qty" := VNum 1; "avg_entry" := VNum (11993 # 2) ]}.


(** A heartbeat and its frame, an object with the one field Type = 3. *)
Definition heartbeat : dict := {[ "Type" := VNum 3 ]}.

Definition frame_heartbeat : list byte :=
  [x7b; x22; x54; x79; x70; x65; x22; x3a; x33; x7d].

(** A frame that is JSON but no object, and one that is no JSON. *)
Definition frame_list : list byte := String.list_byte_of_string "[1]".

Definition frame_garbage : list byte := String.list_byte_of_string "xx{".

Fixpoint bytes_eqb (a b : list byte) : bool :=
  match a, b with
  | [], [] => true
  | x :: a', y :: b' => Byte.eqb x y && bytes_eqb a' b'
  | _, _ => false
  end.

(** A client environment with [DEBUG_UI] as given and the other flags off, a
    codec that knows the frames above, a socket that takes every write, and
    sinks that do not raise. *)
Definition client_env (debug_ui : bool) : DTCClient.Env :=
  DTCClient.mkEnv false debug_ui false false
    (fun raw =>
       if bytes_eqb raw frame_heartbeat then Some (DTCClient.JObject heartbeat)
       else if bytes_eqb raw frame_list then Some DTCClient.JOther
       else None)
    (fun _ => Some frame_heartbeat)
    (fun _ => DTCClient.Sent)
    (fun _ => false)
    (fun _ => false).

(** A connected client with a disconnect callback, and one never connected. *)
Definition connected : DTCClient.Client :=
  DTCClient.mkClient true [] false false true false.

Definition unconnected : DTCClient.Client :=
  DTCClient.mkClient false [] false false true false.

End Sample.

(** ** [utils/trade_mode.py]: detection from whole messages *)

Module AutoDetect.
Import TradeMode.

(** [None] stands for Python's [None]: no mode to switch to. *)
Definition auto_detect_mode_from_order (live_account : string) (order_msg : dict)
    : option Mode :=
  let account := get_or order_msg "TradeAccount" (VStr "") in
  if negb (truthy account) then None
  else if should_switch_mode account VNone true
  then Some (detect_mode_from_account live_account account)
  else None.

Definition auto_detect_mode_from_position (live_account : string) (position_msg : dict)
    : option Mode :=
  let account := get_or position_msg "TradeAccount" (VStr "") in
  let qty := get_or position_msg "qty" (get_or position_msg "PositionQuantity" (VNum 0)) in
  if negb (truthy account) then None
  else if should_switch_mode account qty true
  then Some (detect_mode_from_account live_account account)
  else None.

(** One call of [should_switch_mode_debounced], with the clock it reads. *)
Record Call := mkCall {
  call_now : Q;
  call_account : pyval;
  call_current_mode : option Mode;
  call_qty : pyval
}.

(** A run of calls on the queue: the verdicts, and the queue at the end. *)
Fixpoint run_calls (live_account : string) (calls : list Call) (q : list Candidate)
    : list bool * list Candidate :=
  match calls with
  | [] => ([], q)
  | c :: rest =>
      let '(b, q1) :=
        should_switch_mode_debounced live_account (call_now c) (call_account c)
          (call_current_mode c) (call_qty c) q in
      let '(bs, q2) := run_calls live_account rest q1 in
      (b :: bs, q2)
  end.

End AutoDetect.

(** ** [core/message_router.py]: coalesced UI refresh *)

Module UiRefresh.

Inductive Event :=
  | singleShot (ms : nat)
  | update (p : Router.PanelId)
  | log_warning (event : string).

(** Whether [QTimer.singleShot] can be imported and called; which panels
    are set and have an [update] method; whose [update] raises. *)
Record Env := mkEnv {
  qt_available : bool;
  has_update : Router.PanelId -> bool;
  update_raises : Router.PanelId -> bool
}.

Definition UI_REFRESH_INTERVAL_MS : nat := 100.

(** The three updates of [_flush_ui_updates] share one [try]: the first
    [update] that raises ends the batch. *)
Fixpoint run_updates (env : Env) (panels : list Router.PanelId) : list Event :=
  match panels with
  | [] => []
  | p :: rest =>
      if has_update env p then
        update p :: (if update_raises env p
                     then [log_warning "router.ui_flush_error"]
                     else run_updates env rest)
      else run_updates env rest
  end.

(** The state is [self._ui_refresh_pending]. *)
Definition _flush_ui_updates (env : Env) (pending : bool) : bool * list Event :=
  (false, run_updates env [Router.PanelBalance; Router.PanelLive; Router.PanelStats]).

Definition _schedule_ui_refresh (env : Env) (pending : bool) : bool * list Event :=
  if pending then (pending, [])
  else if qt_available env then (true, [singleShot UI_REFRESH_INTERVAL_MS])
  else _flush_ui_updates env true.

(** What happens to a router over time: a refresh is asked for, or an armed
    timer fires and runs [_flush_ui_updates]. *)
Inductive Action := Schedule | TimerFires.

(** The pending flag, and the number of timers armed and not yet fired. *)
Record State := mkState {
  _ui_refresh_pending : bool;
  armed : nat
}.

Definition timers (evs : list Event) : nat :=
  length (List.filter (fun e => match e with singleShot _ => true | _ => false end) evs).

(** [None] when a timer is said to fire though none is armed. *)
Definition step (env : Env) (a : Action) (st : State) : option (State * list Event) :=
  match a with
  | Schedule =>
      let '(p, evs) := _schedule_ui_refresh env (_ui_refresh_pending st) in
      Some (mkState p (armed st + timers evs), evs)
  | TimerFires =>
      match armed st with
      | 0 => None
      | S n =>
          let '(p, evs) := _flush_ui_updates env (_ui_refresh_pending st) in
          Some (mkState p n, evs)
      end
  end.

Fixpoint run (env : Env) (actions : list Action) (st : State)
    : option (State * list Event) :=
  match actions with
  | [] => Some (st, [])
  | a :: rest =>
      match step env a st with
      | None => None
      | Some (st1, evs) =>
          match run env rest st1 with
          | None => None
          | Some (st2, evs') => Some (st2, evs ++ evs')
          end
      end
  end.

End UiRefresh.

(** ** [services/trade_service.py]: the trade manager the router feeds *)

Module TradeManager.

(** An entry of [_open_positions]. *)
Record PosInfo := mkPosInfo {
  qty : pyval;
  entry_price : pyval;
  entry_time : Q;
  trade_account : pyval;
  account : pyval
}.

(** [_open_positions] is a [dict] keyed by the symbol as it came: keys are
    compared with [==], and an assignment to a key already there keeps the
    key and its place. *)
Record t := mk {
  _open_positions : list (pyval * PosInfo);
  _account : pyval
}.

(** [TradeManager()] *)
Definition init : t := mk [] (VStr "UNKNOWN").

Definition set_account (acct : pyval) (tm : t) : t := mk (_open_positions tm) acct.

(** [d.get(k)] *)
Fixpoint lookup (k : pyval) (d : list (pyval * PosInfo)) : option PosInfo :=
  match d with
  | [] => None
  | (k', v) :: rest => if py_eq k' k then Some v else lookup k rest
  end.

(** [d[k] = v] *)
Fixpoint store (k : pyval) (v : PosInfo) (d : list (pyval * PosInfo))
    : list (pyval * PosInfo) :=
  match d with
  | [] => [(k, v)]
  | (k', v') :: rest => if py_eq k' k then (k', v) :: rest else (k', v') :: store k v rest
  end.

(** [d.pop(k, None)] *)
Fixpoint pop (k : pyval) (d : list (pyval * PosInfo)) : list (pyval * PosInfo) :=
  match d with
  | [] => []
  | (k', v') :: rest => if py_eq k' k then rest else (k', v') :: pop k rest
  end.

(** [v > 0]; [None] when Python raises [TypeError] ([None] or a string
    against an [int]). *)
Definition gt0 (v : pyval) : option bool :=
  match v with
  | VNum q => Some (Qltb 0 q)
  | _ => None
  end.

(** [now] is [datetime.utcnow()].  The second component tells whether the
    call raised. *)
Definition on_position_update (now : Q) (payload : dict) (tm : t) : t * Router.Ending :=
  let symbol := get payload "symbol" in
  let new_qty := get_or payload "qty" (VNum 0) in
  let avg_entry := get payload "avg_entry" in
  let account_field := get payload "TradeAccount" in
  if negb (truthy symbol) then (tm, Router.Returns)
  else
    let current_pos := lookup symbol (_open_positions tm) in
    let opened :=
      mk (store symbol (mkPosInfo new_qty avg_entry now account_field (_account tm))
            (_open_positions tm))
         (_account tm) in
    match gt0 new_qty with
    | None => (tm, Router.Raises)
    | Some true =>
        match current_pos with
        | None => (opened, Router.Returns)
        | Some cur =>
            if py_eq (qty cur) (VNum 0) then (opened, Router.Returns)
            else if negb (py_eq new_qty (qty cur))
            then (mk (store symbol
                        (mkPosInfo new_qty (entry_price cur) (entry_time cur)
                           (trade_account cur) (account cur))
                        (_open_positions tm))
                     (_account tm),
                  Router.Returns)
            else (tm, Router.Returns)
        end
    | Some false =>
        if py_eq new_qty (VNum 0) then
          match current_pos with
          | None => (tm, Router.Returns)
          | Some cur =>
              match gt0 (qty cur) with
              | None => (tm, Router.Raises)
              | Some true => (mk (pop symbol (_open_positions tm)) (_account tm),
                              Router.Returns)
              | Some false => (tm, Router.Returns)
              end
          end
        else (tm, Router.Returns)
    end.

(** What the router's calls do to its trade manager: [set_account], and
    [on_position_update] under [contextlib.suppress(Exception)]. *)
Definition apply_event (now : Q) (tm : t) (e : Router.Event) : t :=
  match e with
  | Router.trade_manager_set_account acct => set_account acct tm
  | Router.trade_manager_on_position_update payload =>
      fst (on_position_update now payload tm)
  | _ => tm
  end.

Definition replay (now : Q) (evs : list Router.Event) (tm : t) : t :=
  foldl (apply_event now) tm evs.

(** Every tracked position has a quantity above zero. *)
Definition all_positive (tm : t) : Prop :=
  Forall (fun kv => gt0 (qty (snd kv)) = Some true) (_open_positions tm).

End TradeManager.

(** ** [services/dtc_json_client.py]: type names and dispatch to the sinks *)

Module Dispatch.

(** The value of a message's [Type] field, by its Python type: a [str], an
    [int], a [bool] (an [int] to [isinstance]), or anything else ([None], a
    [float], a list, ...).  It is kept apart from the other fields because
    [_type_to_str] goes by the Python type, which [pyval] does not record. *)
Inductive TypeField :=
  | TStr (s : string)
  | TInt (n : Z)
  | TBool (b : bool)
  | TOther.

(** The [dict] literal of [_type_to_str], in source order. *)
Definition TYPE_NAMES : list (Z * string) :=
  [ (1, "LogonRequest"); (2, "LogonResponse"); (3, "Heartbeat"); (4, "Logoff");
    (5, "EncodingRequest"); (6, "EncodingResponse");
    (101, "MarketDataRequest"); (103, "MarketDataReject");
    (107, "MarketDataUpdateTrade"); (108, "MarketDataUpdateBidAsk");
    (120, "MarketDataUpdateSessionOpen"); (121, "MarketDataUpdateSessionHigh");
    (122, "MarketDataUpdateSessionLow"); (123, "MarketDataUpdateSessionVolume");
    (124, "MarketDataUpdateOpenInterest");
    (305, "OpenOrdersRequest"); (301, "OrderUpdate");
    (303, "HistoricalOrderFillsRequest"); (304, "HistoricalOrderFillResponse");
    (306, "PositionUpdate"); (307, "OrderFillResponse"); (308, "NewOrderRequest");
    (309, "OrderCancelRequest"); (310, "OrderCancelReplaceRequest");
    (311, "OrderCancelReject"); (312, "OrderReject");
    (313, "OrdersCancelledNotification");
    (400, "TradeAccountsRequest"); (401, "TradeAccountResponse");
    (500, "CurrentPositionsRequest");
    (600, "AccountBalanceUpdate"); (601, "AccountBalanceRequest");
    (700, "HistoricalPriceDataRequest"); (701, "HistoricalPriceDataResponseHeader");
    (702, "HistoricalPriceDataRecordResponse");
    (703, "HistoricalPriceDataTickRecordResponse");
    (704, "HistoricalPriceDataReject");
    (800, "UserMessage"); (801, "GeneralLogMessage"); (802, "AlertMessage") ]%Z.

Fixpoint name_of (n : Z) (table : list (Z * string)) : option string :=
  match table with
  | [] => None
  | (k, v) :: rest => if Z.eqb k n then Some v else name_of n rest
  end.

(** [str(t)] of an [int] is its decimal numeral, of a [bool] its name; a
    [bool] is looked up as the [int] it equals. *)
Definition _type_to_str (t : TypeField) : string :=
  match t with
  | TStr s => s
  | TInt n => default (pretty n) (name_of n TYPE_NAMES)
  | TBool b =>
      default (if b then "True" else "False")
              (name_of (if b then 1 else 0)%Z TYPE_NAMES)
  | TOther => "?"
  end.

Inductive Sink :=
  | on_trade_account
  | on_account_balance
  | on_position
  | on_order
  | on_order_fill
  | on_md_trade
  | on_md_bidask
  | on_security_definition.

(** The callbacks given to the client and how they behave: which sinks are
    set and which raise on a message; the two seed-done callbacks; the
    diagnostic logger. *)
Record Wiring := mkWiring {
  sink_set : Sink -> bool;
  sink_raises : Sink -> dict -> bool;
  on_positions_seed_done : bool;
  on_orders_seed_done : bool;
  seed_done_raises : bool;
  diagnostic_logger : bool;
  logger_raises : dict -> bool
}.

Inductive Event :=
  | call (s : Sink) (msg : dict)
  | call_positions_seed_done
  | call_orders_seed_done
  | log_message (msg : dict)
  | error (category message : string)
  | debug (category message : string).

(** [_safe_call(label, cb, msg)]; the flag tells whether it raises. *)
Definition _safe_call (env : DTCClient.Env) (w : Wiring) (s : Sink) (msg : dict)
    : list Event * bool :=
  if negb (sink_set w s) then ([], false)
  else if negb (DTCClient.DEBUG_UI env) then ([call s msg], sink_raises w s msg)
  else if sink_raises w s msg then ([call s msg; error "ui" "UI handler error"], false)
  else ([call s msg], false).

(** [x in (a, b)] on strings *)
Definition one_of (x : pyval) (names : list string) : bool :=
  existsb (fun n => py_eq x (VStr n)) names.

(** The end-of-batch test shared by positions and orders; [none_key] is
    "NoPositions" or "NoOrders". *)
Definition batch_done (msg : dict) (reasons : list string) (none_key : string) : bool :=
  let upd_reason := get_or msg "UpdateReason" (VStr "") in
  let total :=
    py_or (get_or msg "TotalNumberMessages" (VNum 0))
          (get_or msg "TotalNumMessages" (VNum 0)) in
  let num := get_or msg "MessageNumber" (VNum 0) in
  one_of upd_reason reasons
  && ((truthy total && truthy num && py_eq total num)
      || py_eq (get msg none_key) (VNum 1)).

(** A sink followed by its seed-done callback. *)
Definition with_seed_done (env : DTCClient.Env) (w : Wiring) (s : Sink) (msg : dict)
    (reasons : list string) (none_key : string) (cb_set : bool) (cb : Event)
    : list Event * bool :=
  let '(ev, raised) := _safe_call env w s msg in
  if raised then (ev, true)
  else if batch_done msg reasons none_key && cb_set then
    (ev ++ cb :: (if seed_done_raises w && DTCClient.DEBUG_UI env
                  then [error "ui" "seed_done handler failed"] else []),
     false)
  else (ev, false).

Definition name_in (tname : string) (names : list string) : bool :=
  existsb (String.eqb tname) names.

(** [t] is [msg.get("Type")]. *)
Definition _dispatch_for_panels (env : DTCClient.Env) (w : Wiring) (t : TypeField)
    (msg : dict) : list Event * bool :=
  let tname := _type_to_str t in
  let diag :=
    (if diagnostic_logger w then
       log_message msg
       :: (if logger_raises w msg && DTCClient.DEBUG_DATA env
           then [error "data" "Diagnostic logger failed"] else [])
     else [])
    ++ (if DTCClient.DEBUG_DATA env then [debug "data" "RX"] else []) in
  let '(evs, raised) :=
    if name_in tname ["LogonResponse"; "EncodingResponse"; "Heartbeat"] then ([], false)
    else if name_in tname ["TradeAccountResponse"; "TradeAccountsResponse"]
    then _safe_call env w on_trade_account msg
    else if name_in tname ["AccountBalanceUpdate"; "AccountBalanceResponse"]
    then _safe_call env w on_account_balance msg
    else if String.eqb tname "PositionUpdate"
    then with_seed_done env w on_position msg
           ["CurrentPositionsRequestResponse"; "PositionsRequestResponse"]
           "NoPositions" (on_positions_seed_done w) call_positions_seed_done
    else if String.eqb tname "OrderUpdate"
    then with_seed_done env w on_order msg
           ["OpenOrdersRequestResponse"; "OrdersRequestResponse"]
           "NoOrders" (on_orders_seed_done w) call_orders_seed_done
    else if name_in tname ["OrderFillResponse"; "HistoricalOrderFillResponse"]
    then _safe_call env w on_order_fill msg
    else if name_in tname
              ["MarketDataUpdateTrade"; "MarketDataSnapshot"; "MarketDataUpdateLastTrade"]
    then _safe_call env w on_md_trade msg
    else if String.eqb tname "MarketDataUpdateBidAsk"
    then _safe_call env w on_md_bidask msg
    else if name_in tname
              ["SecurityDefinitionResponse"; "SecurityDefinitionForSymbolResponse"]
    then _safe_call env w on_security_definition msg
    else ([], false) in
  (diag ++ evs, raised).

(** The sinks a run of events called, in order. *)
Definition sinks_called (evs : list Event) : list Sink :=
  omap (fun e => match e with call s _ => Some s | _ => None end) evs.

End Dispatch.

(** ** [services/dtc_json_client.py]: heartbeats and requests *)

Module Requests.
Import DTCClient.

Definition HEARTBEAT : Z := 3.

Definition VInt (n : Z) : pyval := VNum (inject_Z n).

(** How [_hb_loop] stands after at most [turns] turns on a client no other
    thread touches: still looping, or left. *)
Fixpoint _hb_loop (turns : nat) (env : Env) (c : Client) : list Event * bool :=
  if _stop c || negb (sock c) then ([], false)
  else
    match turns with
    | 0 => ([], true)
    | S n =>
        match _send env {[ "Type" := VInt HEARTBEAT ]} c with
        | (Raise _, ev) => (ev, false)
        | (Ret _, ev) => let '(evs, looping) := _hb_loop n env c in (ev ++ evs, looping)
        end
    end.


(** The counter as [__init__] sets it. *)
Definition FIRST_REQ_ID : Z := 100.











End Requests.

(** ** Vocabulary of the further properties *)

(** A call the debounce answers False to without looking at its queue: the
    account is not eligible, or its mode is the current one. *)
Definition is_noop (live_account : string) (c : AutoDetect.Call) : bool :=
  negb (TradeMode.should_switch_mode (AutoDetect.call_account c) (AutoDetect.call_qty c) true)
  || match AutoDetect.call_current_mode c with
     | Some m =>
         mode_eqb (TradeMode.detect_mode_from_account live_account
                     (AutoDetect.call_account c)) m
     | None => false
     end.

(** [route]'s [try]/[except] around a handler. *)
Definition guard_handler (h : Router.MessageRouter * list Router.Event * Router.Ending)
    : Router.MessageRouter * list Router.Event :=
  match h with
  | (r', evs, Router.Returns) => (r', evs)
  | (r', evs, Router.Raises) => (r', evs ++ [Router.log_warning "router.handler.error"])
  end.

(** What [route] may change of a router: nothing but the Session State, and
    nothing at all when there is none. *)
Definition route_frame (r r' : Router.MessageRouter) : Prop :=
  Router.panel_balance r' = Router.panel_balance r
  /\ Router.panel_live r' = Router.panel_live r
  /\ Router.panel_stats r' = Router.panel_stats r
  /\ Router._current_mode r' = Router._current_mode r
  /\ Router._current_account r' = Router._current_account r
  /\ (Router.state r = None -> r' = r)
  /\ (Router.state r <> None -> Router.state r' <> None).

(** An ORDER_UPDATE message of [route], and routing a run of them. *)
Definition order_update (payload : dict) : Router.AppMessage :=
  Router.mkAppMessage (VStr "ORDER_UPDATE") payload.

Definition route_all (env : Router.Env) (msgs : list Router.AppMessage)
    (r : Router.MessageRouter) : Router.MessageRouter :=
  foldl (fun r msg => fst (Router.route env msg r)) r msgs.

(** The mode of the last payload that carries an account, [dflt] if none. *)
Definition last_order_mode (env : Router.Env) (dflt : Mode) (payloads : list dict) : Mode :=
  foldl (fun m p => if truthy (msg_account p) then msg_mode env p else m) dflt payloads.

(** A position payload passes the three filters of [_on_position_update]:
    not flat, a price that is there and not zero, not a phantom. *)
Definition passes_filters (payload : dict) : bool :=
  let qty := get_or payload "qty" (VNum 0) in
  let avg := get payload "avg_entry" in
  negb (py_eq qty (VNum 0))
  && negb (is_none avg || py_eq avg (VNum 0))
  && negb (Router.is_phantom (get payload "symbol") qty avg).

(** A POSITION_UPDATE message of [route]. *)
Definition position_update (payload : dict) : Router.AppMessage :=
  Router.mkAppMessage (VStr "POSITION_UPDATE") payload.

(** A router and its trade manager over a run of routed messages; [now] is
    the clock the trade manager reads. *)
Definition route_with_trade_manager (env : Router.Env) (now : Q)
    (msgs : list Router.AppMessage) (rt : Router.MessageRouter * TradeManager.t)
    : Router.MessageRouter * TradeManager.t :=
  foldl (fun rt msg =>
           let '(r', evs) := Router.route env msg (fst rt) in
           (r', TradeManager.replay now evs (snd rt)))
        rt msgs.

(** The trade manager tracks a position under this key. *)
Definition tracked (k : pyval) (tm : TradeManager.t) : Prop :=
  is_Some (TradeManager.lookup k (TradeManager._open_positions tm)).

(** The [set_trading_mode] calls among the events of a handler. *)
Definition mode_calls (evs : list Router.Event) : list Router.Event :=
  List.filter is_set_trading_mode evs.


(** How often a timer fired, and how often a refresh was asked for. *)
Definition fires (actions : list UiRefresh.Action) : nat :=
  length (List.filter
            (fun a => match a with UiRefresh.TimerFires => true | _ => false end) actions).

Definition requests (actions : list UiRefresh.Action) : nat :=
  length (List.filter
            (fun a => match a with UiRefresh.Schedule => true | _ => false end) actions).

(** Surroundings in which marshalling [set_trading_mode] to the live panel
    raises and every other marshalling goes through. *)
Definition marshal_fails_for_live : Router.Env :=
  Router.mkEnv "120005" (fun _ => None)
    (fun t => match t with
              | Router.MSetTradingMode Router.PanelLive => true
              | _ => false
              end).

(** The string begins with a capital letter, as every name of the table
    of [_type_to_str] does. *)
Definition starts_with_capital (s : string) : bool :=
  match s with
  | String a _ => (65 <=? Ascii.nat_of_ascii a) && (Ascii.nat_of_ascii a <=? 90)
  | EmptyString => false
  end.

(** One of the two seed-done callbacks was called. *)
Definition seed_done_called (evs : list Dispatch.Event) : Prop :=
  Dispatch.call_positions_seed_done ∈ evs \/ Dispatch.call_orders_seed_done ∈ evs.

(** The message closes a seeding batch: its UpdateReason is one of
    [reasons], and either it is the last message of the batch (the total,
    TotalNumberMessages or else TotalNumMessages, and MessageNumber are
    there, not zero and equal) or the field [none_key] is 1. *)
Definition ends_batch (msg : dict) (reasons : list string) (none_key : string) : Prop :=
  (exists n, n ∈ reasons /\ get_or msg "UpdateReason" (VStr "") = VStr n)
  /\ let total :=
       py_or (get_or msg "TotalNumberMessages" (VNum 0))
             (get_or msg "TotalNumMessages" (VNum 0)) in
     let num := get_or msg "MessageNumber" (VNum 0) in
     (truthy total = true /\ truthy num = true /\ py_eq total num = true)
     \/ py_eq (get msg none_key) (VNum 1) = true.

(** The events that follow the first seed-done callback. *)
Fixpoint after_seed_done (evs : list Dispatch.Event) : list Dispatch.Event :=
  match evs with
  | [] => []
  | Dispatch.call_positions_seed_done :: rest => rest
  | Dispatch.call_orders_seed_done :: rest => rest
  | _ :: rest => after_seed_done rest
  end.

(** What a run of [_send] calls on one client did, and the bytes that
    went out on the socket. *)
Definition send_all (env : DTCClient.Env) (objs : list dict) (c : DTCClient.Client)
    : list DTCClient.Event :=
  flat_map (fun obj => snd (DTCClient._send env obj c)) objs.

Definition written (evs : list DTCClient.Event) : list byte :=
  flat_map (fun e => match e with DTCClient.sock_sendall d => d | _ => [] end) evs.

(** The codec gives the object back: it serializes to a body that is not
    empty and holds no delimiter (JSON text escapes the code 0), and the
    body decodes to the object. *)
Definition codec_round_trips (env : DTCClient.Env) (obj : dict) : Prop :=
  exists body,
    DTCClient.json_dumps env obj = Some body
    /\ body <> [] /\ no_delimiter body
    /\ DTCClient.json_loads env body = Some (DTCClient.JObject obj).

(** The heartbeat object of [_hb_loop]. *)
Definition heartbeat_request : dict := {[ "Type" := Requests.VInt Requests.HEARTBEAT ]}.

(** * Properties *)

(** ** Python values *)

Lemma py_eq_refl (v : pyval) : py_eq v v = true.
Proof.
  destruct v as [|q|s]; simpl; [done| |apply String.eqb_refl].
  apply Qeq_bool_iff. reflexivity.
Qed.

Lemma py_eq_str (v : pyval) (s : string) : py_eq v (VStr s) = true <-> v = VStr s.
Proof.
  destruct v as [|q|x]; simpl; split; try done.
  - intros H. apply String.eqb_eq in H. by subst.
  - intros [= ->]. apply String.eqb_refl.
Qed.

Lemma mode_eqb_eq (a b : Mode) : mode_eqb a b = true <-> a = b.
Proof. destruct a, b; simpl; split; congruence. Qed.

Lemma mode_eqb_refl (a : Mode) : mode_eqb a a = true.
Proof. by destruct a. Qed.

Lemma Qltb_lt (a b : Q) : Qltb a b = true <-> (a < b)%Q.
Proof.
  unfold Qltb. rewrite negb_true_iff. split.
  - intros H. apply Qnot_le_lt. intros Hle. apply Qle_bool_iff in Hle. congruence.
  - intros H. destruct (Qle_bool b a) eqn:E; [|done].
    apply Qle_bool_iff in E. exfalso. apply (Qlt_not_le _ _ H E).
Qed.

Lemma Qltb_ge (a b : Q) : Qltb a b = false <-> (b <= a)%Q.
Proof.
  unfold Qltb. rewrite negb_false_iff. apply Qle_bool_iff.
Qed.

(** ** Mode detection *)

Section Detect.
Import TradeMode.

Lemma strip_empty : strip "" = "".
Proof. reflexivity. Qed.

Lemma lstrip_fixed (c : Ascii.ascii) (s : string) :
  is_space c = false -> lstrip (String c s) = String c s.
Proof. intros H. simpl. by rewrite H. Qed.

Lemma lstrip_cases (s : string) :
  lstrip s = "" \/ exists c r, lstrip s = String c r /\ is_space c = false.
Proof.
  induction s as [|c s IH]; [by left|].
  simpl. destruct (is_space c) eqn:E; [exact IH|]. right. by exists c, s.
Qed.

Lemma rstrip_head (c : Ascii.ascii) (s : string) :
  is_space c = false -> exists r, rstrip (String c s) = String c r.
Proof.
  intros H. simpl. destruct (rstrip s); rewrite ?H; eauto.
Qed.

Lemma rstrip_idempotent (s : string) : rstrip (rstrip s) = rstrip s.
Proof.
  induction s as [|c s IH]; [done|].
  simpl. destruct (rstrip s) as [|d r] eqn:E.
  - destruct (is_space c) eqn:Hc; [done|]. simpl. by rewrite Hc.
  - change (rstrip (String c (String d r))) with
      (match rstrip (String d r) with
       | EmptyString => if is_space c then EmptyString else String c EmptyString
       | x => String c x
       end).
    by rewrite IH.
Qed.

(** Stripping is a normalization: stripping again changes nothing. *)
Lemma strip_idempotent (s : string) : strip (strip s) = strip s.
Proof.
  unfold strip. destruct (lstrip_cases s) as [-> | (c & r & -> & Hc)]; [done|].
  destruct (rstrip_head c r Hc) as [r' Hr]. rewrite Hr.
  rewrite (lstrip_fixed c r' Hc), <- Hr. apply rstrip_idempotent.
Qed.

(** The mode of an account is the mode of its stripped form. *)
Lemma detect_strip (live_account s : string) :
  detect_mode_from_account live_account (VStr (strip s))
  = detect_mode_from_account live_account (VStr s).
Proof.
  unfold detect_mode_from_account. rewrite strip_idempotent.
  destruct (String.eqb s "") eqn:E.
  - apply String.eqb_eq in E. by subst s.
  - by destruct (String.eqb (strip s) "").
Qed.

(** Accounts without surrounding white space are classified as they are. *)
Lemma detect_unpadded (live_account s : string) :
  strip s = s ->
  detect_mode_from_account live_account (VStr s) = detect_as_specified live_account s.
Proof.
  intros Hs. unfold detect_mode_from_account, detect_as_specified. rewrite Hs.
  destruct (String.eqb s "") eqn:E; [done|].
  destruct (String.eqb live_account "") eqn:El; simpl; [|done].
  apply String.eqb_eq in El. subst live_account. by rewrite E.
Qed.

Example detect_empty : detect_mode_from_account "120005" (VStr "") = DEBUG.
Proof. reflexivity. Qed.
Example detect_live : detect_mode_from_account "120005" (VStr "120005") = LIVE.
Proof. reflexivity. Qed.
Example detect_sim1 : detect_mode_from_account "120005" (VStr "Sim1") = SIM.
Proof. reflexivity. Qed.
Example detect_sim2 : detect_mode_from_account "120005" (VStr "Sim2") = SIM.
Proof. reflexivity. Qed.
Example detect_unknown : detect_mode_from_account "120005" (VStr "Unknown123") = DEBUG.
Proof. reflexivity. Qed.
Example detect_padded_live : detect_mode_from_account "120005" (VStr "120005 ") = LIVE.
Proof. reflexivity. Qed.

(** C4, as stated, fails: the account " Sim1" is not empty, is not the LIVE
    account and does not start with "Sim", so the stated rule sends it to
    DEBUG; the code strips it first and answers SIM. *)
Lemma C4_padded_sim_account_is_not_debug :
  String.eqb " Sim1" "" = false
  /\ String.eqb " Sim1" "120005" = false
  /\ String.prefix "Sim" " Sim1" = false
  /\ detect_as_specified "120005" " Sim1" = DEBUG
  /\ detect_mode_from_account "120005" (VStr " Sim1") = SIM
  /\ detect_mode_from_account "120005" (VStr " Sim1")
     <> detect_as_specified "120005" " Sim1".
Proof. repeat split; try reflexivity. discriminate. Qed.

(** C4, amended: [detect_mode_from_account] is a total function of its
    argument and of the configured LIVE account; a value that is not a string
    is DEBUG, and a string is classified by the stated rule applied to the
    account with leading and trailing white space removed: DEBUG when that
    is empty, else LIVE when it equals the LIVE account, else SIM when it
    starts with "Sim", else DEBUG. *)
Theorem C4_detect_mode_from_account_on_stripped (live_account : string) :
  (forall s, detect_mode_from_account live_account (VStr s)
             = detect_as_specified live_account (strip s))
  /\ detect_mode_from_account live_account VNone = DEBUG
  /\ (forall q, detect_mode_from_account live_account (VNum q) = DEBUG).
Proof.
  split; [|done].
  intros s. unfold detect_mode_from_account, detect_as_specified.
  destruct (String.eqb s "") eqn:E.
  - apply String.eqb_eq in E. by subst s.
  - destruct (String.eqb (strip s) "") eqn:E'; [done|].
    destruct (String.eqb live_account "") eqn:El; simpl; [|done].
    apply String.eqb_eq in El. subst live_account. by rewrite E'.
Qed.

End Detect.

(** ** The debounce queue *)

Section Debounce.
Import TradeMode.

Lemma prune_expired (cutoff : Q) (old rest : list Candidate) :
  Forall (fun c => (c_ts c < cutoff)%Q) old ->
  prune cutoff (old ++ rest) = prune cutoff rest.
Proof.
  induction 1 as [|c old Hc _ IH]; [done|].
  simpl. apply Qltb_lt in Hc. by rewrite Hc.
Qed.

Lemma prune_head_kept (cutoff : Q) (c : Candidate) (q : list Candidate) :
  (cutoff <= c_ts c)%Q -> prune cutoff (c :: q) = c :: q.
Proof. intros H. simpl. apply Qltb_ge in H. by rewrite H. Qed.

(** Pruning pops from the left only: what is left is a suffix. *)
Lemma prune_suffix (cutoff : Q) (q : list Candidate) :
  exists old, q = old ++ prune cutoff q
              /\ Forall (fun c => (c_ts c < cutoff)%Q) old.
Proof.
  induction q as [|c q [old [IH1 IH2]]].
  - by exists [].
  - simpl. destruct (Qltb (c_ts c) cutoff) eqn:E.
    + exists (c :: old). split; [simpl; congruence|].
      constructor; [by apply Qltb_lt|done].
    + by exists [].
Qed.

(** The entry just appended survives the pruning. *)
Lemma prune_snoc (cutoff : Q) (pre : list Candidate) (c : Candidate) :
  (cutoff <= c_ts c)%Q ->
  exists pre', prune cutoff (pre ++ [c]) = pre' ++ [c].
Proof.
  intros Hc. induction pre as [|d pre IH].
  - exists []. by apply prune_head_kept.
  - simpl. destruct (Qltb (c_ts d) cutoff); [done|]. by exists (d :: pre).
Qed.

Lemma deque_append_snoc (q : list Candidate) (c : Candidate) :
  exists pre, deque_append q c = pre ++ [c].
Proof.
  unfold deque_append. destruct q as [|d q]; [by exists []|].
  destruct (MAXLEN <? length ((d :: q) ++ [c])); [by exists q|by exists (d :: q)].
Qed.

Lemma deque_append_length (q : list Candidate) (c : Candidate) :
  length q <= MAXLEN -> length (deque_append q c) <= MAXLEN.
Proof.
  intros H. unfold deque_append.
  destruct (MAXLEN <? length (q ++ [c])) eqn:E.
  - destruct q as [|d q]; simpl in *; [lia|]. rewrite length_app. simpl. lia.
  - by apply Nat.ltb_ge in E.
Qed.

Lemma pruned_queue_snoc (now_ms : Q) (m : Mode) (a : pyval) (q : list Candidate) :
  exists pre, pruned_queue now_ms m a q = pre ++ [mkCandidate now_ms m a].
Proof.
  unfold pruned_queue. destruct (deque_append_snoc q (mkCandidate now_ms m a)) as [pre ->].
  apply prune_snoc. simpl. unfold DEBOUNCE_WINDOW_MS. lra.
Qed.

(** With every older entry out of the window, only the new entry is left. *)
Lemma pruned_queue_all_expired (now_ms : Q) (m : Mode) (a : pyval) (q : list Candidate) :
  Forall (expired now_ms) q ->
  pruned_queue now_ms m a q = [mkCandidate now_ms m a].
Proof.
  intros Hq. unfold pruned_queue.
  assert (Hfresh : (now_ms - DEBOUNCE_WINDOW_MS <= c_ts (mkCandidate now_ms m a))%Q)
    by (simpl; unfold DEBOUNCE_WINDOW_MS; lra).
  unfold deque_append. destruct q as [|d q]; [by apply prune_head_kept|].
  destruct (MAXLEN <? length ((d :: q) ++ [_])).
  - apply Forall_cons in Hq as [_ Hq]. simpl tail.
    rewrite prune_expired by exact Hq. by apply prune_head_kept.
  - rewrite prune_expired by exact Hq. by apply prune_head_kept.
Qed.

Lemma last_n_two (pre : list Candidate) (c d : Candidate) :
  last_n 2 (pre ++ [c; d]) = [c; d].
Proof.
  unfold last_n. rewrite length_app. simpl.
  replace (length pre + 2 - 2) with (length pre) by lia.
  by rewrite drop_app_length.
Qed.

Lemma should_switch_mode_str (account qty : pyval) (b : bool) :
  should_switch_mode account qty b = true -> exists s, account = VStr s.
Proof. destruct account; simpl; [done|done|eauto]. Qed.

(** The verdict of one call, in terms of the queue after append and prune. *)
Lemma debounced_verdict (live_account : string) (now_ms : Q) (account : pyval)
    (current_mode : option Mode) (qty : pyval) (q : list Candidate) :
  let new_mode := detect_mode_from_account live_account account in
  fst (should_switch_mode_debounced live_account now_ms account current_mode qty q) = true
  <-> should_switch_mode account qty true = true
      /\ current_mode <> Some new_mode
      /\ exists pre c,
           pruned_queue now_ms new_mode account q
             = pre ++ [c; mkCandidate now_ms new_mode account]
           /\ c_mode c = new_mode /\ c_account c = account.
Proof.
  intros new_mode. unfold should_switch_mode_debounced. fold new_mode.
  destruct (should_switch_mode account qty true) eqn:Hs; cbn [negb];
    [|cbn [fst]; split; [done|by intros [? _]]].
  destruct (should_switch_mode_str _ _ _ Hs) as [s ->].
  assert (Hcur : match current_mode with
                 | Some m => mode_eqb new_mode m | None => false end = true
                 <-> current_mode = Some new_mode).
  { destruct current_mode as [m|]; [|done]. rewrite mode_eqb_eq.
    split; [by intros ->|by intros [= ->]]. }
  destruct (match current_mode with Some m => _ | None => _ end) eqn:Hc.
  { cbn [fst]. split; [done|]. intros (_ & Hne & _). exfalso. apply Hne. by apply Hcur. }
  assert (Hne : current_mode <> Some new_mode) by (intros H; apply Hcur in H; done).
  destruct (pruned_queue_snoc now_ms new_mode (VStr s) q) as [pre Hq]. rewrite Hq.
  destruct pre as [|c0 pre0] using rev_ind.
  - cbn. split; [done|]. intros (_ & _ & pre & c & H & _).
    destruct pre as [|? [|? ?]]; discriminate.
  - clear IHpre0. rewrite <- app_assoc.
    change ([c0] ++ [mkCandidate now_ms new_mode (VStr s)])
      with [c0; mkCandidate now_ms new_mode (VStr s)].
    rewrite last_n_two.
    assert (Hlen : (REQUIRED_CONSECUTIVE <=?
                    length (pre0 ++ [c0; mkCandidate now_ms new_mode (VStr s)])) = true).
    { apply Nat.leb_le. rewrite length_app. unfold REQUIRED_CONSECUTIVE. simpl. lia. }
    rewrite Hlen. clear Hlen. cbn [forallb andb].
    assert (Hnew : agrees new_mode (VStr s) (mkCandidate now_ms new_mode (VStr s)) = true).
    { unfold agrees. cbn [c_mode c_account]. by rewrite mode_eqb_refl, py_eq_refl. }
    rewrite Hnew, !andb_true_r. unfold agrees.
    destruct (mode_eqb (c_mode c0) new_mode && py_eq (c_account c0) (VStr s)) eqn:Ha;
      cbn [fst].
    + apply andb_true_iff in Ha as [Hm Ha]. apply mode_eqb_eq in Hm. apply py_eq_str in Ha.
      split; [|done]. intros _. split; [done|]. split; [done|]. by exists pre0, c0.
    + split; [done|]. intros (_ & _ & pre & c & H & Hm & Hacc).
      apply app_inj_2 in H as [_ [= -> ]]; [|done].
      rewrite Hm, Hacc, mode_eqb_refl, py_eq_refl in Ha. done.
Qed.

(** A positive verdict clears the queue; a negative one leaves the queue as
    it was (ineligible call) or appended and pruned. *)
Lemma debounced_queue (live_account : string) (now_ms : Q) (account : pyval)
    (current_mode : option Mode) (qty : pyval) (q : list Candidate) :
  let new_mode := detect_mode_from_account live_account account in
  let r := should_switch_mode_debounced live_account now_ms account current_mode qty q in
  (fst r = true -> snd r = [])
  /\ (fst r = false ->
      snd r = q \/ snd r = pruned_queue now_ms new_mode account q).
Proof.
  intros new_mode r. subst r. unfold should_switch_mode_debounced. fold new_mode.
  destruct (negb _); cbn [fst snd]; [split; [done|auto]|].
  destruct (match current_mode with Some _ => _ | None => _ end);
    cbn [fst snd]; [split; [done|auto]|].
  destruct (_ && _); cbn [fst snd]; split; try done; auto.
Qed.

(** On a queue in time order, popping old entries from the left removes
    every entry older than the window. *)
Lemma prune_in_time_order (cutoff : Q) (q : list Candidate) :
  StronglySorted ts_le q ->
  prune cutoff q = List.filter (fun c => negb (Qltb (c_ts c) cutoff)) q.
Proof.
  induction 1 as [|c q Hs IH Hc]; [done|].
  simpl. destruct (Qltb (c_ts c) cutoff) eqn:E; simpl; [exact IH|].
  f_equal. symmetry. apply Qltb_ge in E.
  clear IH Hs. induction Hc as [|d q Hd _ IH]; [done|].
  simpl. unfold ts_le in Hd.
  assert (Hk : Qltb (c_ts d) cutoff = false) by (apply Qltb_ge; lra).
  rewrite Hk. simpl. by rewrite IH.
Qed.

Lemma in_time_order_snoc (now_ms : Q) (q : list Candidate) (c : Candidate) :
  in_time_order now_ms q -> c_ts c = now_ms -> in_time_order now_ms (q ++ [c]).
Proof.
  intros [Hs Hf] Hc. split.
  - induction Hs as [|d q Hs IH Hd]; [repeat constructor|].
    apply Forall_cons in Hf as [Hdn Hf]. simpl. constructor; [by apply IH|].
    apply Forall_app. split; [done|]. constructor; [|done]. unfold ts_le. by rewrite Hc.
  - apply Forall_app. split; [done|]. constructor; [|done]. rewrite Hc. lra.
Qed.

Lemma in_time_order_suffix (now_ms : Q) (old q : list Candidate) :
  in_time_order now_ms (old ++ q) -> in_time_order now_ms q.
Proof.
  intros [Hs Hf]. split.
  - induction old as [|d old IH]; [done|]. apply IH.
    + by inversion Hs.
    + by inversion Hf.
  - by apply Forall_app in Hf as [_ ?].
Qed.

Lemma in_time_order_later (now_ms later : Q) (q : list Candidate) :
  (now_ms <= later)%Q -> in_time_order now_ms q -> in_time_order later q.
Proof.
  intros Hle [Hs Hf]. split; [done|].
  eapply Forall_impl; [exact Hf|]. intros c Hc. simpl in Hc. lra.
Qed.

Lemma deque_append_in_time_order (now_ms : Q) (m : Mode) (a : pyval) (q : list Candidate) :
  in_time_order now_ms q ->
  in_time_order now_ms (deque_append q (mkCandidate now_ms m a)).
Proof.
  intros H. unfold deque_append.
  pose proof (in_time_order_snoc now_ms q (mkCandidate now_ms m a) H eq_refl) as H'.
  destruct (MAXLEN <? length (q ++ [_])); [|done].
  destruct (q ++ [mkCandidate now_ms m a]) as [|d l]; [done|].
  by apply (in_time_order_suffix now_ms [d] l).
Qed.

(** Under a clock that never runs backwards the pruning of a call leaves
    exactly the entries of the window, and the queue stays in time order. *)
Lemma pruned_queue_in_time_order (now_ms : Q) (m : Mode) (a : pyval) (q : list Candidate) :
  in_time_order now_ms q ->
  pruned_queue now_ms m a q
  = List.filter (in_window now_ms) (deque_append q (mkCandidate now_ms m a))
  /\ in_time_order now_ms (pruned_queue now_ms m a q).
Proof.
  intros H. pose proof (deque_append_in_time_order now_ms m a q H) as H'.
  unfold pruned_queue. split.
  - apply prune_in_time_order, H'.
  - destruct (prune_suffix (now_ms - DEBOUNCE_WINDOW_MS)
                (deque_append q (mkCandidate now_ms m a))) as (old & Hq & _).
    rewrite Hq in H'. by apply in_time_order_suffix in H'.
Qed.

Lemma debounced_in_time_order (live_account : string) (now_ms : Q) (account : pyval)
    (current_mode : option Mode) (qty : pyval) (q : list Candidate) :
  in_time_order now_ms q ->
  in_time_order now_ms
    (snd (should_switch_mode_debounced live_account now_ms account current_mode qty q)).
Proof.
  intros H.
  destruct (debounced_queue live_account now_ms account current_mode qty q) as [Ht Hf].
  destruct (fst (should_switch_mode_debounced _ _ _ _ _ _)) eqn:E.
  - rewrite (Ht eq_refl). split; constructor.
  - destruct (Hf eq_refl) as [-> | ->]; [done|].
    by apply pruned_queue_in_time_order.
Qed.

Lemma detect_Sim1 (live_account : string) :
  live_account <> "Sim1" ->
  detect_mode_from_account live_account (VStr "Sim1") = SIM.
Proof.
  intros H. assert (Hs : strip "Sim1" = "Sim1") by reflexivity.
  unfold detect_mode_from_account. rewrite Hs.
  destruct (String.eqb "Sim1" live_account) eqn:E.
  - apply String.eqb_eq in E. by subst.
  - by rewrite andb_false_r.
Qed.

(** A call all of whose predecessors have left the window is refused. *)
Lemma debounced_after_window (live_account : string) (now_ms : Q) (account : pyval)
    (current_mode : option Mode) (qty : pyval) (q : list Candidate) :
  Forall (expired now_ms) q ->
  fst (should_switch_mode_debounced live_account now_ms account current_mode qty q) = false.
Proof.
  intros Hq. unfold should_switch_mode_debounced.
  destruct (negb _); [done|].
  destruct (match current_mode with Some _ => _ | None => _ end); [done|].
  by rewrite pruned_queue_all_expired.
Qed.

(** C3: a call answers True exactly when it is eligible, proposes a mode
    other than the current one and, after the new candidate is appended and
    the entries older than 750 ms are popped, the two most recent entries
    agree on mode and account; the queue is then cleared.  Otherwise it
    answers False and the queue is left as it was or appended and pruned.
    The popping is from the left; on a queue filled by a clock that never
    runs backwards it removes exactly the entries older than 750 ms, and the
    queue stays so ordered.
    Two calls for "Sim1" under LIVE at most 750 ms apart, with nothing recent
    before them, answer False then True; a call whose predecessors are all
    more than 750 ms old answers False. *)
Theorem C3_should_switch_mode_debounced (live_account : string) (t0 t1 t2 : Q)
    (q q' : list Candidate)
    (Hlive : live_account <> "Sim1")
    (Hq : Forall (expired t0) q)
    (Hwithin : (t1 - t0 <= 750)%Q)
    (Hq' : Forall (expired t2) q') :
  (forall now_ms account current_mode qty q0,
     let new_mode := detect_mode_from_account live_account account in
     let r := should_switch_mode_debounced live_account now_ms account current_mode qty q0 in
     (fst r = true
      <-> should_switch_mode account qty true = true
          /\ current_mode <> Some new_mode
          /\ exists pre c,
               pruned_queue now_ms new_mode account q0
                 = pre ++ [c; mkCandidate now_ms new_mode account]
               /\ c_mode c = new_mode /\ c_account c = account)
     /\ (fst r = true -> snd r = [])
     /\ (fst r = false ->
         snd r = q0 \/ snd r = pruned_queue now_ms new_mode account q0)
     /\ (in_time_order now_ms q0 ->
         pruned_queue now_ms new_mode account q0
         = List.filter (in_window now_ms)
             (deque_append q0 (mkCandidate now_ms new_mode account))
         /\ in_time_order now_ms (snd r)))
  /\ (let r1 := should_switch_mode_debounced live_account t0 (VStr "Sim1") (Some LIVE) VNone q in
      let r2 := should_switch_mode_debounced live_account t1 (VStr "Sim1") (Some LIVE) VNone
                  (snd r1) in
      fst r1 = false /\ fst r2 = true /\ snd r2 = [])
  /\ (forall account current_mode qty,
        fst (should_switch_mode_debounced live_account t2 account current_mode qty q') = false).
Proof.
  split; [|split].
  - intros now_ms account current_mode qty q0 new_mode r.
    split; [apply debounced_verdict|].
    destruct (debounced_queue live_account now_ms account current_mode qty q0)
      as [Hclear Hkeep].
    split; [exact Hclear|]. split; [exact Hkeep|].
    intros Hord. split.
    + by apply pruned_queue_in_time_order.
    + by apply debounced_in_time_order.
  - assert (H1 : should_switch_mode_debounced live_account t0 (VStr "Sim1") (Some LIVE) VNone q
                 = (false, [mkCandidate t0 SIM (VStr "Sim1")])).
    { unfold should_switch_mode_debounced. rewrite detect_Sim1 by done.
      cbn [should_switch_mode]. cbn -[pruned_queue].
      by rewrite pruned_queue_all_expired. }
    cbn zeta. rewrite H1. cbn [fst snd]. split; [done|].
    unfold should_switch_mode_debounced. rewrite detect_Sim1 by done.
    cbn -[pruned_queue Qltb]. unfold pruned_queue, deque_append. cbn -[Qltb Qminus].
    assert (Hk : Qltb t0 (t1 - DEBOUNCE_WINDOW_MS) = false).
    { apply Qltb_ge. unfold DEBOUNCE_WINDOW_MS. lra. }
    rewrite Hk. done.
  - intros. by apply debounced_after_window.
Qed.

(** C3 at LIVE account "120005": calls at 0 ms and 500 ms, then one at
    2000 ms after a lone proposal made at 1000 ms. *)
Lemma C3_should_switch_mode_debounced_witness :
  let live := "120005" in
  let r1 := should_switch_mode_debounced live 0 (VStr "Sim1") (Some LIVE) VNone [] in
  let r2 := should_switch_mode_debounced live 500 (VStr "Sim1") (Some LIVE) VNone (snd r1) in
  (fst r1 = false /\ fst r2 = true /\ snd r2 = [])
  /\ fst (should_switch_mode_debounced live 2000 (VStr "Sim1") (Some LIVE) VNone
            [mkCandidate 1000 SIM (VStr "Sim1")]) = false.
Proof.
  assert (H0 : "120005" <> "Sim1") by discriminate.
  assert (H1 : Forall (expired 0) []) by constructor.
  assert (H2 : (500 - 0 <= 750)%Q) by (vm_compute; discriminate).
  assert (H3 : Forall (expired 2000) [mkCandidate 1000 SIM (VStr "Sim1")]).
  { constructor; [|constructor]. vm_compute. reflexivity. }
  pose proof (C3_should_switch_mode_debounced "120005" 0 500 2000 []
                [mkCandidate 1000 SIM (VStr "Sim1")] H0 H1 H2 H3) as (_ & Hs & Ha).
  split; [exact Hs|apply Ha].
Defined.

End Debounce.

(** ** The mode-precedence gate *)

Section Gate.
Import TradeMode Router.

Lemma should_switch_mode_truthy (account qty : pyval) (b : bool) :
  should_switch_mode account qty b = true -> truthy account = true.
Proof.
  destruct account as [| |s]; simpl; [done|done|].
  by destruct (String.eqb s "").
Qed.

Lemma switch_eligible (live : string) (now_ms : Q) (account : pyval) (cur : option Mode)
    (qty : pyval) (q : list Candidate) :
  fst (should_switch_mode_debounced live now_ms account cur qty q) = true ->
  should_switch_mode account qty true = true.
Proof.
  unfold should_switch_mode_debounced.
  by destruct (should_switch_mode account qty true).
Qed.

(** A position quantity that lets the debounce commit is not zero. *)
Lemma switch_qty_nonzero (account qty : pyval) :
  should_switch_mode account qty true = true -> py_eq qty (VNum 0) = false.
Proof.
  destruct account as [| |s]; simpl; [done|done|].
  destruct (String.eqb s ""); [done|]. destruct (String.eqb (strip s) ""); [done|].
  destruct qty as [|q|x]; simpl; [done| |done].
  by destruct (Qeq_bool q 0).
Qed.

Lemma check_mode_precedence_LIVE (r : MessageRouter) :
  _check_mode_precedence r LIVE = true.
Proof. unfold _check_mode_precedence. by destruct (state r). Qed.







End Gate.

(** ** Orders and the switch to LIVE *)

Section OrderSwitch.
Import TradeMode Router.

Lemma marshal_all_ok (env : Env) (calls : list (MarshalTarget * Event)) :
  Forall (fun c => marshal_raises env (fst c) = false) calls ->
  marshal_all env calls = (map snd calls, true).
Proof.
  induction 1 as [|[t e] calls Ht _ IH]; [done|].
  simpl in *. by rewrite Ht, IH.
Qed.

Lemma broadcast_calls_targets (env : Env) (r : MessageRouter) (m : Mode) (a : pyval) :
  (forall p, marshal_raises env (MSetTradingMode p) = false) ->
  Forall (fun c => marshal_raises env (fst c) = false) (broadcast_calls r m a).
Proof.
  intros H. unfold broadcast_calls.
  repeat (apply Forall_app; split);
    match goal with |- Forall _ (if ?b then _ else _) => destruct b end;
    repeat constructor; apply H.
Qed.

Lemma broadcast_calls_events (r : MessageRouter) (m : Mode) (a : pyval) :
  map snd (broadcast_calls r m a) = set_trading_mode_calls r m a.
Proof.
  unfold broadcast_calls, set_trading_mode_calls. rewrite !map_app.
  by repeat match goal with |- context [if ?b then _ else _] => destruct b end.
Qed.

(** An account detected as LIVE passes the eligibility check of an order:
    no quantity is asked for. *)
Lemma detect_LIVE_eligible (live : string) (a : string) :
  detect_mode_from_account live (VStr a) = LIVE ->
  should_switch_mode (VStr a) VNone true = true.
Proof.
  unfold detect_mode_from_account, should_switch_mode.
  destruct (String.eqb a ""); [done|]. by destruct (String.eqb (strip a) "").
Qed.

(** C6, as stated, fails: on a router just started (DEBUG, empty debounce
    queue) one order for the LIVE account "120005" leaves the mode at DEBUG
    and sends no [set_trading_mode]; the order itself is delivered. *)
Lemma C6_single_live_order_does_not_commit :
  let msg := Sample.order_for "120005" in
  let r := _on_order_signal Sample.env 0 msg (mkSys Sample.fresh_router []) in
  msg_mode Sample.env msg = LIVE
  /\ _current_mode (router (fst r)) = DEBUG
  /\ existsb is_set_trading_mode (snd r) = false
  /\ snd r = [log_warning "MODE_DRIFT_DETECTED"; on_order_update msg].
Proof. vm_compute. repeat split; reflexivity. Qed.

Lemma panel_calls_app (a b : list Event) :
  panel_calls (a ++ b) = panel_calls a ++ panel_calls b.
Proof. apply List.filter_app. Qed.

Lemma panel_calls_drift (env : Env) (msg : dict) (r : MessageRouter) :
  panel_calls (_check_mode_drift env msg r) = [].
Proof.
  unfold _check_mode_drift. destruct (negb _); [done|]. by destruct (_ && _).
Qed.

Lemma panel_calls_broadcast (r : MessageRouter) (m : Mode) (a : pyval) :
  panel_calls (set_trading_mode_calls r m a) = set_trading_mode_calls r m a.
Proof.
  unfold set_trading_mode_calls.
  by repeat match goal with |- context [if ?b then _ else _] => destruct b end.
Qed.

Lemma panel_calls_deliver (env : Env) (t : MarshalTarget) (tag : string) (e : Event) :
  is_log e = false -> panel_calls (deliver env t tag [e]) = [e].
Proof.
  intros He. unfold deliver, panel_calls. destruct (marshal_raises env t); cbn; by rewrite He.
Qed.

Lemma panel_calls_summary (msg : dict) : panel_calls (order_fill_summary msg) = [].
Proof.
  unfold order_fill_summary. destruct (_ || _); [|done]. by destruct (formats_as_float _).
Qed.

(** The panel calls of the part of [_on_order_signal] after the mode block. *)
Lemma panel_calls_order_tail (env : Env) (r : MessageRouter) (msg : dict) :
  panel_calls
    ((if has_hook (panel_live r) has_on_order_update
      then deliver env MOnOrderUpdate "router.order.marshal_failed" [on_order_update msg]
      else [])
     ++ order_fill_summary msg)
  = (if has_hook (panel_live r) has_on_order_update then [on_order_update msg] else []).
Proof.
  rewrite panel_calls_app, panel_calls_summary, app_nil_r.
  destruct (has_hook _ _); [|done]. by apply panel_calls_deliver.
Qed.

(** The entry the debounce compares the new candidate with was in the
    queue before the call. *)
Lemma pruned_queue_partner (now_ms : Q) (m : Mode) (a : pyval) (q pre : list Candidate)
    (c : Candidate) :
  pruned_queue now_ms m a q = pre ++ [c; mkCandidate now_ms m a] ->
  exists old, q = old ++ pre ++ [c].
Proof.
  unfold pruned_queue. intros Hq.
  destruct (prune_suffix (now_ms - DEBOUNCE_WINDOW_MS)
              (deque_append q (mkCandidate now_ms m a))) as (old1 & Hd & _).
  rewrite Hq in Hd.
  assert (Hfull : exists old0, q ++ [mkCandidate now_ms m a]
                               = old0 ++ deque_append q (mkCandidate now_ms m a)).
  { unfold deque_append. destruct (MAXLEN <? _); [|by exists []].
    destruct (q ++ _) as [|d l]; [by exists []|by exists [d]]. }
  destruct Hfull as [old0 Hfull]. rewrite Hd in Hfull.
  exists (old0 ++ old1).
  change [c; mkCandidate now_ms m a] with ([c] ++ [mkCandidate now_ms m a]) in Hfull.
  rewrite !app_assoc in Hfull. apply app_inj_tail in Hfull as [Hfull _].
  by rewrite Hfull, !app_assoc.
Qed.

(** C6, amended: an order for an account detected as LIVE, arriving while
    the current mode is DEBUG, is eligible whatever its quantity, but commits
    the switch only when the debounce agrees: the queue, after the order's
    candidate is appended and the old entries are popped from the front,
    must hold just before it a candidate for LIVE and the same account.  On
    a queue in time order that candidate is not older than 750 ms.  A single
    order with nothing recent in the queue does not switch.  When the switch
    commits (the marshalling of [set_trading_mode] not raising), the calls
    made on the panels are [set_trading_mode(LIVE, account)] on each
    registered panel that has it, balance, live, stats, and only then
    [on_order_update] with the order; the router's current mode and account
    become LIVE and the account and the queue is emptied.  When it does not
    commit the router is unchanged and the one call made is the delivery of
    the order. *)
Theorem C6_live_order_switch (env : Env) (now_ms : Q) (msg : dict) (s : Sys) (a : string)
    (Hacct : msg_account msg = VStr a)
    (Hlive : msg_mode env msg = LIVE)
    (Hcur : _current_mode (router s) = DEBUG)
    (Hmarshal : forall p, marshal_raises env (MSetTradingMode p) = false) :
  let r := _on_order_signal env now_ms msg s in
  let delivery :=
    if has_hook (panel_live (router s)) has_on_order_update
    then [on_order_update msg] else [] in
  should_switch_mode (VStr a) VNone true = true
  /\ (switch_detected env now_ms VNone msg s
      <-> exists pre c,
            pruned_queue now_ms LIVE (VStr a) (mode_candidates s)
              = pre ++ [c; mkCandidate now_ms LIVE (VStr a)]
            /\ c_mode c = LIVE /\ c_account c = VStr a)
  /\ (in_time_order now_ms (mode_candidates s) ->
      switch_detected env now_ms VNone msg s ->
      exists pre c,
        pruned_queue now_ms LIVE (VStr a) (mode_candidates s)
          = pre ++ [c; mkCandidate now_ms LIVE (VStr a)]
        /\ c_mode c = LIVE /\ c_account c = VStr a
        /\ c ∈ mode_candidates s
        /\ in_window now_ms c = true)
  /\ (Forall (expired now_ms) (mode_candidates s) ->
      ~ switch_detected env now_ms VNone msg s)
  /\ (switch_detected env now_ms VNone msg s ->
      _current_mode (router (fst r)) = LIVE
      /\ _current_account (router (fst r)) = VStr a
      /\ mode_candidates (fst r) = []
      /\ panel_calls (snd r) = set_trading_mode_calls (router s) LIVE (VStr a) ++ delivery)
  /\ (~ switch_detected env now_ms VNone msg s ->
      router (fst r) = router s
      /\ panel_calls (snd r) = delivery).
Proof.
  intros r delivery.
  assert (Hdet : detect_mode_from_account (live_account env) (VStr a) = LIVE).
  { unfold msg_mode in Hlive. by rewrite Hacct in Hlive. }
  pose proof (detect_LIVE_eligible _ _ Hdet) as Hel.
  pose proof (debounced_verdict (live_account env) now_ms (VStr a)
                (Some (_current_mode (router s))) VNone (mode_candidates s)) as Hv.
  cbn zeta in Hv. rewrite Hdet, Hcur in Hv.
  assert (Hiff : switch_detected env now_ms VNone msg s
                 <-> exists pre c,
                       pruned_queue now_ms LIVE (VStr a) (mode_candidates s)
                         = pre ++ [c; mkCandidate now_ms LIVE (VStr a)]
                       /\ c_mode c = LIVE /\ c_account c = VStr a).
  { unfold switch_detected. rewrite Hacct, Hcur, Hv. split.
    - by intros (_ & _ & H).
    - intros H. split; [done|]. split; [done|exact H]. }
  split; [done|]. split; [exact Hiff|]. split.
  { intros Horder Hsw. apply Hiff in Hsw as (pre & c & Hq & Hm & Ha).
    destruct (pruned_queue_partner _ _ _ _ _ _ Hq) as [old Hold].
    destruct (pruned_queue_in_time_order now_ms LIVE (VStr a) _ Horder) as [Hf _].
    exists pre, c. split_and!; [done|done|done| |].
    - rewrite Hold, !elem_of_app. right. right. apply list_elem_of_here.
    - assert (Hin : c ∈ pruned_queue now_ms LIVE (VStr a) (mode_candidates s)).
      { rewrite Hq. apply elem_of_app. right. apply list_elem_of_here. }
      rewrite Hf in Hin. by apply list_elem_of_In, List.filter_In in Hin as [_ Hw]. }
  split.
  { intros Hexp Hsw. unfold switch_detected in Hsw.
    by rewrite debounced_after_window in Hsw. }
  subst r. unfold _on_order_signal, detect_and_switch.
  fold (msg_account msg). rewrite Hacct.
  assert (Ht : truthy (VStr a) = true) by (by apply (should_switch_mode_truthy _ VNone true)).
  rewrite Ht. cbn [negb].
  pose proof (debounced_queue (live_account env) now_ms (VStr a)
                (Some (_current_mode (router s))) VNone (mode_candidates s)) as [Hclear _].
  unfold switch_detected. rewrite Hacct. clear Hv Hiff.
  destruct (should_switch_mode_debounced (live_account env) now_ms (VStr a)
              (Some (_current_mode (router s))) VNone (mode_candidates s)) as [sw q'].
  cbn [fst snd] in *. split.
  - intros ->. cbn [negb]. rewrite Hdet, check_mode_precedence_LIVE, andb_false_r.
    rewrite marshal_all_ok by (by apply broadcast_calls_targets).
    rewrite broadcast_calls_events. cbn [fst snd router with_mode panel_live
      _current_mode _current_account mode_candidates].
    rewrite (Hclear eq_refl). split_and!; [done..|].
    by rewrite !panel_calls_app, panel_calls_drift, panel_calls_broadcast,
      <- panel_calls_app, panel_calls_order_tail.
  - intros Hn. destruct sw; [done|]. cbn [negb fst snd router]. split; [done|].
    by rewrite app_nil_l, panel_calls_app, panel_calls_drift, panel_calls_order_tail.
Qed.

(** C6 on a router just started: the first order for "120005" only enters
    the queue; the second one, 100 ms later, commits LIVE and the three
    [set_trading_mode] calls precede [on_order_update].  The order is a
    filled one without a fill price, so the closing block logs as well. *)
Lemma C6_live_order_switch_witness :
  let msg := <["OrderStatus" := VNum 3]> (Sample.order_for "120005") in
  let s1 := fst (_on_order_signal Sample.env 0 msg (mkSys Sample.fresh_router [])) in
  let r := _on_order_signal Sample.env 100 msg s1 in
  _current_mode (router (fst r)) = LIVE
  /\ _current_account (router (fst r)) = VStr "120005"
  /\ mode_candidates (fst r) = []
  /\ panel_calls (snd r)
     = set_trading_mode_calls (router s1) LIVE (VStr "120005") ++ [on_order_update msg].
Proof.
  intros msg s1.
  assert (Hacct : msg_account msg = VStr "120005") by (vm_compute; reflexivity).
  assert (Hlive : msg_mode Sample.env msg = LIVE) by (vm_compute; reflexivity).
  assert (Hcur : _current_mode (router s1) = DEBUG) by (vm_compute; reflexivity).
  assert (Hmarshal : forall p, marshal_raises Sample.env (MSetTradingMode p) = false)
    by (intros p; reflexivity).
  pose proof (C6_live_order_switch Sample.env 100 msg s1 "120005" Hacct Hlive Hcur Hmarshal)
    as (_ & _ & _ & _ & Hcommit & _).
  apply Hcommit. vm_compute. reflexivity.
Defined.

End OrderSwitch.

(** ** Balance routing *)

Section Balance.
Import TradeMode Router.

Lemma deliver_hooks (env : Env) (t : MarshalTarget) (tag : string) (call : list Event) :
  existsb is_balance_hook (deliver env t tag call) = existsb is_balance_hook call.
Proof. unfold deliver. by destruct (marshal_raises env t). Qed.




(** [float] leaves an [int] of at most 53 bits as it is. *)
Lemma to_float_small_int (env : Env) (n : Z) :
  (Z.abs n < 2 ^ 53)%Z -> to_float env (VNum (inject_Z n)) = Some (inject_Z n).
Proof.
  intros Hn. unfold to_float, float_of_num.
  assert (Hred : Qred (inject_Z n) = inject_Z n).
  { unfold Qred, inject_Z.
    pose proof (Z.ggcd_gcd n 1) as Hg. pose proof (Z.ggcd_correct_divisors n 1) as Hd.
    destruct (Z.ggcd n 1) as [g [aa bb]]. cbn [fst snd] in *.
    rewrite Z.gcd_1_r in Hg. subst g. destruct Hd as [Ha Hb].
    assert (aa = n) as -> by lia. assert (bb = 1%Z) as -> by lia. done. }
  rewrite Hred. cbn [inject_Z Qden Qnum Pos.eqb]. unfold float_of_int.
  assert (Hbits : (Z.log2 (Z.abs n) + 1 <=? 53)%Z = true).
  { apply Z.leb_le. destruct (Z.eq_dec (Z.abs n) 0%Z) as [->|Hz]; [done|].
    assert (Z.log2 (Z.abs n) < 53)%Z; [|lia]. apply Z.log2_lt_pow2; lia. }
  cbn zeta. by rewrite Hbits, Z.eqb_refl.
Qed.

(** Beyond 53 bits [float] rounds, and beyond the doubles it raises. *)
Lemma to_float_rounds (env : Env) :
  to_float env (VNum 9007199254740993) = Some 9007199254740992%Q.
Proof. reflexivity. Qed.

Lemma to_float_overflows (env : Env) :
  to_float env (VNum (inject_Z (10 ^ 400))) = None.
Proof. by vm_compute. Qed.




End Balance.

(** ** Position filters *)

Section Positions.
Import TradeMode Router.

(** A phantom position has the quantity and price of the table: neither is
    zero, so the earlier filters let it through to the phantom filter. *)
Lemma is_phantom_nonzero (sym qty avg : pyval) :
  is_phantom sym qty avg = true ->
  py_eq qty (VNum 0) = false /\ is_none avg = false /\ py_eq avg (VNum 0) = false.
Proof.
  unfold is_phantom. destruct sym as [| |s]; [done|done|].
  destruct (PHANTOM_POSITIONS !! s) as [[pq pa]|] eqn:E; [|done].
  unfold PHANTOM_POSITIONS in E. apply lookup_singleton_Some in E as [_ [= <- <-]].
  intros [Hq Ha]%andb_true_iff.
  destruct qty as [|q|x], avg as [|a|y]; try done. cbn in *.
  apply Qeq_bool_iff in Hq, Ha. repeat split.
  - destruct (Qeq_bool q 0) eqn:E; [|done]. apply Qeq_bool_iff in E.
    rewrite E in Hq. by apply Qeq_bool_iff in Hq.
  - destruct (Qeq_bool a 0) eqn:E; [|done]. apply Qeq_bool_iff in E.
    rewrite E in Ha. by apply Qeq_bool_iff in Ha.
Qed.

(** The [route] path drops a phantom position: no panel, trade manager or
    Session State sees it. *)
Lemma phantom_dropped_on_route (env : Env) (payload : dict) (r : MessageRouter) :
  is_phantom (get payload "symbol") (get_or payload "qty" (VNum 0))
             (get payload "avg_entry") = true ->
  _on_position_update payload r = (r, [log_warning "router.position.phantom"], Returns)
  /\ route env (mkAppMessage (VStr "POSITION_UPDATE") payload) r
     = (r, [log_warning "router.position.phantom"]).
Proof.
  intros H. destruct (is_phantom_nonzero _ _ _ H) as (Hq & Hn & Ha).
  assert (Hh : _on_position_update payload r
               = (r, [log_warning "router.position.phantom"], Returns)).
  { unfold _on_position_update. by rewrite Hq, Hn, Ha, H. }
  split; [exact Hh|]. unfold route. cbn [mtype Router.payload truthy negb].
  cbn. by rewrite Hh.
Qed.

(** C7: the position ("F.US.MESM25", 1, 5996.5) matches the phantom table,
    and the [route] handler [_on_position_update] drops it; but
    [_on_position_signal] has no such filter and hands the same position to
    the live panel's [on_position_update]. *)
Theorem C7_phantom_position_reaches_panel_on_signal_path :
  let msg := Sample.phantom_position in
  let s := mkSys Sample.fresh_router [] in
  is_phantom (get msg "symbol") (get_or msg "qty" (VNum 0)) (get msg "avg_entry") = true
  /\ _on_position_update msg (router s)
     = (router s, [log_warning "router.position.phantom"], Returns)
  /\ snd (_on_position_signal Sample.env 0 msg s) = [on_position_update msg].
Proof. vm_compute. repeat split; reflexivity. Qed.

End Positions.

(** ** Orders on the [route] entry *)

Section RouteOrders.
Import TradeMode Router.

(** C10: on [route], an ORDER_UPDATE whose TradeAccount is not empty and
    whose detected mode differs from the current mode of the Session State
    sets that current mode to the detected mode and emits [modeChanged]; the
    debounce queue is not consulted (it is no argument of [route]) and the
    answer of the precedence gate plays no part.  The router's own
    [_current_mode] and the open positions are left as they were. *)
Theorem C10_route_order_update_sets_mode (env : Env) (payload : dict)
    (r : MessageRouter) (st : StateManager.t)
    (Hst : state r = Some st)
    (Hacct : truthy (msg_account payload) = true)
    (Hdiff : msg_mode env payload <> StateManager.current_mode st) :
  let res := route env (mkAppMessage (VStr "ORDER_UPDATE") payload) r in
  (StateManager.current_mode <$> state (fst res)) = Some (msg_mode env payload)
  /\ modeChanged_emit (msg_mode env payload) ∈ snd res
  /\ _current_mode (fst res) = _current_mode r
  /\ (StateManager.positions <$> state (fst res)) = Some (StateManager.positions st).
Proof.
  intros res.
  assert (E : res
              = (update_state (StateManager.record_order payload)
                   (with_state
                      (Some (StateManager.with_current_mode (msg_mode env payload) st)) r),
                 [modeChanged_emit (msg_mode env payload)]
                 ++ (if has_hook (panel_live r) has_on_order_update
                     then [on_order_update payload] else [])
                 ++ (if has_hook (panel_stats r) has_register_order_event
                     then [register_order_event payload] else []))).
  { subst res. unfold route. cbn [mtype Router.payload truthy negb]. cbn.
    unfold _on_order_update. fold (msg_account payload). rewrite Hacct.
    fold (msg_mode env payload). rewrite Hst.
    destruct (mode_eqb (msg_mode env payload) (StateManager.current_mode st)) eqn:Em;
      [by apply mode_eqb_eq in Em|].
    done. }
  clearbody res. subst res. cbn.
  split; [done|]. split; [apply list_elem_of_here|]. done.
Qed.

(** C10 with LIVE current and an open LIVE position: the gate would refuse
    SIM and a first "Sim1" order does not pass the debounce, yet the order
    routed through [route] sets the current mode to SIM. *)
Lemma C10_route_order_update_sets_mode_witness :
  let r := Sample.router_with (Sample.session LIVE Sample.live_position)
             LIVE (VStr "120005") in
  let msg := Sample.order_for "Sim1" in
  _check_mode_precedence r SIM = false
  /\ fst (should_switch_mode_debounced "120005" 0 (VStr "Sim1") (Some LIVE) VNone []) = false
  /\ (StateManager.current_mode
        <$> state (fst (route Sample.env (mkAppMessage (VStr "ORDER_UPDATE") msg) r)))
     = Some SIM.
Proof.
  intros r msg.
  assert (Hst : state r = Some (Sample.session LIVE Sample.live_position)) by reflexivity.
  assert (Hacct : truthy (msg_account msg) = true) by (vm_compute; reflexivity).
  assert (Hdiff : msg_mode Sample.env msg
                  <> StateManager.current_mode (Sample.session LIVE Sample.live_position))
    by (vm_compute; discriminate).
  pose proof (C10_route_order_update_sets_mode Sample.env msg r _ Hst Hacct Hdiff)
    as (H & _).
  split; [vm_compute; reflexivity|]. split; [vm_compute; reflexivity|].
  exact H.
Defined.

End RouteOrders.

(** ** The transport: [_send] and [close] *)

Section Transport.
Import DTCClient.

(** C8, as stated, fails: a heartbeat sent on a client with no socket is
    not written, yet the call returns [None] without raising, exactly as the
    same call on a connected client does; with [DEBUG_NETWORK] off it is not
    even logged. *)
Lemma C8_send_without_socket_returns_None :
  let env := Sample.client_env false in
  let silent := _send env Sample.heartbeat Sample.unconnected in
  let sent := _send env Sample.heartbeat Sample.connected in
  delivered (snd silent) = false
  /\ fails_loudly (fst silent) = false
  /\ snd silent = []
  /\ delivered (snd sent) = true
  /\ fst silent = fst sent.
Proof. vm_compute. repeat split; reflexivity. Qed.

(** C8, amended: [_send] never raises and always returns [None].  When a
    socket is open, the message serializes and the socket write succeeds,
    the serialized message followed by one NULL byte is written, once, and
    nothing is reported; in every other case nothing is written.  A failed
    serialization or a failed write is reported to the diagnostics log
    only; a missing socket is reported there only under [DEBUG_NETWORK].
    The caller cannot tell from the result whether the message left. *)
Theorem C8_send_returns_None_and_logs (env : Env) (obj : dict) (c : Client) :
  let r := _send env obj c in
  fst r = Ret VNone
  /\ fails_loudly (fst r) = false
  /\ (forall body,
        sock c = true -> json_dumps env obj = Some body ->
        sendall env (body ++ [NULL]) = Sent ->
        delivered (snd r) = true
        /\ written (snd r) = body ++ [NULL]
        /\ List.filter (fun e => match e with sock_sendall _ => true | _ => false end) (snd r)
           = [sock_sendall (body ++ [NULL])]
        /\ reported (snd r) = false)
  /\ (delivered (snd r) = true ->
      sock c = true
      /\ exists body, json_dumps env obj = Some body
                      /\ sendall env (body ++ [NULL]) = Sent)
  /\ (delivered (snd r) = false -> written (snd r) = [])
  /\ (sock c = true -> delivered (snd r) = false -> reported (snd r) = true)
  /\ (sock c = false ->
      snd r = if DEBUG_NETWORK env
              then [error "network" "No socket connection available"] else []).
Proof.
  intros r. subst r. unfold _send.
  destruct (sock c) eqn:Hs; cbn [negb].
  - destruct (json_dumps env obj) as [body|] eqn:Hd.
    + destruct (sendall env (body ++ [NULL])) eqn:Hw; cbn [fst snd];
        destruct (DEBUG_DATA env && not_heartbeat obj); cbn;
        rewrite ?app_nil_r; split_and!; try done;
        first [ intros b _ [= <-] Hb; first [congruence | done]
              | intros _; split; [done|by exists body] ].
    + cbn [fst snd]. cbn. split_and!; done.
  - cbn [fst snd]. destruct (DEBUG_NETWORK env); cbn; split_and!; done.
Qed.



End Transport.

(** ** The transport: the receive loop *)

Section Receive.
Import DTCClient.

Lemma index0_app (raw rest : list byte) :
  no_delimiter raw -> index0 (raw ++ NULL :: rest) = Some (length raw).
Proof.
  unfold no_delimiter. induction raw as [|b raw IH]; [done|].
  simpl. destruct (Byte.eqb b NULL); [done|].
  destruct (index0 raw) eqn:E; [done|]. intros _. by rewrite IH.
Qed.

Lemma index0_no_delimiter_app (a b : list byte) :
  no_delimiter a -> no_delimiter b -> no_delimiter (a ++ b).
Proof.
  unfold no_delimiter. induction a as [|x a IH]; [done|].
  simpl. destruct (Byte.eqb x NULL); [done|].
  destruct (index0 a); [done|]. intros _ Hb. by rewrite IH.
Qed.

(** Cutting the first frame out of the buffer. *)
Lemma cut_frame (raw rest : list byte) :
  take (length raw) (raw ++ NULL :: rest) = raw
  /\ drop (S (length raw)) (raw ++ NULL :: rest) = rest.
Proof.
  split.
  - by rewrite take_app_length.
  - change (NULL :: rest) with ([NULL] ++ rest). rewrite app_assoc.
    replace (S (length raw)) with (length (raw ++ [NULL]))
      by (rewrite length_app; simpl; lia).
    by rewrite drop_app_length.
Qed.

(** A frame that does not decode is dropped: no dispatch, no exception. *)
Lemma rx_frame_undecodable (env : Env) (c : Client) (raw : list byte) :
  json_loads env raw = None ->
  dispatched (fst (rx_frame env c raw)) = [] /\ snd (rx_frame env c raw) = false.
Proof.
  intros H. unfold rx_frame. rewrite H. by destruct (DEBUG_DATA env).
Qed.

(** A frame that decodes to an object is dispatched once, whatever the
    sinks do, and no exception leaves the frame. *)
Lemma rx_frame_object (env : Env) (c : Client) (raw : list byte) (m : dict) :
  json_loads env raw = Some (JObject m) ->
  dispatched (fst (rx_frame env c raw)) = [JObject m]
  /\ snd (rx_frame env c raw) = false.
Proof.
  intros H. unfold rx_frame. rewrite H.
  destruct (dispatch_raises env m), (DEBUG_UI env), (on_msg c),
    (on_msg_raises env (JObject m)), (DEBUG_CORE env); split; reflexivity.
Qed.

(** With [DEBUG_UI] on, a frame that decodes to something other than an
    object raises out of the frame. *)
Lemma rx_frame_other (env : Env) (c : Client) (raw : list byte) :
  DEBUG_UI env = true -> json_loads env raw = Some JOther ->
  rx_frame env c raw = ([call_dispatch_for_panels JOther], true).
Proof. intros Hd H. unfold rx_frame. by rewrite H, Hd. Qed.

Lemma split_frames_no_delimiter (buf : list byte) :
  no_delimiter buf -> split_frames buf = ([], buf).
Proof.
  unfold no_delimiter. induction buf as [|b buf IH]; [done|].
  simpl. destruct (Byte.eqb b NULL); [done|].
  destruct (index0 buf); [done|]. intros _. by rewrite IH.
Qed.

Lemma split_frames_frame (raw rest : list byte) :
  no_delimiter raw ->
  split_frames (raw ++ NULL :: rest)
  = (raw :: fst (split_frames rest), snd (split_frames rest)).
Proof.
  unfold no_delimiter. induction raw as [|b raw IH].
  - intros _. simpl. by destruct (split_frames rest).
  - simpl. destruct (Byte.eqb b NULL); [done|].
    destruct (index0 raw); [done|]. intros _. by rewrite IH.
Qed.

Lemma split_frames_wire (frames : list (list byte)) (rest : list byte) :
  Forall no_delimiter frames -> no_delimiter rest ->
  split_frames (wire frames ++ rest) = (frames, rest).
Proof.
  intros Hf Hr. induction Hf as [|f frames Hf _ IH].
  - by apply split_frames_no_delimiter.
  - unfold wire. simpl. fold (wire frames). rewrite <- !app_assoc. simpl.
    by rewrite split_frames_frame, IH.
Qed.

(** Either the buffer holds no delimiter, or it starts with a frame. *)
Lemma index0_cases (buf : list byte) :
  match index0 buf with
  | None => no_delimiter buf
  | Some i =>
      i < length buf
      /\ buf = take i buf ++ NULL :: drop (S i) buf
      /\ no_delimiter (take i buf)
  end.
Proof.
  unfold no_delimiter. induction buf as [|b buf IH]; [done|].
  cbn [index0]. destruct (Byte.eqb b NULL) eqn:E.
  - apply byte_dec_bl in E. subst b. cbn. split; [lia|]. by rewrite drop_0.
  - destruct (index0 buf) as [i|]; cbn [fmap option_fmap option_map].
    + destruct IH as (Hi & Hb & Hn). cbn [length take drop]. split; [lia|].
      split; [cbn; by f_equal|]. cbn [index0]. by rewrite E, Hn.
    + done.
Qed.

Lemma split_frames_app (a b : list byte) :
  split_frames (a ++ b)
  = (fst (split_frames a) ++ fst (split_frames (snd (split_frames a) ++ b)),
     snd (split_frames (snd (split_frames a) ++ b))).
Proof.
  remember (length a) as n eqn:Hn. revert a Hn.
  induction n as [n IH] using lt_wf_ind. intros a ->.
  pose proof (index0_cases a) as H. destruct (index0 a) as [i|].
  - destruct H as (Hi & Ha & Hnd).
    set (raw := take i a) in *. set (rest := drop (S i) a) in *.
    assert (Hlen : length rest < length a) by (subst rest; rewrite length_drop; lia).
    clearbody raw rest. subst a. rewrite <- app_assoc.
    change ((NULL :: rest) ++ b) with (NULL :: (rest ++ b)).
    rewrite !split_frames_frame by done. cbn [fst snd].
    rewrite (IH (length rest) Hlen rest eq_refl). done.
  - rewrite (split_frames_no_delimiter a H). simpl. by destruct (split_frames (a ++ b)).
Qed.

Lemma dispatched_app (a b : list Event) :
  dispatched (a ++ b) = dispatched a ++ dispatched b.
Proof. unfold dispatched. apply omap_app. Qed.

(** The inner loop handles every complete frame of the buffer, in order,
    and leaves the unterminated rest: frames that decode to an object are
    dispatched once, the others dropped. *)
Lemma drain_frames (env : Env) (c : Client) (fuel : nat) (buf : list byte) :
  length buf <= fuel ->
  objects_only env (fst (split_frames buf)) ->
  exists evs,
    drain fuel env c buf = (snd (split_frames buf), evs, false)
    /\ dispatched evs = decodable env (fst (split_frames buf)).
Proof.
  revert buf. induction fuel as [|fuel IH]; intros buf Hlen Hobj.
  - destruct buf; [|simpl in Hlen; lia]. by exists [].
  - simpl. pose proof (index0_cases buf) as H. destruct (index0 buf) as [i|].
    + destruct H as (Hi & Hb & Hnd).
      assert (Hs : split_frames buf
                   = (take i buf :: fst (split_frames (drop (S i) buf)),
                      snd (split_frames (drop (S i) buf)))).
      { rewrite Hb at 1. by apply split_frames_frame. }
      rewrite Hs in Hobj |- *. cbn [fst snd] in *.
      apply Forall_cons in Hobj as [Hraw Hobj].
      destruct (IH (drop (S i) buf)) as (evs & Hd & He);
        [rewrite length_drop; lia|done|].
      destruct (take i buf) as [|b raw] eqn:Hr.
      * exists evs. by rewrite Hd.
      * destruct (json_loads env (b :: raw)) as [[m|]|] eqn:Hj; [| done |].
        -- destruct (rx_frame_object env c _ m Hj) as [Hdis Hout].
           destruct (rx_frame env c (b :: raw)) as [ev out]. cbn [fst snd] in *.
           subst out. rewrite Hd. exists (ev ++ evs). split; [done|].
           rewrite dispatched_app, Hdis, He. unfold decodable. cbn. by rewrite Hj.
        -- destruct (rx_frame_undecodable env c _ Hj) as [Hdis Hout].
           destruct (rx_frame env c (b :: raw)) as [ev out]. cbn [fst snd] in *.
           subst out. rewrite Hd. exists (ev ++ evs). split; [done|].
           rewrite dispatched_app, Hdis, He. unfold decodable. cbn. by rewrite Hj.
    + rewrite (split_frames_no_delimiter buf H). by exists [].
Qed.

Lemma split_frames_rest_no_delimiter (buf : list byte) :
  no_delimiter (snd (split_frames buf)).
Proof.
  unfold no_delimiter. induction buf as [|b buf IH]; [done|].
  cbn [split_frames]. destruct (split_frames buf) as [fs t]. cbn [snd] in IH.
  destruct (Byte.eqb b NULL) eqn:E; [done|].
  destruct fs; cbn [snd]; [|done]. cbn [index0]. by rewrite E, IH.
Qed.

(** The receive loop over reads that bring data or time out: every complete
    frame of the bytes received so far has been handled, in order, whatever
    the chunking, and the loop is still receiving. *)
Lemma rx_loop_frames (env : Env) (reads : list Recv) (c : Client) :
  _stop c = false -> sock c = true -> no_delimiter (_rx_buf c) ->
  Forall keeps_receiving reads ->
  objects_only env (fst (split_frames (_rx_buf c ++ concat (map data_of reads)))) ->
  exists c' evs,
    _rx_loop env reads c = (c', evs, Receiving)
    /\ dispatched evs
       = decodable env (fst (split_frames (_rx_buf c ++ concat (map data_of reads))))
    /\ _rx_buf c' = snd (split_frames (_rx_buf c ++ concat (map data_of reads)))
    /\ _stop c' = false /\ sock c' = true.
Proof.
  intros Hstop Hsock Hbuf Hreads. revert c Hstop Hsock Hbuf.
  induction Hreads as [|rd reads Hrd _ IH]; intros c Hstop Hsock Hbuf Hobj.
  - cbn [_rx_loop map concat] in *. rewrite Hstop, Hsock. cbn [orb negb].
    rewrite app_nil_r in *. rewrite (split_frames_no_delimiter _ Hbuf).
    by exists c, [].
  - destruct rd as [[|b chunk]| |]; [done| |clear Hrd|done].
    + cbn [_rx_loop]. rewrite Hstop, Hsock. cbn [orb negb].
      cbn [map concat data_of] in Hobj |- *. rewrite app_assoc in Hobj |- *.
      set (buf := _rx_buf c ++ b :: chunk) in *.
      rewrite split_frames_app in Hobj |- *. cbn [fst snd] in Hobj |- *.
      apply Forall_app in Hobj as [Hobj1 Hobj2].
      destruct (drain_frames env c (length buf) buf (le_n _) Hobj1) as (evs & Hd & He).
      rewrite Hd.
      destruct (IH (with_rx_buf (snd (split_frames buf)) c)) as (c' & evs' & Hl & Hd' & Hb' & Hk);
        [done|done|apply split_frames_rest_no_delimiter|exact Hobj2|].
      cbn [_rx_buf with_rx_buf] in Hd', Hb'. rewrite Hl.
      exists c', (evs ++ evs'). split; [done|]. split; [|done].
      rewrite dispatched_app, He, Hd'. unfold decodable. by rewrite omap_app.
    + cbn [_rx_loop]. rewrite Hstop, Hsock. cbn [orb negb].
      cbn [map concat data_of app] in Hobj |- *. by apply IH.
Qed.

(** A stream of delimiter-terminated frames, followed by unterminated bytes
    and received in any chunking: as long as no frame decodes to a JSON value
    other than an object, the frames that decode are dispatched, once each
    and in order, the others are dropped, and the loop keeps receiving. *)
Lemma rx_loop_dispatches_decodable_frames (env : Env) (reads : list Recv) (c : Client)
    (frames : list (list byte)) (rest : list byte) :
  _stop c = false -> sock c = true -> _rx_buf c = [] ->
  Forall keeps_receiving reads ->
  concat (map data_of reads) = wire frames ++ rest ->
  Forall no_delimiter frames -> no_delimiter rest ->
  objects_only env frames ->
  exists c' evs,
    _rx_loop env reads c = (c', evs, Receiving)
    /\ dispatched evs = decodable env frames
    /\ _rx_buf c' = rest.
Proof.
  intros Hstop Hsock Hbuf Hreads Hdata Hframes Hrest Hobj.
  destruct (rx_loop_frames env reads c Hstop Hsock) as (c' & evs & Hl & Hd & Hb & _);
    [by rewrite Hbuf|done| |].
  - rewrite Hbuf, app_nil_l, Hdata. by rewrite split_frames_wire.
  - rewrite Hbuf, app_nil_l, Hdata, split_frames_wire in Hd, Hb by done.
    by exists c', evs.
Qed.


(** C5: with [DEBUG_UI] on, a frame that is valid JSON but not an object
    (such as [[1]]) makes [_dispatch_for_panels] raise, and the handler that
    should contain it raises again on [msg.get]; the exception leaves
    [_rx_loop], which closes the connection.  Whatever follows in the
    stream, well-formed frames included, is never dispatched. *)
Theorem C5_non_object_frame_escapes_rx_loop (env : Env) (c : Client)
    (raw rest : list byte) (reads : list Recv)
    (Hdebug : DEBUG_UI env = true)
    (Hraw : raw <> [])
    (Hnd : no_delimiter raw)
    (Hdec : json_loads env raw = Some JOther)
    (Hstop : _stop c = false)
    (Hsock : sock c = true)
    (Hbuf : _rx_buf c = []) :
  let r := _rx_loop env (Chunk (raw ++ NULL :: rest) :: reads) c in
  snd r = RaisedFromFrame
  /\ dispatched (snd (fst r)) = [JOther]
  /\ sock (fst (fst r)) = false
  /\ _rx_buf (fst (fst r)) = rest.
Proof.
  intros r. subst r. destruct raw as [|b raw]; [done|].
  cbn [_rx_loop]. rewrite Hstop, Hsock, Hbuf. cbn [orb negb app].
  change (b :: raw ++ NULL :: rest) with ((b :: raw) ++ NULL :: rest).
  set (buf := (b :: raw) ++ NULL :: rest).
  assert (Hlen : exists n, length buf = S n).
  { subst buf. simpl. eauto. }
  destruct Hlen as [n ->]. cbn [drain]. subst buf.
  rewrite (index0_app _ rest Hnd).
  destruct (cut_frame (b :: raw) rest) as [-> ->].
  rewrite (rx_frame_other env c _ Hdebug Hdec).
  unfold finally_close, close. cbn. rewrite Hsock.
  destruct (diagnostic_logger c), (on_disconnected c); by cbn.
Qed.

(** C5 at the stream [[1]\0{"Type":3}\0] with [DEBUG_UI] on: the heartbeat
    after the list is never dispatched. *)
Lemma C5_non_object_frame_escapes_rx_loop_witness :
  let stream := Sample.frame_list ++ NULL :: Sample.frame_heartbeat ++ [NULL] in
  let r := _rx_loop (Sample.client_env true) [Chunk stream] Sample.connected in
  snd r = RaisedFromFrame
  /\ dispatched (snd (fst r)) = [JOther]
  /\ sock (fst (fst r)) = false
  /\ _rx_buf (fst (fst r)) = Sample.frame_heartbeat ++ [NULL].
Proof.
  apply (C5_non_object_frame_escapes_rx_loop (Sample.client_env true) Sample.connected
           Sample.frame_list (Sample.frame_heartbeat ++ [NULL]) []);
    try reflexivity.
  discriminate.
Defined.

(** With [DEBUG_UI] off the same stream is handled: both frames are
    dispatched and the loop goes on receiving. *)
Example rx_loop_list_then_heartbeat :
  let stream := Sample.frame_list ++ NULL :: Sample.frame_heartbeat ++ [NULL] in
  let r := _rx_loop (Sample.client_env false) [Chunk stream] Sample.connected in
  snd r = Receiving
  /\ dispatched (snd (fst r)) = [JOther; JObject Sample.heartbeat].
Proof. vm_compute. split; reflexivity. Qed.

(** Two frames split over three reads, with a frame that does not decode
    between them and unterminated bytes at the end: two dispatches. *)
Example rx_loop_two_heartbeats :
  let reads :=
    [Chunk (take 4 Sample.frame_heartbeat); Timeout;
     Chunk (drop 4 Sample.frame_heartbeat ++ NULL :: Sample.frame_garbage ++ [NULL]);
     Chunk (Sample.frame_heartbeat ++ NULL :: Sample.frame_garbage)] in
  let r := _rx_loop (Sample.client_env true) reads Sample.connected in
  snd r = Receiving
  /\ dispatched (snd (fst r)) = [JObject Sample.heartbeat; JObject Sample.heartbeat]
  /\ _rx_buf (fst (fst r)) = Sample.frame_garbage.
Proof. vm_compute. repeat split; reflexivity. Qed.

End Receive.

(** * Further properties *)

(** ** Detection from whole messages, and the queue over many calls *)

Section AutoDetectProps.
Import TradeMode Router AutoDetect.

Lemma should_switch_mode_order (account qty : pyval) :
  should_switch_mode account qty true = true ->
  should_switch_mode account VNone true = true.
Proof.
  destruct account as [| |s]; simpl; [done|done|].
  destruct (String.eqb s ""); [done|]. by destruct (String.eqb (strip s) "").
Qed.

Lemma should_switch_mode_nonflat (account qty : pyval) :
  py_eq qty (VNum 0) = false ->
  should_switch_mode account qty true = should_switch_mode account VNone true.
Proof.
  intros H. destruct account as [| |s]; simpl; [done|done|].
  by rewrite H, andb_false_r.
Qed.

Lemma should_switch_mode_blank (s : string) (qty : pyval) :
  should_switch_mode (VStr s) VNone true = true <-> strip s <> "".
Proof.
  simpl. destruct (String.eqb s "") eqn:E.
  - apply String.eqb_eq in E. subst s. split; [done|]. intros H. by destruct H.
  - destruct (String.eqb (strip s) "") eqn:E'.
    + apply String.eqb_eq in E'. split; [done|]. by intros H.
    + apply String.eqb_neq in E'. done.
Qed.

(** X1: [auto_detect_mode_from_order] gives a mode exactly for an account
    that is a string with something other than white space in it, and then
    the mode [detect_mode_from_account] gives; [auto_detect_mode_from_position]
    gives no mode for a flat position and otherwise agrees with the order
    variant; and whenever the debounced check commits, the order variant
    names the mode it committed to. *)
Theorem X1_auto_detect (live_account : string) (msg : dict) :
  (forall m, auto_detect_mode_from_order live_account msg = Some m
     <-> exists s, msg_account msg = VStr s /\ strip s <> ""
                   /\ m = detect_mode_from_account live_account (VStr s))
  /\ (py_eq (position_qty msg) (VNum 0) = true ->
      auto_detect_mode_from_position live_account msg = None)
  /\ (py_eq (position_qty msg) (VNum 0) = false ->
      auto_detect_mode_from_position live_account msg
      = auto_detect_mode_from_order live_account msg)
  /\ (forall now_ms current_mode qty q,
        fst (should_switch_mode_debounced live_account now_ms (msg_account msg)
               current_mode qty q) = true ->
        auto_detect_mode_from_order live_account msg
        = Some (detect_mode_from_account live_account (msg_account msg))).
Proof.
  unfold auto_detect_mode_from_order, auto_detect_mode_from_position.
  fold (msg_account msg) (position_qty msg).
  split; [|split; [|split]].
  - intros m. destruct (msg_account msg) as [|x|s] eqn:Ha.
    + split; [done|]. by intros (s & ? & _).
    + cbn [should_switch_mode]. destruct (negb (truthy (VNum x)));
        (split; [done|by intros (s & ? & _)]).
    + destruct (truthy (VStr s)) eqn:Ht; cbn [negb].
      * destruct (should_switch_mode (VStr s) VNone true) eqn:Hs.
        -- apply (should_switch_mode_blank s VNone) in Hs. split.
           ++ intros [= <-]. by exists s.
           ++ by intros (s' & [= <-] & _ & ->).
        -- split; [done|]. intros (s' & [= <-] & Hb & _).
           apply (should_switch_mode_blank s VNone) in Hb. congruence.
      * split; [done|]. intros (s' & [= <-] & Hb & _).
        apply (should_switch_mode_blank s VNone) in Hb.
        apply should_switch_mode_truthy in Hb. congruence.
  - intros Hq. destruct (negb (truthy (msg_account msg))); [done|].
    destruct (should_switch_mode (msg_account msg) (position_qty msg) true) eqn:Hs; [|done].
    apply switch_qty_nonzero in Hs. congruence.
  - intros Hq. by rewrite (should_switch_mode_nonflat _ _ Hq).
  - intros now_ms current_mode qty q Hsw.
    apply switch_eligible, should_switch_mode_order in Hsw.
    by rewrite (should_switch_mode_truthy _ _ _ Hsw), Hsw.
Qed.

Lemma prune_length (cutoff : Q) (q : list Candidate) :
  length (prune cutoff q) <= length q.
Proof.
  destruct (prune_suffix cutoff q) as (old & Hq & _).
  rewrite Hq at 2. rewrite length_app. lia.
Qed.

Lemma debounced_length (live_account : string) (now_ms : Q) (account : pyval)
    (current_mode : option Mode) (qty : pyval) (q : list Candidate) :
  length q <= MAXLEN ->
  length (snd (should_switch_mode_debounced live_account now_ms account current_mode qty q))
  <= MAXLEN.
Proof.
  intros H.
  destruct (debounced_queue live_account now_ms account current_mode qty q) as [Ht Hf].
  destruct (fst (should_switch_mode_debounced _ _ _ _ _ _)) eqn:E.
  - rewrite (Ht eq_refl). simpl. lia.
  - destruct (Hf eq_refl) as [-> | ->]; [done|].
    unfold pruned_queue. etrans; [apply prune_length|].
    by apply deque_append_length.
Qed.

Lemma detect_and_switch_length (env : Env) (now_ms : Q) (qty : pyval)
    (blocked_tag failed_tag : string) (msg : dict) (s : Sys) :
  length (mode_candidates s) <= MAXLEN ->
  length (mode_candidates (fst (fst (detect_and_switch env now_ms qty blocked_tag
                                       failed_tag msg s)))) <= MAXLEN.
Proof.
  intros H. unfold detect_and_switch.
  destruct (negb (truthy _)); [done|].
  pose proof (debounced_length (live_account env) now_ms
                (get_or msg "TradeAccount" (VStr "")) (Some (_current_mode (router s)))
                qty (mode_candidates s) H) as Hl.
  destruct (should_switch_mode_debounced _ _ _ _ _ _) as [sw q']. cbn [snd] in Hl.
  destruct (negb sw); [done|]. destruct (_ && _); [done|].
  destruct (marshal_all _ _) as [evs ok]. by destruct ok.
Qed.

(** X2: the candidate queue never grows past its capacity of 10: a call of
    [should_switch_mode_debounced] on a queue of at most 10 entries leaves at
    most 10, and so do the two signal handlers that call it. *)
Theorem X2_mode_candidates_bounded (env : Env) (now_ms : Q) (msg : dict) (s : Sys)
    (Hlen : length (mode_candidates s) <= MAXLEN) :
  (forall account current_mode qty,
     length (snd (should_switch_mode_debounced (live_account env) now_ms account
                    current_mode qty (mode_candidates s))) <= MAXLEN)
  /\ length (mode_candidates (fst (_on_order_signal env now_ms msg s))) <= MAXLEN
  /\ length (mode_candidates (fst (_on_position_signal env now_ms msg s))) <= MAXLEN.
Proof.
  split; [intros; by apply debounced_length|]. split.
  - unfold _on_order_signal.
    pose proof (detect_and_switch_length env now_ms VNone "router.order.blocked"
                  "router.order.mode_detect_failed" msg s Hlen) as H.
    destruct (detect_and_switch _ _ _ _ _ _ _) as [[s1 evs] flow]. by destruct flow.
  - unfold _on_position_signal.
    destruct (negb (py_eq _ _)).
    + pose proof (detect_and_switch_length env now_ms
                    (get_or msg "qty" (get_or msg "PositionQuantity" (VNum 0)))
                    "router.position.blocked" "router.position.mode_detect_failed"
                    msg s Hlen) as H.
      destruct (detect_and_switch _ _ _ _ _ _ _) as [[s1 evs] flow]. by destruct flow.
    + done.
Qed.

(** X2 on a full queue of ten candidates and an order that adds one. *)
Lemma X2_mode_candidates_bounded_witness :
  let s := mkSys Sample.fresh_router
             (replicate 10 (mkCandidate 0 LIVE (VStr "120005"))) in
  length (mode_candidates (fst (_on_order_signal Sample.env 100 (Sample.order_for "Sim1") s)))
  <= MAXLEN.
Proof.
  intros s.
  assert (Hlen : length (mode_candidates s) <= MAXLEN) by (vm_compute; lia).
  pose proof (X2_mode_candidates_bounded Sample.env 100 (Sample.order_for "Sim1") s Hlen)
    as (_ & H & _).
  exact H.
Defined.

Lemma noop_call (live_account : string) (c : Call) (q : list Candidate) :
  is_noop live_account c = true ->
  should_switch_mode_debounced live_account (call_now c) (call_account c)
    (call_current_mode c) (call_qty c) q = (false, q).
Proof.
  unfold is_noop, should_switch_mode_debounced.
  destruct (negb (should_switch_mode _ _ _)); [done|]. cbn [orb].
  by intros ->.
Qed.

(** X3: calls for an account that is not eligible, or whose mode is the
    current mode, are invisible to the debounce: they answer False, and
    taking them out of any sequence of calls leaves every other verdict and
    the final queue as they were.  A message of the current mode arriving
    between two agreeing candidates therefore does not reset them. *)
Theorem X3_noop_calls_invisible (live_account : string) (calls : list Call)
    (q : list Candidate) :
  let r := run_calls live_account calls q in
  let kept (c : Call) := negb (is_noop live_account c) in
  run_calls live_account (List.filter kept calls) q
  = (map snd (List.filter (fun cb => kept (fst cb)) (combine calls (fst r))), snd r)
  /\ Forall (fun cb => is_noop live_account (fst cb) = true -> snd cb = false)
       (combine calls (fst r)).
Proof.
  revert q. induction calls as [|c calls IH]; intros q; cbn zeta in *; [done|].
  cbn [run_calls List.filter].
  destruct (is_noop live_account c) eqn:Hn; cbn [negb].
  - rewrite (noop_call _ _ _ Hn). specialize (IH q).
    destruct (run_calls live_account calls q) as [bs q2]. cbn [fst snd] in *.
    cbn [combine List.filter fst]. rewrite Hn. cbn [negb]. destruct IH as [IH1 IH2].
    split; [exact IH1|]. by constructor.
  - cbn [run_calls].
    destruct (should_switch_mode_debounced live_account (call_now c) (call_account c)
                (call_current_mode c) (call_qty c) q) as [b q1].
    specialize (IH q1).
    destruct (run_calls live_account calls q1) as [bs q2]. cbn [fst snd] in *.
    destruct IH as [IH1 IH2]. rewrite IH1.
    cbn [combine List.filter fst]. rewrite Hn. cbn [negb map snd].
    split; [done|]. constructor; [|done]. cbn [fst]. congruence.
Qed.

(** A current-mode call between two agreeing ones does not reset them. *)
Example run_calls_interleaved :
  run_calls "120005"
    [mkCall 0 (VStr "Sim1") (Some LIVE) VNone;
     mkCall 100 (VStr "120005") (Some LIVE) VNone;
     mkCall 200 (VStr "Sim1") (Some LIVE) VNone] []
  = ([false; false; true], []).
Proof. vm_compute. reflexivity. Qed.

End AutoDetectProps.

(** ** The [route] entry *)

Section RouteProps.
Import TradeMode Router.

(** [route] by the type of the message. *)
Lemma route_by_type (env : Env) (msg : AppMessage) (r : MessageRouter) :
  route env msg r
  = if negb (truthy (mtype msg)) then (r, [])
    else if py_eq (mtype msg) (VStr "TRADE_ACCOUNT")
    then guard_handler (_on_trade_account (payload msg) r)
    else if py_eq (mtype msg) (VStr "BALANCE_UPDATE")
    then guard_handler (_on_balance_update env (payload msg) r)
    else if py_eq (mtype msg) (VStr "POSITION_UPDATE")
    then guard_handler (_on_position_update (payload msg) r)
    else if py_eq (mtype msg) (VStr "ORDER_UPDATE")
    then guard_handler (_on_order_update env (payload msg) r)
    else (r, []).
Proof.
  unfold route. destruct (negb (truthy (mtype msg))); [done|].
  destruct (mtype msg) as [| |s]; [done|done|].
  repeat (destruct s as [|[b0 b1 b2 b3 b4 b5 b6 b7] s]; [reflexivity|];
          destruct b0; try reflexivity; destruct b1; try reflexivity;
          destruct b2; try reflexivity; destruct b3; try reflexivity;
          destruct b4; try reflexivity; destruct b5; try reflexivity;
          destruct b6; try reflexivity; destruct b7; try reflexivity).
Qed.

Lemma route_frame_refl (r : MessageRouter) : route_frame r r.
Proof. by repeat split. Qed.

Lemma route_frame_trans (r1 r2 r3 : MessageRouter) :
  route_frame r1 r2 -> route_frame r2 r3 -> route_frame r1 r3.
Proof.
  intros (A1 & A2 & A3 & A4 & A5 & A6 & A7) (B1 & B2 & B3 & B4 & B5 & B6 & B7).
  repeat split; try congruence.
  - intros H. rewrite (A6 H) in *. by apply B6.
  - intros H. by apply B7, A7.
Qed.

Lemma with_state_frame (r : MessageRouter) (st : option StateManager.t) :
  (state r = None -> st = None) -> (state r <> None -> st <> None) ->
  route_frame r (with_state st r).
Proof.
  intros H1 H2. repeat split; try done.
  intros H. rewrite (H1 H). by destruct r; simpl in *; subst.
Qed.

Lemma update_state_frame (f : StateManager.t -> StateManager.t) (r : MessageRouter) :
  route_frame r (update_state f r).
Proof.
  apply with_state_frame; by destruct (state r).
Qed.

Lemma guard_handler_fst (h : MessageRouter * list Event * Ending) :
  fst (guard_handler h) = fst (fst h).
Proof. by destruct h as [[? ?] []]. Qed.

Lemma on_trade_account_frame (payload : dict) (r : MessageRouter) :
  route_frame r (fst (fst (_on_trade_account payload r))).
Proof.
  unfold _on_trade_account. destruct (state r) as [st|] eqn:Hst;
    [|apply route_frame_refl].
  destruct (truthy _); [destruct (get payload "account")|]; cbn [fst];
    apply with_state_frame; congruence.
Qed.

Lemma on_balance_update_frame (env : Env) (payload : dict) (r : MessageRouter) :
  route_frame r (fst (fst (_on_balance_update env payload r))).
Proof.
  unfold _on_balance_update. destruct (state r) as [st|] eqn:Hst;
    [|apply route_frame_refl].
  destruct (truthy _); [destruct (to_float _ _)|]; cbn [fst];
    apply with_state_frame; congruence.
Qed.

Lemma on_position_update_frame (payload : dict) (r : MessageRouter) :
  route_frame r (fst (fst (_on_position_update payload r))).
Proof.
  unfold _on_position_update.
  destruct (py_eq _ _); [apply update_state_frame|].
  destruct (_ || _); [apply route_frame_refl|].
  destruct (is_phantom _ _ _); [apply route_frame_refl|apply update_state_frame].
Qed.

Lemma on_order_update_frame (env : Env) (payload : dict) (r : MessageRouter) :
  route_frame r (fst (fst (_on_order_update env payload r))).
Proof.
  unfold _on_order_update.
  assert (H : forall r1, route_frame r r1 ->
            route_frame r (update_state (StateManager.record_order payload) r1)).
  { intros r1 Hf. eapply route_frame_trans; [exact Hf|]. apply update_state_frame. }
  destruct (truthy _).
  - destruct (state r) as [st|] eqn:Hst.
    + destruct (negb _); cbn [fst].
      * apply H. apply with_state_frame; congruence.
      * apply H, route_frame_refl.
    + cbn [fst]. apply H, route_frame_refl.
  - cbn [fst]. apply H, route_frame_refl.
Qed.

(** X4: whatever the message, [route] leaves the panels and the router's own
    current mode and account as they were; it changes at most the Session
    State, keeps one if there was one, and changes nothing when there is
    none.  A message whose type is missing, empty, not a string or none of
    TRADE_ACCOUNT, BALANCE_UPDATE, POSITION_UPDATE, ORDER_UPDATE changes
    nothing and calls nothing. *)
Theorem X4_route_frame (env : Env) (msg : AppMessage) (r : MessageRouter) :
  route_frame r (fst (route env msg r))
  /\ (py_eq (mtype msg) (VStr "TRADE_ACCOUNT") = false ->
      py_eq (mtype msg) (VStr "BALANCE_UPDATE") = false ->
      py_eq (mtype msg) (VStr "POSITION_UPDATE") = false ->
      py_eq (mtype msg) (VStr "ORDER_UPDATE") = false ->
      route env msg r = (r, [])).
Proof.
  rewrite route_by_type. split.
  - destruct (negb _); [apply route_frame_refl|].
    repeat (destruct (py_eq (mtype msg) _);
            [rewrite guard_handler_fst;
             first [ apply on_trade_account_frame | apply on_balance_update_frame
                   | apply on_position_update_frame | apply on_order_update_frame ]|]).
    apply route_frame_refl.
  - intros -> -> -> ->. by destruct (negb _).
Qed.

Lemma route_order_update_step (env : Env) (payload : dict) (r : MessageRouter)
    (st : StateManager.t) :
  state r = Some st ->
  exists st',
    state (fst (route env (order_update payload) r)) = Some st'
    /\ StateManager.current_mode st'
       = (if truthy (msg_account payload) then msg_mode env payload
          else StateManager.current_mode st)
    /\ StateManager.orders st' = StateManager.orders st ++ [payload]
    /\ _current_mode (fst (route env (order_update payload) r)) = _current_mode r.
Proof.
  intros Hst. rewrite route_by_type. cbn [order_update mtype Router.payload]. cbn -[_on_order_update].
  unfold _on_order_update. fold (msg_account payload).
  destruct (truthy (msg_account payload)).
  - fold (msg_mode env payload). rewrite Hst.
    destruct (mode_eqb (msg_mode env payload) (StateManager.current_mode st)) eqn:E;
      cbn [negb].
    + apply mode_eqb_eq in E. cbn. rewrite Hst. cbn. eexists. by repeat split.
    + cbn. eexists. by repeat split.
  - cbn. rewrite Hst. cbn. eexists. by repeat split.
Qed.

(** X5: after any run of ORDER_UPDATE messages through [route], the current
    mode of the Session State is the mode of the last order that carried an
    account (the mode before the run if none did), every order has been
    recorded in arrival order, and the router's own current mode has not
    moved. *)
Theorem X5_route_orders_last_mode (env : Env) (payloads : list dict)
    (r : MessageRouter) (st : StateManager.t)
    (Hst : state r = Some st) :
  let r' := route_all env (map order_update payloads) r in
  (StateManager.current_mode <$> state r')
  = Some (last_order_mode env (StateManager.current_mode st) payloads)
  /\ (StateManager.orders <$> state r') = Some (StateManager.orders st ++ payloads)
  /\ _current_mode r' = _current_mode r.
Proof.
  cbn zeta. revert r st Hst. induction payloads as [|p ps IH]; intros r st Hst.
  - cbn. rewrite Hst, app_nil_r. done.
  - destruct (route_order_update_step env p r st Hst) as (st' & Hst' & Hm & Ho & Hc).
    unfold route_all, last_order_mode in *. cbn [map foldl].
    destruct (IH _ st' Hst') as (IH1 & IH2 & IH3).
    rewrite IH1, IH2, IH3, Hm, Ho, Hc, <- app_assoc. done.
Qed.

(** X5 on three orders, the last of them without account. *)
Lemma X5_route_orders_last_mode_witness :
  let r := Sample.router_with (Sample.session DEBUG ∅) DEBUG (VStr "") in
  let r' := route_all Sample.env
              (map order_update [Sample.order_for "120005"; Sample.order_for "Sim1"; ∅]) r in
  (StateManager.current_mode <$> state r') = Some SIM
  /\ (length <$> (StateManager.orders <$> state r')) = Some 3.
Proof.
  intros r.
  pose proof (X5_route_orders_last_mode Sample.env
                [Sample.order_for "120005"; Sample.order_for "Sim1"; ∅] r
                (Sample.session DEBUG ∅) eq_refl) as (H1 & H2 & _).
  cbn zeta. rewrite H1, H2. split; reflexivity.
Defined.

Lemma route_position_update (env : Env) (payload : dict) (r : MessageRouter) :
  route env (position_update payload) r = guard_handler (_on_position_update payload r).
Proof. rewrite route_by_type. reflexivity. Qed.

(** X6: on [route], a position reaches the live panel's
    [on_position_update] and the trade manager exactly when it passes the
    three filters (not flat, a price that is present and not zero, not in
    the phantom table); a flat one only clears the symbol's entry in the
    Session State, and a stale or phantom one leaves the router untouched
    and is only logged. *)
Theorem X6_route_position_filters (env : Env) (payload : dict) (r : MessageRouter) :
  let res := route env (position_update payload) r in
  let qty := get_or payload "qty" (VNum 0) in
  (on_position_update payload ∈ snd res
   <-> passes_filters payload = true
       /\ has_hook (panel_live r) has_on_position_update = true)
  /\ (trade_manager_on_position_update payload ∈ snd res
      <-> passes_filters payload = true)
  /\ (passes_filters payload = false -> forallb is_log (snd res) = true)
  /\ (passes_filters payload = false -> py_eq qty (VNum 0) = false -> fst res = r)
  /\ (py_eq qty (VNum 0) = true ->
      res = (update_state
               (StateManager.update_position (get payload "symbol") (VNum 0) VNone) r, [])).
Proof.
  cbn zeta. rewrite route_position_update. unfold _on_position_update, passes_filters.
  destruct (py_eq (get_or payload "qty" (VNum 0)) (VNum 0));
    cbn [negb andb guard_handler fst snd].
  { rewrite !elem_of_nil. intuition congruence. }
  destruct (is_none (get payload "avg_entry") || py_eq (get payload "avg_entry") (VNum 0));
    cbn [negb andb guard_handler fst snd].
  { rewrite !list_elem_of_singleton. intuition congruence. }
  destruct (is_phantom _ _ _); cbn [negb andb guard_handler fst snd].
  { rewrite !list_elem_of_singleton. intuition congruence. }
  destruct (has_hook (panel_live r) has_on_position_update); cbn [app];
    rewrite ?elem_of_cons, ?elem_of_nil; intuition congruence.
Qed.

End RouteProps.

(** ** The trade manager *)

Section TradeManagerProps.
Import Router TradeManager.

Lemma store_positive (k : pyval) (v : PosInfo) (d : list (pyval * PosInfo)) :
  gt0 (qty v) = Some true ->
  Forall (fun kv => gt0 (qty (snd kv)) = Some true) d ->
  Forall (fun kv => gt0 (qty (snd kv)) = Some true) (store k v d).
Proof.
  intros Hv. induction 1 as [|[k' v'] d Hk Hd IH]; cbn [store].
  - by repeat constructor.
  - destruct (py_eq k' k); by constructor.
Qed.

Lemma pop_positive (k : pyval) (d : list (pyval * PosInfo)) :
  Forall (fun kv => gt0 (qty (snd kv)) = Some true) d ->
  Forall (fun kv => gt0 (qty (snd kv)) = Some true) (pop k d).
Proof.
  induction 1 as [|[k' v'] d Hk Hd IH]; cbn [pop]; [done|].
  destruct (py_eq k' k); [done|by constructor].
Qed.

Lemma lookup_positive (k : pyval) (d : list (pyval * PosInfo)) (v : PosInfo) :
  Forall (fun kv => gt0 (qty (snd kv)) = Some true) d ->
  lookup k d = Some v -> gt0 (qty v) = Some true.
Proof.
  induction 1 as [|[k' v'] d Hk _ IH]; cbn [lookup]; [done|].
  destruct (py_eq k' k); [by intros [= <-]|exact IH].
Qed.

Lemma gt0_not_zero (v : pyval) : gt0 v = Some true -> py_eq v (VNum 0) = false.
Proof.
  destruct v as [|q|s]; cbn; [done| |done]. intros [= H]. apply Qltb_lt in H.
  destruct (Qeq_bool q 0) eqn:E; [|done]. apply Qeq_bool_iff in E. rewrite E in H.
  by apply Qlt_irrefl in H.
Qed.

(** X7: [on_position_update] keeps every tracked quantity above zero.  On
    such a table it raises exactly when the payload names a symbol and its
    quantity is not a number, and then changes nothing; a negative quantity
    changes nothing either, so short positions are never tracked. *)
Theorem X7_trade_manager_quantities (now : Q) (payload : dict) (tm : t)
    (Hpos : all_positive tm) :
  let res := on_position_update now payload tm in
  let new_qty := get_or payload "qty" (VNum 0) in
  all_positive (fst res)
  /\ (snd res = Raises
      <-> truthy (get payload "symbol") = true /\ gt0 new_qty = None)
  /\ (snd res = Raises -> fst res = tm)
  /\ (gt0 new_qty = Some false -> py_eq new_qty (VNum 0) = false -> fst res = tm).
Proof.
  cbn zeta. unfold on_position_update, all_positive in *.
  destruct (truthy (get payload "symbol")); cbn [negb].
  2:{ repeat split; try done. by intros [? _]. }
  destruct (gt0 (get_or payload "qty" (VNum 0))) as [[|]|] eqn:Hq.
  - destruct (lookup _ _) as [cur|] eqn:Hl.
    + pose proof (lookup_positive _ _ _ Hpos Hl) as Hc.
      rewrite (gt0_not_zero _ Hc).
      destruct (negb _); cbn [fst snd _open_positions];
        repeat split; try done; try (by intros [_ ?]).
      by apply store_positive.
    + cbn [fst snd _open_positions]. repeat split; try done; try (by intros [_ ?]).
      by apply store_positive.
  - destruct (py_eq _ _) eqn:Hz.
    + destruct (lookup _ _) as [cur|] eqn:Hl.
      * rewrite (lookup_positive _ _ _ Hpos Hl). cbn [fst snd _open_positions].
        repeat split; try done; try (by intros [_ ?]). by apply pop_positive.
      * repeat split; try done. by intros [_ ?].
    + repeat split; try done. by intros [_ ?].
  - repeat split; try done.
Qed.

(** X7 on a table with one long position and the report of a short one. *)
Lemma X7_trade_manager_quantities_witness :
  let tm := fst (on_position_update 0 (Sample.position_for "Sim1" 2) init) in
  fst (on_position_update 1 (Sample.position_for "Sim1" (-3)) tm) = tm.
Proof.
  intros tm.
  assert (Hpos : all_positive tm).
  { repeat constructor. }
  pose proof (X7_trade_manager_quantities 1 (Sample.position_for "Sim1" (-3)) tm Hpos)
    as (_ & _ & _ & H).
  apply H; reflexivity.
Defined.

Lemma store_fresh (k : pyval) (v : PosInfo) (d : list (pyval * PosInfo)) :
  lookup k d = None -> store k v d = d ++ [(k, v)].
Proof.
  induction d as [|[k' v'] d IH]; cbn [lookup store app]; [done|].
  destruct (py_eq k' k); [done|]. intros H. by rewrite IH.
Qed.

Lemma lookup_fresh (k : pyval) (v : PosInfo) (d : list (pyval * PosInfo)) :
  lookup k d = None -> lookup k (d ++ [(k, v)]) = Some v.
Proof.
  induction d as [|[k' v'] d IH]; cbn [lookup app].
  - by rewrite py_eq_refl.
  - destruct (py_eq k' k); [done|exact IH].
Qed.

Lemma pop_fresh (k : pyval) (v : PosInfo) (d : list (pyval * PosInfo)) :
  lookup k d = None -> pop k (d ++ [(k, v)]) = d.
Proof.
  induction d as [|[k' v'] d IH]; cbn [lookup pop app].
  - by rewrite py_eq_refl.
  - destruct (py_eq k' k); [done|]. intros H. by rewrite IH.
Qed.

Lemma zero_not_gt0 (v : pyval) : py_eq v (VNum 0) = true -> gt0 v = Some false.
Proof.
  destruct v as [|q|s]; cbn; [done| |done]. intros H. apply Qeq_bool_iff in H.
  f_equal. apply Qltb_ge. rewrite H. apply Qle_refl.
Qed.

(** X8: opening a position for a symbol the trade manager does not track
    and then reporting that symbol flat is a round trip.  After the first
    call the symbol is tracked with the reported quantity, price and trade
    account, the clock's time and the manager's account; after the second
    the manager is exactly what it was, and neither call raises. *)
Theorem X8_open_then_flat (now1 now2 : Q) (opened flat : dict) (tm : t)
    (Hsym : truthy (get opened "symbol") = true)
    (Hsame : get flat "symbol" = get opened "symbol")
    (Hqty : gt0 (get_or opened "qty" (VNum 0)) = Some true)
    (Hflat : py_eq (get_or flat "qty" (VNum 0)) (VNum 0) = true)
    (Hnew : lookup (get opened "symbol") (_open_positions tm) = None) :
  let tm1 := fst (on_position_update now1 opened tm) in
  snd (on_position_update now1 opened tm) = Returns
  /\ lookup (get opened "symbol") (_open_positions tm1)
     = Some (mkPosInfo (get_or opened "qty" (VNum 0)) (get opened "avg_entry") now1
               (get opened "TradeAccount") (_account tm))
  /\ on_position_update now2 flat tm1 = (tm, Returns).
Proof.
  cbn zeta.
  assert (H1 : on_position_update now1 opened tm
               = (mk (_open_positions tm
                      ++ [(get opened "symbol",
                           mkPosInfo (get_or opened "qty" (VNum 0)) (get opened "avg_entry")
                             now1 (get opened "TradeAccount") (_account tm))])
                     (_account tm), Returns)).
  { unfold on_position_update. rewrite Hsym, Hqty, Hnew. cbn [negb].
    by rewrite (store_fresh _ _ _ Hnew). }
  rewrite H1. cbn [fst snd _open_positions].
  split; [done|]. split; [by apply lookup_fresh|].
  unfold on_position_update. rewrite Hsame, Hsym, (zero_not_gt0 _ Hflat), Hflat.
  cbn [negb _open_positions _account]. rewrite (lookup_fresh _ _ _ Hnew).
  cbn [qty]. rewrite Hqty, (pop_fresh _ _ _ Hnew). by destruct tm.
Qed.

(** X8 on a manager that tracks another symbol. *)
Lemma X8_open_then_flat_witness :
  let other := <["symbol" := VStr "ESZ5"]> (Sample.position_for "Sim1" 1) in
  let tm := fst (on_position_update 0 other init) in
  let tm1 := fst (on_position_update 5 (Sample.position_for "Sim1" 2) tm) in
  on_position_update 9 (Sample.position_for "Sim1" 0) tm1 = (tm, Returns).
Proof.
  intros other tm.
  pose proof (X8_open_then_flat 5 9 (Sample.position_for "Sim1" 2)
                (Sample.position_for "Sim1" 0) tm
                eq_refl eq_refl eq_refl eq_refl eq_refl) as (_ & _ & H).
  exact H.
Defined.

Local Ltac membership :=
  rewrite ?elem_of_app, ?elem_of_cons, ?elem_of_nil;
  intuition (try discriminate; simplify_eq; try done).

Lemma store_tracked (k k' : pyval) (v : PosInfo) (d : list (pyval * PosInfo)) :
  is_Some (lookup k d) -> is_Some (lookup k (store k' v d)).
Proof.
  induction d as [|[k0 v0] d IH]; cbn [lookup store].
  - by intros [? ?].
  - destruct (py_eq k0 k') eqn:E; cbn [lookup]; destruct (py_eq k0 k); eauto.
Qed.

Lemma on_position_update_tracked (now : Q) (payload : dict) (tm : t) (k : pyval) :
  py_eq (get_or payload "qty" (VNum 0)) (VNum 0) = false ->
  tracked k tm -> tracked k (fst (on_position_update now payload tm)).
Proof.
  unfold tracked, on_position_update. intros Hq Hk. rewrite Hq.
  repeat case_match; cbn [fst _open_positions]; try done; by apply store_tracked.
Qed.

Lemma replay_tracked (now : Q) (evs : list Event) (tm : t) (k : pyval) :
  (forall p, trade_manager_on_position_update p ∈ evs ->
             py_eq (get_or p "qty" (VNum 0)) (VNum 0) = false) ->
  tracked k tm -> tracked k (replay now evs tm).
Proof.
  unfold replay. revert tm. induction evs as [|e evs IH]; intros tm Hevs Hk; [done|].
  cbn [foldl]. apply IH.
  - intros p Hp. apply Hevs. by apply list_elem_of_further.
  - destruct e; cbn [apply_event]; try done.
    apply on_position_update_tracked; [|done]. apply Hevs, list_elem_of_here.
Qed.

Lemma route_forwards_open_positions (env : Env) (msg : AppMessage) (r : MessageRouter)
    (p : dict) :
  trade_manager_on_position_update p ∈ snd (route env msg r) ->
  py_eq (get_or p "qty" (VNum 0)) (VNum 0) = false.
Proof.
  rewrite route_by_type.
  destruct (negb _); [by intros ?%elem_of_nil|].
  destruct (py_eq _ _).
  { unfold _on_trade_account. repeat case_match; cbn; membership. }
  destruct (py_eq _ _).
  { unfold _on_balance_update. repeat case_match; cbn; membership. }
  destruct (py_eq _ _).
  { unfold _on_position_update.
    destruct (py_eq (get_or (payload msg) "qty" (VNum 0)) (VNum 0)) eqn:Hq;
      repeat case_match; cbn; membership. }
  destruct (py_eq _ _).
  { unfold _on_order_update. repeat case_match; simplify_eq; cbn; membership. }
  by intros ?%elem_of_nil.
Qed.

(** X9: whatever messages [route] is given, a symbol its trade manager
    tracks stays tracked.  The router forwards a position to the trade
    manager only when its quantity is not zero, so the manager's closing
    branch is never reached from [route]. *)
Theorem X9_routed_positions_stay_tracked (env : Env) (now : Q)
    (msgs : list AppMessage) (r : MessageRouter) (tm : t) (k : pyval)
    (Hk : tracked k tm) :
  tracked k (snd (route_with_trade_manager env now msgs (r, tm))).
Proof.
  unfold route_with_trade_manager. revert r tm Hk.
  induction msgs as [|msg msgs IH]; intros r tm Hk; [done|].
  cbn [foldl fst snd].
  destruct (route env msg r) as [r' evs] eqn:E. apply IH.
  apply replay_tracked; [|done].
  intros p Hp. apply (route_forwards_open_positions env msg r). by rewrite E.
Qed.

(** X9 on a position that is opened and then reported flat through [route]. *)
Lemma X9_routed_positions_stay_tracked_witness :
  let r := Sample.fresh_router in
  let opened := position_update (Sample.position_for "Sim1" 2) in
  let flat := position_update (Sample.position_for "Sim1" 0) in
  let tm := snd (route_with_trade_manager Sample.env 0 [opened] (r, init)) in
  tracked (get (Sample.position_for "Sim1" 2) "symbol")
    (snd (route_with_trade_manager Sample.env 1 [flat; flat] (r, tm))).
Proof.
  intros r opened flat tm.
  apply (X9_routed_positions_stay_tracked Sample.env 1 [flat; flat] r tm).
  vm_compute. eauto.
Defined.

End TradeManagerProps.

(** ** The signal handlers and the mode broadcast *)

Section SignalProps.
Import TradeMode Router.







Lemma mode_calls_deliver (env : Env) (t : MarshalTarget) (tag : string) (e : Event) :
  is_set_trading_mode e = false ->
  mode_calls (deliver env t tag [e]) = []
  /\ forall e', e' ∈ deliver env t tag [e] -> e' = log_warning tag \/ e' = e.
Proof.
  intros He. unfold deliver, mode_calls. destruct (marshal_raises env t); cbn; rewrite He.
  - split; [done|]. intros e'. rewrite !elem_of_cons, elem_of_nil. tauto.
  - split; [done|]. intros e'. rewrite !elem_of_cons, elem_of_nil. tauto.
Qed.

Lemma mode_calls_summary (msg : dict) :
  mode_calls (order_fill_summary msg) = []
  /\ forall e, e ∈ order_fill_summary msg ->
               e = log_warning "router.order.processing_failed".
Proof.
  unfold order_fill_summary. destruct (_ || _); [|split; [done|by intros ? ?%elem_of_nil]].
  destruct (formats_as_float _); [split; [done|by intros ? ?%elem_of_nil]|].
  split; [done|]. by intros e ->%list_elem_of_singleton.
Qed.



(** X10 at work: a second LIVE order commits the switch, the balance panel
    is told, marshalling to the live panel raises: the router stays in
    DEBUG with an empty queue, and the order is still delivered. *)
Example partial_broadcast_leaves_router_behind :
  let s := mkSys Sample.fresh_router [mkCandidate 0 LIVE (VStr "120005")] in
  let res := _on_order_signal marshal_fails_for_live 100 (Sample.order_for "120005") s in
  router (fst res) = router s
  /\ mode_candidates (fst res) = []
  /\ mode_calls (snd res) = [set_trading_mode PanelBalance LIVE (VStr "120005")]
  /\ on_order_update (Sample.order_for "120005") ∈ snd res.
Proof.
  cbn zeta. split_and!; [by vm_compute..|].
  match goal with
  | |- ?e ∈ ?l => let l' := eval vm_compute in l in change (e ∈ l')
  end.
  repeat first [apply list_elem_of_here | apply list_elem_of_further].
Qed.

End SignalProps.

(** ** The coalesced refresh *)

Section UiRefreshProps.
Import UiRefresh.

Lemma timers_app (a b : list Event) : timers (a ++ b) = timers a + timers b.
Proof. unfold timers. by rewrite List.filter_app, length_app. Qed.

Lemma timers_run_updates (env : Env) (panels : list Router.PanelId) :
  timers (run_updates env panels) = 0.
Proof.
  induction panels as [|p ps IH]; [done|]. cbn [run_updates].
  destruct (has_update env p); [|done]. by destruct (update_raises env p).
Qed.

Lemma run_coalesced (env : Env) (actions : list Action) (st0 st : State)
    (evs : list Event) :
  run env actions st0 = Some (st, evs) ->
  armed st0 = (if _ui_refresh_pending st0 then 1 else 0) ->
  armed st = (if _ui_refresh_pending st then 1 else 0)
  /\ armed st0 + timers evs = fires actions + armed st
  /\ timers evs <= requests actions
  /\ (qt_available env = false -> _ui_refresh_pending st0 = false ->
      timers evs = 0 /\ _ui_refresh_pending st = false /\ fires actions = 0).
Proof.
  revert st0 st evs. induction actions as [|a actions IH]; intros st0 st evs Hrun Hinv.
  - cbn in Hrun. injection Hrun as <- <-. cbn. split_and!; [done|lia|lia|done].
  - cbn [run] in Hrun. destruct (step env a st0) as [[st1 ev1]|] eqn:Hstep; [|done].
    destruct (run env actions st1) as [[st2 ev2]|] eqn:Hrest; [|done].
    injection Hrun as <- <-.
    assert (H1 : armed st1 = (if _ui_refresh_pending st1 then 1 else 0)
                 /\ armed st0 + timers ev1
                    = (match a with TimerFires => 1 | Schedule => 0 end) + armed st1
                 /\ timers ev1 <= (match a with Schedule => 1 | TimerFires => 0 end)
                 /\ (qt_available env = false -> _ui_refresh_pending st0 = false ->
                     timers ev1 = 0 /\ _ui_refresh_pending st1 = false /\ a = Schedule)).
    { destruct a; cbn [step] in Hstep.
      - unfold _schedule_ui_refresh, _flush_ui_updates in Hstep.
        set (u := run_updates env _) in Hstep.
        assert (Hu : timers u = 0) by apply timers_run_updates. clearbody u.
        destruct (_ui_refresh_pending st0) eqn:Hp.
        + injection Hstep as <- <-. cbn. split_and!; [lia|lia|lia|done].
        + destruct (qt_available env) eqn:Hqt; injection Hstep as <- <-;
            cbn [armed _ui_refresh_pending]; rewrite ?Hu; cbn;
            split_and!; try done; lia.
      - destruct (armed st0) as [|n] eqn:Ha; [done|].
        unfold _flush_ui_updates in Hstep.
        set (u := run_updates env _) in Hstep.
        assert (Hu : timers u = 0) by apply timers_run_updates. clearbody u.
        injection Hstep as <- <-.
        cbn [armed _ui_refresh_pending]. rewrite Hu.
        destruct (_ui_refresh_pending st0); [|done].
        injection Hinv as ->. split_and!; [done|lia|lia|done]. }
    destruct H1 as (Hinv1 & Hcount1 & Hle1 & Hqt1).
    destruct (IH _ _ _ Hrest Hinv1) as (Hinv2 & Hcount2 & Hle2 & Hqt2).
    rewrite timers_app. unfold fires, requests in *. cbn [List.filter].
    split_and!; [done| | |].
    + destruct a; cbn [length]; lia.
    + destruct a; cbn [length]; lia.
    + intros Hqt Hp. destruct (Hqt1 Hqt Hp) as (Ht1 & Hp1 & ->).
      destruct (Hqt2 Hqt Hp1) as (Ht2 & Hp2 & Hf2). cbn [length]. split_and!; [lia|done|done].
Qed.

(** X11: refreshes are coalesced.  Over any run of refresh requests and
    timer firings on a fresh router, a timer is outstanding exactly while
    the pending flag is set, and never more than one; every timer armed has
    fired or is outstanding; and no more timers are armed than refreshes
    were asked for.  Without Qt no timer is armed at all and the flag is
    down after every request. *)
Theorem X11_ui_refresh_coalesced (env : Env) (actions : list Action) (st : State)
    (evs : list Event)
    (Hrun : run env actions (mkState false 0) = Some (st, evs)) :
  armed st = (if _ui_refresh_pending st then 1 else 0)
  /\ timers evs = fires actions + armed st
  /\ timers evs <= requests actions
  /\ (qt_available env = false -> timers evs = 0 /\ _ui_refresh_pending st = false).
Proof.
  destruct (run_coalesced env actions _ _ _ Hrun eq_refl) as (H1 & H2 & H3 & H4).
  cbn [armed] in H2. split_and!; [done|lia|done|].
  intros Hqt. destruct (H4 Hqt eq_refl) as (? & ? & _). done.
Qed.

(** X11 on three requests, a firing and one more request, with Qt. *)
Lemma X11_ui_refresh_coalesced_witness :
  exists st evs,
    run (mkEnv true (fun _ => true) (fun _ => false))
        [Schedule; Schedule; Schedule; TimerFires; Schedule] (mkState false 0)
    = Some (st, evs)
    /\ timers evs = 2 /\ armed st = 1.
Proof.
  eexists _, _. split; [reflexivity|].
  pose proof (X11_ui_refresh_coalesced (mkEnv true (fun _ => true) (fun _ => false))
                [Schedule; Schedule; Schedule; TimerFires; Schedule] _ _ eq_refl)
    as (H1 & H2 & _).
  split; [exact H2|exact H1].
Defined.

End UiRefreshProps.

(** ** Type names and the dispatch to the sinks *)

Section DispatchProps.
Import DTCClient Dispatch.

Lemma pretty_N_go_not_capital (x : N) (s : string) :
  starts_with_capital s = false -> starts_with_capital (pretty_N_go x s) = false.
Proof.
  revert s. induction (N.lt_wf_0 x) as [x _ IH]; intros s Hs.
  assert (x = 0 \/ 0 < x)%N as [->|Hx] by lia.
  - by rewrite pretty_N_go_0.
  - rewrite pretty_N_go_step by done. apply IH.
    { by apply N.div_lt. }
    unfold pretty_N_char. by repeat case_match.
Qed.

Lemma pretty_Z_not_capital (n : Z) : starts_with_capital (pretty n) = false.
Proof.
  destruct n as [|x|x]; [done| |done].
  unfold pretty, pretty_Z, pretty, pretty_positive, pretty, pretty_N.
  destruct (decide _); [done|]. by apply pretty_N_go_not_capital.
Qed.

Lemma name_of_elem (n : Z) (v : string) (table : list (Z * string)) :
  name_of n table = Some v -> (n, v) ∈ table.
Proof.
  induction table as [|[k w] table IH]; cbn [name_of]; [done|].
  destruct (Z.eqb_spec k n) as [->|_].
  - intros [= ->]. apply list_elem_of_here.
  - intros H. by apply list_elem_of_further, IH.
Qed.

Lemma NoDup_snd_inj (table : list (Z * string)) (a b : Z) (v : string) :
  NoDup (map snd table) -> (a, v) ∈ table -> (b, v) ∈ table -> a = b.
Proof.
  induction table as [|[k w] table IH]; cbn [map snd]; [by intros _ ?%elem_of_nil|].
  intros [Hw Hnd]%NoDup_cons [Ha|Ha]%elem_of_cons [Hb|Hb]%elem_of_cons; simplify_eq.
  - done.
  - exfalso. apply Hw. apply (list_elem_of_fmap_2 snd _ _ Hb).
  - exfalso. apply Hw. apply (list_elem_of_fmap_2 snd _ _ Ha).
  - by apply IH.
Qed.

Lemma type_names_capital : Forall (fun kv => starts_with_capital (snd kv) = true) TYPE_NAMES.
Proof. unfold TYPE_NAMES. repeat constructor. Qed.

Lemma name_of_capital (n : Z) (v : string) :
  name_of n TYPE_NAMES = Some v -> starts_with_capital v = true.
Proof.
  intros H%name_of_elem. pose proof type_names_capital as Hall.
  rewrite Forall_forall in Hall. apply (Hall _ H).
Qed.

(** X13: the numeric types keep distinct names.  No number and no name is
    listed twice in the table of [_type_to_str], a number that is not
    listed is named by its own numeral, and two different numbers never
    get the same name: the dispatch, which goes by name, tells apart
    whatever the numbers tell apart. *)
Theorem X13_type_names_distinct :
  NoDup (map fst TYPE_NAMES)
  /\ NoDup (map snd TYPE_NAMES)
  /\ (forall n : Z, name_of n TYPE_NAMES = None -> _type_to_str (TInt n) = pretty n)
  /\ (forall a b : Z, _type_to_str (TInt a) = _type_to_str (TInt b) -> a = b).
Proof.
  assert (Hnames : NoDup (map snd TYPE_NAMES)).
  { apply (bool_decide_unpack _). by vm_compute. }
  split_and!; [apply (bool_decide_unpack _); by vm_compute|done| |].
  - intros n Hn. unfold _type_to_str. by rewrite Hn.
  - intros a b. unfold _type_to_str.
    destruct (name_of a TYPE_NAMES) as [na|] eqn:Ha;
      destruct (name_of b TYPE_NAMES) as [nb|] eqn:Hb; cbn [from_option id].
    + intros ->. apply name_of_elem in Ha, Hb. by eapply NoDup_snd_inj.
    + intros ->. apply name_of_capital in Ha. by rewrite pretty_Z_not_capital in Ha.
    + intros <-. apply name_of_capital in Hb. by rewrite pretty_Z_not_capital in Hb.
    + apply pretty_Z_inj.
Qed.

Lemma sinks_called_app (a b : list Event) :
  sinks_called (a ++ b) = sinks_called a ++ sinks_called b.
Proof. apply omap_app. Qed.

Lemma safe_call_one (env : Env) (w : Wiring) (s : Sink) (msg : dict) :
  let b := _safe_call env w s msg in
  (sinks_called (fst b) = [] \/ (sinks_called (fst b) = [s] /\ sink_set w s = true))
  /\ (snd b = true ->
      DEBUG_UI env = false /\ sinks_called (fst b) = [s] /\ sink_raises w s msg = true)
  /\ (seed_done_called (fst b) -> False).
Proof.
  cbn zeta. unfold _safe_call, seed_done_called.
  destruct (sink_set w s), (DEBUG_UI env), (sink_raises w s msg); cbn;
    rewrite ?elem_of_cons, ?elem_of_nil; split_and!; try tauto; try done;
    intuition discriminate.
Qed.

Lemma with_seed_done_one (env : Env) (w : Wiring) (s : Sink) (msg : dict)
    (reasons : list string) (none_key : string) (cb_set : bool) (cb : Event) :
  cb = call_positions_seed_done \/ cb = call_orders_seed_done ->
  let b := with_seed_done env w s msg reasons none_key cb_set cb in
  (sinks_called (fst b) = [] \/ (sinks_called (fst b) = [s] /\ sink_set w s = true))
  /\ (snd b = true ->
      DEBUG_UI env = false /\ sinks_called (fst b) = [s] /\ sink_raises w s msg = true)
  /\ (seed_done_called (fst b) -> snd b = false).
Proof.
  intros Hcb. cbn zeta. unfold with_seed_done.
  pose proof (safe_call_one env w s msg) as (H1 & H2 & H3). cbn zeta in *.
  destruct (_safe_call env w s msg) as [ev [|]]; cbn [fst snd] in *.
  { split_and!; [done|done|]. intros H. by destruct (H3 H). }
  destruct (batch_done msg reasons none_key && cb_set); cbn [fst snd];
    [|split_and!; done].
  rewrite sinks_called_app.
  assert (Hcbs : sinks_called
                   (cb :: (if seed_done_raises w && DEBUG_UI env
                           then [error "ui" "seed_done handler failed"] else [])) = []).
  { destruct Hcb as [-> | ->]; by destruct (_ && _). }
  rewrite Hcbs, app_nil_r. split_and!; done.
Qed.

(** The sinks of one dispatch: at most one, a set one; a raise is the
    sink's, with [DEBUG_UI] off. *)
Lemma dispatch_sinks (env : Env) (w : Wiring) (t : TypeField) (msg : dict) :
  let res := _dispatch_for_panels env w t msg in
  length (sinks_called (fst res)) <= 1
  /\ (forall s, s ∈ sinks_called (fst res) -> sink_set w s = true)
  /\ (snd res = true ->
      DEBUG_UI env = false
      /\ exists s, sinks_called (fst res) = [s] /\ sink_raises w s msg = true)
  /\ (seed_done_called (fst res) -> snd res = false)
  /\ (name_in (_type_to_str t) ["LogonResponse"; "EncodingResponse"; "Heartbeat"] = true ->
      sinks_called (fst res) = [] /\ snd res = false).
Proof.
  cbn zeta. unfold _dispatch_for_panels.
  set (diag := _ ++ (if DEBUG_DATA env then _ else _)).
  assert (Hdiag : sinks_called diag = [] /\ (seed_done_called diag -> False)).
  { subst diag. unfold seed_done_called.
    destruct (Dispatch.diagnostic_logger w), (logger_raises w msg), (DEBUG_DATA env); cbn;
      rewrite ?elem_of_cons, ?elem_of_nil; split; try done; intuition discriminate. }
  destruct Hdiag as [Hd1 Hd2]. clearbody diag.
  set (b := if name_in _ _ then _ else _).
  assert (Hb : exists s,
             (sinks_called (fst b) = [] \/ (sinks_called (fst b) = [s] /\ sink_set w s = true))
             /\ (snd b = true ->
                 DEBUG_UI env = false /\ sinks_called (fst b) = [s]
                 /\ sink_raises w s msg = true)
             /\ (seed_done_called (fst b) -> snd b = false)
             /\ (name_in (_type_to_str t) ["LogonResponse"; "EncodingResponse"; "Heartbeat"]
                 = true -> b = ([], false))).
  { subst b.
    destruct (name_in _ ["LogonResponse"; _; _]).
    { exists on_order. split_and!; try done. by left. }
    assert (Hsafe : forall s,
              let b := _safe_call env w s msg in
              exists s',
                (sinks_called (fst b) = []
                 \/ (sinks_called (fst b) = [s'] /\ sink_set w s' = true))
                /\ (snd b = true ->
                    DEBUG_UI env = false /\ sinks_called (fst b) = [s']
                    /\ sink_raises w s' msg = true)
                /\ (seed_done_called (fst b) -> snd b = false)
                /\ (false = true -> b = ([], false))).
    { intros s. cbn zeta. exists s.
      pose proof (safe_call_one env w s msg) as (H1 & H2 & H3).
      split_and!; try done; intros H; by destruct (H3 H). }
    repeat match goal with
           | |- context [if ?c then _safe_call _ _ _ _ else _] => destruct c; [apply Hsafe|]
           | |- context [if ?c then with_seed_done _ _ ?s _ _ _ _ _ else _] =>
               destruct c;
               [exists s; pose proof (with_seed_done_one env w s msg) as Hw;
                split_and!; try done; apply Hw; auto|]
           end.
    exists on_order. split_and!; try done. by left. }
  destruct Hb as (s & H1 & H2 & H3 & H4). destruct b as [evs raised].
  cbn [fst snd] in *. rewrite sinks_called_app, Hd1, app_nil_l.
  split_and!.
  - destruct H1 as [-> | [-> _]]; cbn; lia.
  - intros s' Hs'. destruct H1 as [H1 | [H1 Hset]]; rewrite H1 in Hs'.
    + by apply elem_of_nil in Hs'.
    + by apply list_elem_of_singleton in Hs' as ->.
  - intros Hr. destruct (H2 Hr) as (? & ? & ?). eauto.
  - intros [[H|H]%elem_of_app | [H|H]%elem_of_app].
    + destruct Hd2. by left.
    + apply H3. by left.
    + destruct Hd2. by right.
    + apply H3. by right.
  - intros Hn. by injection (H4 Hn) as -> ->.
Qed.


Lemma safe_call_elem (env : Env) (w : Wiring) (s : Sink) (msg : dict) (e : Event) :
  e ∈ fst (_safe_call env w s msg) ->
  e = call s msg \/ e = error "ui" "UI handler error".
Proof.
  unfold _safe_call.
  destruct (sink_set w s), (DEBUG_UI env), (sink_raises w s msg); cbn;
    rewrite ?elem_of_cons, ?elem_of_nil; tauto.
Qed.

Lemma with_seed_done_elem (env : Env) (w : Wiring) (s : Sink) (msg : dict)
    (reasons : list string) (none_key : string) (cb_set : bool) (cb e : Event) :
  e ∈ fst (with_seed_done env w s msg reasons none_key cb_set cb) ->
  e = call s msg \/ e = error "ui" "UI handler error"
  \/ e = error "ui" "seed_done handler failed"
  \/ (e = cb /\ batch_done msg reasons none_key = true /\ cb_set = true
      /\ sink_set w s && negb (DEBUG_UI env) && sink_raises w s msg = false).
Proof.
  unfold with_seed_done, _safe_call.
  destruct (sink_set w s), (DEBUG_UI env), (sink_raises w s msg),
    (batch_done msg reasons none_key), cb_set, (seed_done_raises w); cbn;
    rewrite ?elem_of_cons, ?elem_of_nil; tauto.
Qed.

Lemma with_seed_done_called (env : Env) (w : Wiring) (s : Sink) (msg : dict)
    (reasons : list string) (none_key : string) (cb_set : bool) (cb : Event) :
  batch_done msg reasons none_key = true -> cb_set = true ->
  sink_set w s && negb (DEBUG_UI env) && sink_raises w s msg = false ->
  cb ∈ fst (with_seed_done env w s msg reasons none_key cb_set cb).
Proof.
  intros Hb Hc Hr. unfold with_seed_done, _safe_call. rewrite Hb, Hc.
  destruct (sink_set w s), (DEBUG_UI env), (sink_raises w s msg); try done; cbn;
    rewrite ?elem_of_cons; tauto.
Qed.

Lemma with_seed_done_order (env : Env) (w : Wiring) (s : Sink) (msg : dict)
    (reasons : list string) (none_key : string) (cb_set : bool) (cb : Event) :
  cb = call_positions_seed_done \/ cb = call_orders_seed_done ->
  sinks_called
    (after_seed_done (fst (with_seed_done env w s msg reasons none_key cb_set cb))) = [].
Proof.
  unfold with_seed_done, _safe_call.
  intros [-> | ->];
    destruct (sink_set w s), (DEBUG_UI env), (sink_raises w s msg),
      (batch_done msg reasons none_key), cb_set, (seed_done_raises w); reflexivity.
Qed.

Lemma safe_call_order (env : Env) (w : Wiring) (s : Sink) (msg : dict) :
  sinks_called (after_seed_done (fst (_safe_call env w s msg))) = [].
Proof.
  unfold _safe_call.
  by destruct (sink_set w s), (DEBUG_UI env), (sink_raises w s msg).
Qed.

Lemma after_seed_done_app (a b : list Event) :
  (seed_done_called a -> False) -> after_seed_done (a ++ b) = after_seed_done b.
Proof.
  unfold seed_done_called. induction a as [|e a IH]; [done|]. intros H.
  assert (Ha : after_seed_done (a ++ b) = after_seed_done b).
  { apply IH. intros [?|?]; apply H; [left|right]; by apply list_elem_of_further. }
  destruct e; cbn [app after_seed_done]; try done;
    exfalso; apply H; [left|right]; apply list_elem_of_here.
Qed.

Lemma batch_done_ends_batch (msg : dict) (reasons : list string) (none_key : string) :
  batch_done msg reasons none_key = true <-> ends_batch msg reasons none_key.
Proof.
  unfold batch_done, ends_batch, one_of. cbn zeta.
  rewrite andb_true_iff, orb_true_iff, !andb_true_iff.
  assert (Hone : existsb (fun n => py_eq (get_or msg "UpdateReason" (VStr "")) (VStr n))
                   reasons = true
                 <-> exists n, n ∈ reasons /\ get_or msg "UpdateReason" (VStr "") = VStr n).
  { rewrite existsb_exists. split.
    - intros (n & Hn & He). exists n. split; [by apply list_elem_of_In|by apply py_eq_str].
    - intros (n & Hn & He). exists n. split; [by apply list_elem_of_In|by apply py_eq_str]. }
  rewrite Hone. tauto.
Qed.

(** The diagnostic part of a dispatch and the choice of the branch, made
    explicit: the events are the diagnostics followed by those of one
    branch. *)
Lemma dispatch_branches (env : Env) (w : Wiring) (t : TypeField) (msg : dict) :
  exists diag b,
    _dispatch_for_panels env w t msg = (diag ++ fst b, snd b)
    /\ (seed_done_called diag -> False)
    /\ let tname := _type_to_str t in
       if String.eqb tname "PositionUpdate"
       then b = with_seed_done env w on_position msg
                  ["CurrentPositionsRequestResponse"; "PositionsRequestResponse"]
                  "NoPositions" (on_positions_seed_done w) call_positions_seed_done
       else if String.eqb tname "OrderUpdate"
       then b = with_seed_done env w on_order msg
                  ["OpenOrdersRequestResponse"; "OrdersRequestResponse"]
                  "NoOrders" (on_orders_seed_done w) call_orders_seed_done
       else b = ([], false) \/ exists s, b = _safe_call env w s msg.
Proof.
  unfold _dispatch_for_panels.
  set (diag := _ ++ (if DEBUG_DATA env then _ else _)).
  assert (Hdiag : seed_done_called diag -> False).
  { subst diag. unfold seed_done_called.
    destruct (Dispatch.diagnostic_logger w), (logger_raises w msg), (DEBUG_DATA env); cbn;
      rewrite ?elem_of_cons, ?elem_of_nil; intuition discriminate. }
  clearbody diag. cbn zeta.
  set (b := if name_in _ _ then _ else _).
  exists diag, b. split; [by destruct b|]. split; [done|]. subst b.
  destruct (String.eqb_spec (_type_to_str t) "PositionUpdate") as [->|Hp]; [reflexivity|].
  destruct (String.eqb_spec (_type_to_str t) "OrderUpdate") as [->|Ho]; [reflexivity|].
  repeat match goal with
         | |- (if ?c then _ else _) = _ \/ _ => destruct c; [eauto|]
         end.
  by left.
Qed.

(** X12: what [_dispatch_for_panels] does with one message.  At most one
    sink is called, and only a sink that is set.  The call raises only with
    [DEBUG_UI] off, and then because the sink it called raised; a failing
    diagnostic logger or seed-done callback never makes it raise.  The
    positions seed-done callback is called exactly when the message is a
    PositionUpdate that ends its batch, the callback is set, and the call
    of the sink did not raise out of [_safe_call]: so also when the sink is
    not set, and when it raised under [DEBUG_UI], where the error is only
    logged; likewise for orders.  No sink is called after a seed-done
    callback.  A logon or encoding response and a heartbeat reach no
    sink. *)
Theorem X12_dispatch_one_sink (env : Env) (w : Wiring) (t : TypeField) (msg : dict) :
  let res := _dispatch_for_panels env w t msg in
  length (sinks_called (fst res)) <= 1
  /\ (forall s, s ∈ sinks_called (fst res) -> sink_set w s = true)
  /\ (snd res = true ->
      DEBUG_UI env = false
      /\ exists s, sinks_called (fst res) = [s] /\ sink_raises w s msg = true)
  /\ (call_positions_seed_done ∈ fst res
      <-> _type_to_str t = "PositionUpdate"
          /\ ends_batch msg ["CurrentPositionsRequestResponse"; "PositionsRequestResponse"]
               "NoPositions"
          /\ on_positions_seed_done w = true
          /\ sink_set w on_position && negb (DEBUG_UI env) && sink_raises w on_position msg
             = false)
  /\ (call_orders_seed_done ∈ fst res
      <-> _type_to_str t = "OrderUpdate"
          /\ ends_batch msg ["OpenOrdersRequestResponse"; "OrdersRequestResponse"]
               "NoOrders"
          /\ on_orders_seed_done w = true
          /\ sink_set w on_order && negb (DEBUG_UI env) && sink_raises w on_order msg
             = false)
  /\ (seed_done_called (fst res) -> snd res = false)
  /\ sinks_called (after_seed_done (fst res)) = []
  /\ (name_in (_type_to_str t) ["LogonResponse"; "EncodingResponse"; "Heartbeat"] = true ->
      sinks_called (fst res) = [] /\ snd res = false).
Proof.
  cbn zeta.
  destruct (dispatch_sinks env w t msg) as (H1 & H2 & H3 & H4 & H5).
  destruct (dispatch_branches env w t msg) as (diag & b & Hres & Hdiag & Hb).
  cbn zeta in Hb. rewrite Hres in *. cbn [fst snd] in *.
  assert (Hin : forall cb, cb = call_positions_seed_done \/ cb = call_orders_seed_done ->
                  cb ∈ diag ++ fst b <-> cb ∈ fst b).
  { intros cb Hcb. rewrite elem_of_app. split; [|by right].
    intros [Hd|?]; [|done]. exfalso. apply Hdiag. unfold seed_done_called.
    destruct Hcb as [-> | ->]; auto. }
  rewrite !Hin by auto. rewrite (after_seed_done_app _ _ Hdiag).
  rewrite <- !batch_done_ends_batch.
  split_and!; [done|done|done| | |done| |done].
  - destruct (String.eqb_spec (_type_to_str t) "PositionUpdate") as [Hp|Hp].
    + subst b. split.
      * intros He%with_seed_done_elem.
        destruct He as [He|[He|[He|He]]]; [done|done|done|]. tauto.
      * intros (_ & ? & ? & ?). by apply with_seed_done_called.
    + split; [|by intros [? _]]. intros He. exfalso.
      destruct (String.eqb (_type_to_str t) "OrderUpdate").
      * subst b. apply with_seed_done_elem in He.
        destruct He as [He|[He|[He|[He _]]]]; done.
      * destruct Hb as [-> | [s ->]]; [by apply elem_of_nil in He|].
        apply safe_call_elem in He as [He|He]; done.
  - destruct (String.eqb_spec (_type_to_str t) "PositionUpdate") as [Hp|Hp].
    + split; [|intros [Ho _]; by rewrite Hp in Ho]. intros He. exfalso.
      subst b. apply with_seed_done_elem in He.
      destruct He as [He|[He|[He|[He _]]]]; done.
    + destruct (String.eqb_spec (_type_to_str t) "OrderUpdate") as [Ho|Ho].
      * subst b. split.
        -- intros He%with_seed_done_elem.
           destruct He as [He|[He|[He|He]]]; [done|done|done|]. tauto.
        -- intros (_ & ? & ? & ?). by apply with_seed_done_called.
      * split; [|by intros [? _]]. intros He. exfalso.
        destruct Hb as [-> | [s ->]]; [by apply elem_of_nil in He|].
        apply safe_call_elem in He as [He|He]; done.
  - destruct (String.eqb (_type_to_str t) "PositionUpdate").
    { subst b. apply with_seed_done_order. by left. }
    destruct (String.eqb (_type_to_str t) "OrderUpdate").
    { subst b. apply with_seed_done_order. by right. }
    destruct Hb as [-> | [s ->]]; [done|apply safe_call_order].
Qed.

End DispatchProps.

(** ** Requests, heartbeats and the two loops *)

Section TransportProps.
Import DTCClient Requests.



Lemma written_app (a b : list Event) : written (a ++ b) = written a ++ written b.
Proof. apply flat_map_app. Qed.

Lemma send_written (env : Env) (obj : dict) (c : Client) (body : list byte) :
  sock c = true -> (forall d, sendall env d = Sent) ->
  json_dumps env obj = Some body ->
  written (snd (_send env obj c)) = body ++ [NULL].
Proof.
  intros Hsock Hsend Hbody. unfold _send. rewrite Hsock, Hbody, Hsend. cbn [negb snd].
  rewrite written_app. destruct (_ && _); cbn; by rewrite app_nil_r.
Qed.

Lemma sent_frames (env : Env) (objs : list dict) (c : Client) :
  sock c = true -> (forall d, sendall env d = Sent) ->
  Forall (codec_round_trips env) objs ->
  exists frames,
    written (send_all env objs c) = wire frames
    /\ Forall no_delimiter frames
    /\ objects_only env frames
    /\ decodable env frames = map JObject objs.
Proof.
  intros Hsock Hsend. induction 1 as [|obj objs (body & Hd & Hne & Hnd & Hl) _ IH].
  - exists []. split_and!; [done|constructor|unfold objects_only; constructor|done].
  - destruct IH as (frames & Hw & Hf & Ho & Hdec). exists (body :: frames).
    unfold send_all in *. cbn [flat_map]. rewrite written_app, Hw.
    rewrite (send_written env obj c body Hsock Hsend Hd).
    split_and!.
    + done.
    + by constructor.
    + constructor; [|done]. by rewrite Hl.
    + unfold decodable in *. destruct body as [|b0 body]; [done|].
      cbn [omap list_omap map]. by rewrite Hl, Hdec.
Qed.

(** X15: what [_send] writes, [_rx_loop] reads back.  Objects that the
    codec round-trips, sent on a connected socket that takes every write,
    and received on the other side in any chunking and with any timeouts in
    between, are handed to [_dispatch_for_panels] as the same objects, once
    each and in the order sent; nothing is left in the receive buffer and
    the loop keeps receiving. *)
Theorem X15_send_receive_round_trip (env : Env) (objs : list dict) (tx rx : Client)
    (reads : list Recv)
    (Hcodec : Forall (codec_round_trips env) objs)
    (Htx : sock tx = true)
    (Hsend : forall d, sendall env d = Sent)
    (Hstop : _stop rx = false) (Hrx : sock rx = true) (Hbuf : _rx_buf rx = [])
    (Hreads : Forall keeps_receiving reads)
    (Hdata : concat (map data_of reads) = written (send_all env objs tx)) :
  exists rx' evs,
    _rx_loop env reads rx = (rx', evs, Receiving)
    /\ dispatched evs = map JObject objs
    /\ _rx_buf rx' = [].
Proof.
  destruct (sent_frames env objs tx Htx Hsend Hcodec) as (frames & Hw & Hf & Ho & Hdec).
  destruct (rx_loop_dispatches_decodable_frames env reads rx frames []
              Hstop Hrx Hbuf Hreads) as (rx' & evs & Hl & Hd & Hb); try done.
  - by rewrite Hdata, Hw, app_nil_r.
  - exists rx', evs. by rewrite Hl, Hd, Hdec.
Qed.

(** X15 on two heartbeats that arrive split across three reads, with a
    timeout in between. *)
Lemma X15_send_receive_round_trip_witness :
  exists rx' evs,
    _rx_loop (Sample.client_env false)
      [Chunk (take 4 Sample.frame_heartbeat); Timeout;
       Chunk (drop 4 Sample.frame_heartbeat ++ [NULL] ++ take 7 Sample.frame_heartbeat);
       Chunk (drop 7 Sample.frame_heartbeat ++ [NULL])]
      Sample.connected
    = (rx', evs, Receiving)
    /\ dispatched evs = [JObject Sample.heartbeat; JObject Sample.heartbeat]
    /\ _rx_buf rx' = [].
Proof.
  apply (X15_send_receive_round_trip (Sample.client_env false)
           [Sample.heartbeat; Sample.heartbeat] Sample.connected Sample.connected).
  - repeat constructor; exists Sample.frame_heartbeat; by vm_compute.
  - reflexivity.
  - reflexivity.
  - reflexivity.
  - reflexivity.
  - reflexivity.
  - repeat constructor.
  - by vm_compute.
Defined.

Lemma releases_app (a b : list Event) : releases (a ++ b) = releases a + releases b.
Proof. unfold releases. by rewrite List.filter_app, length_app. Qed.

Lemma disconnects_app (a b : list Event) :
  disconnects (a ++ b) = disconnects a + disconnects b.
Proof. unfold disconnects. by rewrite List.filter_app, length_app. Qed.

Lemma rx_frame_quiet (env : Env) (c : Client) (raw : list byte) :
  releases (fst (rx_frame env c raw)) = 0 /\ disconnects (fst (rx_frame env c raw)) = 0.
Proof.
  unfold rx_frame. repeat case_match; simplify_eq; cbn [fst];
    rewrite ?releases_app, ?disconnects_app; by repeat case_match.
Qed.

Lemma drain_quiet (fuel : nat) (env : Env) (c : Client) (buf : list byte) :
  releases (snd (fst (drain fuel env c buf))) = 0
  /\ disconnects (snd (fst (drain fuel env c buf))) = 0.
Proof.
  revert buf. induction fuel as [|fuel IH]; intros buf; [done|]. cbn [drain].
  destruct (index0 buf) as [i|]; [|done].
  destruct (take i buf) as [|b raw]; [apply IH|].
  pose proof (rx_frame_quiet env c (b :: raw)) as [H1 H2].
  destruct (rx_frame env c (b :: raw)) as [ev [|]]; cbn [fst snd] in *; [done|].
  specialize (IH (drop (S i) buf)).
  destruct (drain fuel env c (drop (S i) buf)) as [[b' evs] out']. cbn [fst snd] in *.
  rewrite releases_app, disconnects_app. lia.
Qed.

Lemma finally_close_counts (c : Client) (evs : list Event) (e : RxEnd) :
  releases evs = 0 -> disconnects evs = 0 ->
  let res := finally_close c evs e in
  _stop (fst (fst res)) = true /\ sock (fst (fst res)) = false
  /\ releases (snd (fst res)) = (if sock c then 1 else 0)
  /\ disconnects (snd (fst res)) = (if on_disconnected c then 1 else 0)
  /\ snd res = e.
Proof.
  intros Hr Hd. cbn zeta. unfold finally_close, close. cbn [fst snd _stop sock].
  rewrite releases_app, disconnects_app, Hr, Hd.
  by destruct (sock c), (DTCClient.diagnostic_logger c), (on_disconnected c).
Qed.

(** X16: [_rx_loop] closes the client exactly once, when it leaves.  While
    it is still receiving, the client is neither stopped nor without
    socket, and nothing was released or reported as disconnected.  However
    it leaves (the peer closed, the client was stopped, a socket error, an
    exception from a frame), the client ends stopped and without socket,
    the socket it had was released once, and the disconnect callback, when
    there is one, was called once. *)
Theorem X16_rx_loop_closes_once (env : Env) (reads : list Recv) (c : Client) :
  let res := _rx_loop env reads c in
  let c' := fst (fst res) in
  let evs := snd (fst res) in
  (snd res = Receiving ->
   _stop c' = false /\ sock c' = true /\ _stop c = false /\ sock c = true
   /\ releases evs = 0 /\ disconnects evs = 0)
  /\ (snd res <> Receiving ->
      _stop c' = true /\ sock c' = false
      /\ releases evs = (if sock c then 1 else 0)
      /\ disconnects evs = (if on_disconnected c then 1 else 0)).
Proof.
  cbn zeta. revert c. induction reads as [|rd reads IH]; intros c.
  - cbn [_rx_loop]. destruct (_stop c || negb (sock c)) eqn:Hs.
    + pose proof (finally_close_counts c [] Finished eq_refl eq_refl) as (?&?&?&?&He).
      cbn zeta in *. rewrite He. split; [done|]. by intros _.
    + apply orb_false_iff in Hs as [Hstop Hsock%negb_false_iff]. cbn [fst snd].
      split; [by intros _|done].
  - cbn [_rx_loop]. destruct (_stop c || negb (sock c)) eqn:Hs.
    { pose proof (finally_close_counts c [] Finished eq_refl eq_refl) as (?&?&?&?&He).
      cbn zeta in *. rewrite He. split; [done|]. by intros _. }
    apply orb_false_iff in Hs as [Hstop Hsock%negb_false_iff].
    destruct rd as [[|b chunk]| |].
    + pose proof (finally_close_counts c [] Finished eq_refl eq_refl) as (?&?&?&?&He).
      cbn zeta in *. rewrite He. split; [done|]. by intros _.
    + pose proof (drain_quiet (length (_rx_buf c ++ b :: chunk)) env c
                    (_rx_buf c ++ b :: chunk)) as [Hq1 Hq2].
      destruct (drain _ env c _) as [[buf' evs] out]. cbn [fst snd] in Hq1, Hq2.
      destruct out.
      * pose proof (finally_close_counts (with_rx_buf buf' c) evs RaisedFromFrame Hq1 Hq2)
          as (?&?&?&?&He).
        cbn zeta in *. rewrite He. split; [done|]. by intros _.
      * specialize (IH (with_rx_buf buf' c)).
        destruct (_rx_loop env reads (with_rx_buf buf' c)) as [[c2 evs'] e].
        cbn [fst snd with_rx_buf sock _stop on_disconnected] in *.
        rewrite releases_app, disconnects_app, Hq1, Hq2. cbn [Nat.add].
        destruct IH as [IH1 IH2]. split.
        -- intros He. destruct (IH1 He) as (?&?&?&?&?&?). done.
        -- intros He. by apply IH2.
    + apply IH.
    + pose proof (finally_close_counts c [] RaisedSocketError eq_refl eq_refl)
        as (?&?&?&?&He).
      cbn zeta in *. rewrite He. split; [done|]. by intros _.
Qed.

Lemma send_returns (env : Env) (obj : dict) (c : Client) :
  fst (_send env obj c) = Ret VNone.
Proof.
  unfold _send. destruct (negb (sock c)); [done|].
  destruct (json_dumps env obj); [|done]. by destruct (sendall env _).
Qed.

(** X17: a failing write does not end the heartbeats.  On a client that is
    connected and not stopped, [_hb_loop] is still looping after any number
    of turns and has made one [_send] per turn, whatever became of the
    writes, because [_send] never raises; only [close] ends it: on a closed
    client the loop leaves at once and sends nothing. *)
Theorem X17_heartbeats_outlive_failed_writes (env : Env) (turns : nat) (c : Client) :
  (_stop c = false -> sock c = true ->
   _hb_loop turns env c
   = (concat (replicate turns (snd (_send env heartbeat_request c))), true))
  /\ _hb_loop turns env (fst (close c)) = ([], false)
  /\ (forall obj, delivered (snd (_send env obj (fst (close c)))) = false).
Proof.
  split_and!.
  - intros Hstop Hsock. induction turns as [|n IH]; cbn [_hb_loop replicate concat];
      rewrite Hstop, Hsock; cbn [orb negb]; [done|].
    fold heartbeat_request.
    pose proof (send_returns env heartbeat_request c) as Hret.
    destruct (_send env heartbeat_request c) as [res ev]. cbn [fst snd] in *. subst res.
    by rewrite IH.
  - by destruct turns.
  - intros obj. unfold _send, close. cbn [fst sock negb snd]. by destruct (DEBUG_NETWORK env).
Qed.

(** X17 on a socket whose every write fails. *)
Lemma X17_heartbeats_outlive_failed_writes_witness :
  let env := mkEnv false false false false (fun _ => None) (fun _ => Some Sample.frame_heartbeat)
               (fun _ => SendOSError) (fun _ => false) (fun _ => false) in
  _hb_loop 3 env Sample.connected
  = (replicate 3 (error "network" "Socket error sending DTC message"), true).
Proof.
  intros env.
  pose proof (X17_heartbeats_outlive_failed_writes env 3 Sample.connected) as (H & _).
  rewrite (H eq_refl eq_refl). reflexivity.
Defined.

End TransportProps.

(** ** Messages in the current mode *)

Section SteadyStateProps.
Import TradeMode Router.

Lemma debounced_same_mode (live : string) (now_ms : Q) (account qty : pyval)
    (q : list Candidate) :
  should_switch_mode_debounced live now_ms account
    (Some (detect_mode_from_account live account)) qty q = (false, q).
Proof.
  unfold should_switch_mode_debounced. destruct (negb _); [done|].
  by rewrite mode_eqb_refl.
Qed.

Lemma detect_and_switch_same_mode (env : Env) (now_ms : Q) (qty : pyval)
    (blocked_tag failed_tag : string) (msg : dict) (s : Sys) :
  _current_mode (router s) = msg_mode env msg ->
  detect_and_switch env now_ms qty blocked_tag failed_tag msg s = (s, [], Proceed).
Proof.
  intros Hmode. unfold detect_and_switch. fold (msg_account msg).
  destruct (negb _); [done|]. rewrite Hmode. unfold msg_mode.
  rewrite debounced_same_mode. cbn [negb]. by destruct s.
Qed.

(** X18: a message that carries the mode and account the router is in
    changes nothing.  [_on_order_signal] and [_on_position_signal] leave
    the router and the debounce queue as they were; the one call they make
    is the delivery of the message to the live panel, when it has the hook;
    and nothing is logged about the mode: no drift, no blocked switch, no
    failed detection. *)
Theorem X18_current_mode_message_only_delivered (env : Env) (now_ms : Q) (msg : dict)
    (s : Sys)
    (Hmode : _current_mode (router s) = msg_mode env msg)
    (Hacct : py_eq (msg_account msg) (_current_account (router s)) = true) :
  let ord := _on_order_signal env now_ms msg s in
  let pos := _on_position_signal env now_ms msg s in
  fst ord = s /\ fst pos = s
  /\ panel_calls (snd ord)
     = (if has_hook (panel_live (router s)) has_on_order_update
        then [on_order_update msg] else [])
  /\ panel_calls (snd pos)
     = (if has_hook (panel_live (router s)) has_on_position_update
        then [on_position_update msg] else [])
  /\ (forall tag,
        tag ∈ ["MODE_DRIFT_DETECTED"; "router.order.blocked";
               "router.order.mode_detect_failed"; "router.position.blocked";
               "router.position.mode_detect_failed"] ->
        log_warning tag ∉ snd ord ++ snd pos).
Proof.
  assert (Hdrift : _check_mode_drift env msg (router s) = []).
  { unfold _check_mode_drift. fold (msg_account msg). destruct (negb _); [done|].
    fold (msg_mode env msg). by rewrite Hmode, mode_eqb_refl, Hacct. }
  assert (Hord : _on_order_signal env now_ms msg s
                 = (s, (if has_hook (panel_live (router s)) has_on_order_update
                        then deliver env MOnOrderUpdate "router.order.marshal_failed"
                               [on_order_update msg]
                        else [])
                       ++ order_fill_summary msg)).
  { unfold _on_order_signal. by rewrite Hdrift, detect_and_switch_same_mode. }
  assert (Hpos : _on_position_signal env now_ms msg s
                 = (s, if has_hook (panel_live (router s)) has_on_position_update
                       then deliver env MOnPositionUpdate "router.position.marshal_failed"
                              [on_position_update msg]
                       else [])).
  { unfold _on_position_signal. rewrite Hdrift.
    destruct (negb _); [by rewrite detect_and_switch_same_mode|done]. }
  cbn zeta. rewrite Hord, Hpos. cbn [fst snd]. clear Hord Hpos.
  split_and!; [done|done|..].
  - apply panel_calls_order_tail.
  - destruct (has_hook _ has_on_position_update); [|done]. by apply panel_calls_deliver.
  - intros tag Htag [[He|He]%elem_of_app|He]%elem_of_app.
    + destruct (has_hook _ has_on_order_update); [|by apply elem_of_nil in He].
      apply (mode_calls_deliver env MOnOrderUpdate) in He as [He|He]; [|done|done].
      injection He as ->. revert Htag. rewrite !elem_of_cons, elem_of_nil.
      intuition discriminate.
    + apply (proj2 (mode_calls_summary msg)) in He. injection He as ->.
      revert Htag. rewrite !elem_of_cons, elem_of_nil. intuition discriminate.
    + destruct (has_hook _ has_on_position_update); [|by apply elem_of_nil in He].
      apply (mode_calls_deliver env MOnPositionUpdate) in He as [He|He]; [|done|done].
      injection He as ->. revert Htag. rewrite !elem_of_cons, elem_of_nil.
      intuition discriminate.
Qed.

(** X18 on a router in SIM for "Sim1": a filled order without a fill price
    and a position of that account. *)
Lemma X18_current_mode_message_only_delivered_witness :
  let s := mkSys (Sample.router_with (Sample.session SIM ∅) SIM (VStr "Sim1"))
             [mkCandidate 0 LIVE (VStr "120005")] in
  let order := <["OrderStatus" := VNum 3]> (Sample.order_for "Sim1") in
  fst (_on_order_signal Sample.env 100 order s) = s
  /\ panel_calls (snd (_on_order_signal Sample.env 100 order s)) = [on_order_update order].
Proof.
  intros s order.
  pose proof (X18_current_mode_message_only_delivered Sample.env 100 order s
                eq_refl eq_refl) as (H1 & _ & H2 & _).
  split; [exact H1|exact H2].
Defined.

End SteadyStateProps.
